(** * cloud-code: the file-based task interface, the agent's task selector,
      the coding-CLI handoff check and the comment-command parser

    A shallow embedding of
    - [cloud_code/core/task_interface.py]      (documents, load/save, reporting),
    - [cloud_code/agent_control_plane/loop.py] (task selection, task execution),
    - [cloud_code/agent_control_plane/cli_runner.py] (handoff detection),
    - [cloud_code/github/comment_parser.py]    (the [/cloud-code] commands,
      the context of an issue),
    - [cloud_code/github/task_creator.py], [cloud_code/github/events.py] and
      the enum [TaskPriority] of [cloud_code/db/models.py] (tasks from issues),
    followed by the properties of the specification that concern them and by
    further properties of the code.

    Conventions.  A Python [str] is a [string]; text that is scanned
    character by character is taken as its [list ascii], with characters in
    the ASCII range.  A [datetime] is the number of microseconds since the
    epoch ([datetime.utcnow()] is naive UTC).  A pydantic model is a record in
    a module of the model's name, with the methods of the class; an attribute
    assignment [o.f = v] is the record with that field replaced, and a method
    that mutates [self] returns the object as it is after the call.  A
    [dict[str, TaskReport]] is a [gmap string TaskReport.t].  Code that reads
    the clock, touches files or raises runs in the monad [M] over a [World]. *)

From Stdlib Require Import ZArith String Ascii List Bool Lia Sorted DecimalString DecimalZ.
From stdpp Require Import base option list gmap strings.

Open Scope Z_scope.

(* ===================================================================== *)
(** * 1. Python's [str], as far as the code uses it *)
(* ===================================================================== *)

Module Py.

Definition str : Type := list ascii.

Definition of_string (s : string) : str := list_ascii_of_string s.
Definition to_string (s : str) : string := string_of_list_ascii s.

Definition code (c : ascii) : N := N_of_ascii c.

(** [c.isspace()], which is also the class [\s] of [re] on text. *)
Definition isspace (c : ascii) : bool :=
  ((9 <=? code c) && (code c <=? 13) || (28 <=? code c) && (code c <=? 32))%N.

(** The class [\w] of [re]: letters, digits and the underscore. *)
Definition isword (c : ascii) : bool :=
  ((48 <=? code c) && (code c <=? 57) || (65 <=? code c) && (code c <=? 90)
   || (97 <=? code c) && (code c <=? 122) || (code c =? 95))%N.

Definition lower_char (c : ascii) : ascii :=
  if ((65 <=? code c) && (code c <=? 90))%N then ascii_of_N (code c + 32) else c.

(** [s.lower()] *)
Definition lower (s : str) : str := List.map lower_char s.

Fixpoint lstrip (s : str) : str :=
  match s with
  | c :: s' => if isspace c then lstrip s' else s
  | [] => []
  end.
Definition rstrip (s : str) : str := rev (lstrip (rev s)).
(** [s.strip()] *)
Definition strip (s : str) : str := rstrip (lstrip s).

(** The longest prefix of characters in a class, and what follows it. *)
Fixpoint span (p : ascii -> bool) (s : str) : str * str :=
  match s with
  | c :: s' => if p c then let (a, b) := span p s' in (c :: a, b) else ([], s)
  | [] => ([], [])
  end.

(** [s.split()]: the maximal runs of characters that are not whitespace. *)
Fixpoint split_aux (s : str) (cur : str) : list str :=
  match s with
  | [] => match cur with [] => [] | _ => [rev cur] end
  | c :: s' =>
      if isspace c
      then match cur with [] => split_aux s' [] | _ => rev cur :: split_aux s' [] end
      else split_aux s' (c :: cur)
  end.
Definition split (s : str) : list str := split_aux s [].

(** [s.split(maxsplit=1)]: the first run, and the rest without its leading
    whitespace when that is not empty. *)
Definition split_maxsplit1 (s : str) : list str :=
  match lstrip s with
  | [] => []
  | s1 =>
      let (tok, rest) := span (fun c => negb (isspace c)) s1 in
      match lstrip rest with
      | [] => [tok]
      | rest' => [tok; rest']
      end
  end.

(** [hay.startswith(needle)] *)
Fixpoint startswith (hay needle : str) {struct needle} : bool :=
  match needle, hay with
  | [], _ => true
  | a :: needle', b :: hay' => Ascii.eqb a b && startswith hay' needle'
  | _ :: _, [] => false
  end.
(** [needle in hay] *)
Fixpoint contains (needle hay : str) : bool :=
  startswith hay needle
  || match hay with
     | [] => false
     | _ :: hay' => contains needle hay'
     end.

Definition nl : ascii := ascii_of_N 10.

(** [s.split("\n")]: the lines, of which there is always one. *)
Fixpoint split_nl (s : str) : list str :=
  match s with
  | [] => [[]]
  | c :: s' =>
      if Ascii.eqb c nl then [] :: split_nl s'
      else match split_nl s' with
           | l :: ls => (c :: l) :: ls
           | [] => [[c]]
           end
  end.

(** [sep.join(parts)] *)
Fixpoint join (sep : str) (parts : list str) : str :=
  match parts with
  | [] => []
  | [p] => p
  | p :: ps => p ++ sep ++ join sep ps
  end.

(** [s.lstrip(chars)]: without the leading characters that are in [chars]. *)
Fixpoint lstrip_chars (chars : str) (s : str) : str :=
  match s with
  | c :: s' => if existsb (Ascii.eqb c) chars then lstrip_chars chars s' else s
  | [] => []
  end.

(** [s.startswith(prefixes)] for a tuple of prefixes. *)
Definition startswith_any (s : str) (prefixes : list str) : bool :=
  existsb (startswith s) prefixes.

(** [s.lower()] on a [string]. *)
Definition lower_string (s : string) : string := to_string (lower (of_string s)).

End Py.


(* ===================================================================== *)
(** * 2. Paths, files, the clock and exceptions *)
(* ===================================================================== *)

Definition datetime : Type := Z.

(** What [model_dump(mode="json")] produces and [yaml.safe_load] returns:
    plain data, a [dict] keeping its insertion order. *)
#[local] Unset Elimination Schemes.
Inductive json : Type :=
| JNull
| JBool (b : bool)
| JInt (z : Z)
| JStr (s : string)
| JList (l : list json)
| JDict (l : list (string * json)).
#[local] Set Elimination Schemes.


(** An exception, by its class.  [ValueError] is the one that the code
    raises itself, with its message; [PathValueError] is the [ValueError] of
    [pathlib]; [OtherError] is any other exception [e], with [str(e)]. *)
Inductive exn : Type :=
| AttributeError
| IndexError
| ValueError (msg : string)
| PathValueError
| TypeError
| FileNotFoundError
| YAMLError
| ValidationError
| OtherError (msg : string).

(** [str(e)].  The message text of an exception that a library raises is
    not modelled: the name of its class stands for it. *)
Definition str_exn (e : exn) : string :=
  match e with
  | AttributeError => "AttributeError"
  | IndexError => "IndexError"
  | ValueError msg => msg
  | PathValueError => "ValueError"
  | TypeError => "TypeError"
  | FileNotFoundError => "FileNotFoundError"
  | YAMLError => "YAMLError"
  | ValidationError => "ValidationError"
  | OtherError msg => msg
  end.

(** [pathlib.Path], a path by its components. *)
Module Path.
Import Py.

Definition t : Type := list string.

(** [p / c] *)
Definition joinpath (p : t) (c : string) : t := p ++ [c].
Definition parent (p : t) : t := removelast p.
Definition name (p : t) : string := List.last p "".

(** [s.rfind(c)]: the last index of [c], or -1. *)
Fixpoint rfind_from (c : ascii) (s : str) (i found : Z) : Z :=
  match s with
  | [] => found
  | a :: s' => rfind_from c s' (i + 1) (if Ascii.eqb a c then i else found)
  end.
Definition rfind (c : ascii) (s : str) : Z := rfind_from c s 0 (-1).

(** [p.suffix]: from the last dot of the name, when that dot is neither its
    first nor its last character. *)
Definition suffix (p : t) : string :=
  let n := of_string (name p) in
  let i := rfind "." n in
  if (0 <? i) && (i <? Z.of_nat (length n) - 1)
  then to_string (drop (Z.to_nat i) n) else "".

(** [p.with_suffix(s)] for a well-formed [s] such as [".tmp"]; [None] is the
    [ValueError] of a path with an empty name. *)
Definition with_suffix (p : t) (s : string) : option t :=
  let n := name p in
  if String.eqb n "" then None
  else
    let old := suffix p in
    let n' :=
      if String.eqb old "" then n +:+ s
      else to_string (take (length (of_string n) - length (of_string old))%nat
                           (of_string n)) +:+ s in
    Some (parent p ++ [n']).

End Path.

(** The two libraries between a document and the bytes of its file:
    PyYAML, and the ISO 8601 text of a [datetime] that
    [model_dump(mode="json")] writes and pydantic reads back.  They are not
    code of the repository; the development is parametric in them. *)
Class Codec : Type := {
  content : Type;
  (** [yaml.dump(data, default_flow_style=False, sort_keys=False)] *)
  yaml_dump : json -> content;
  (** [yaml.safe_load(content)]; [None] when it raises *)
  yaml_safe_load : content -> option json;
  isoformat : datetime -> string;
  parse_datetime : string -> option datetime }.

(** What the development asks of them: reading gives back what was written.
    (A [JDict] stands for a [dict]: its keys are distinct.) *)
Class CodecLaws (C : Codec) : Prop := {
  yaml_roundtrip : forall v : json, yaml_safe_load (yaml_dump v) = Some v;
  datetime_roundtrip : forall d : datetime, parse_datetime (isoformat d) = Some d }.

(** The calls on the file system that the code makes, and [os.fsync], which
    it could make. *)
Inductive fs_op {C : Codec} : Type :=
| OpMkdir (p : Path.t)
| OpWriteText (p : Path.t) (c : content)
| OpFsync (p : Path.t)
| OpRename (src dst : Path.t).
Arguments OpMkdir {C} p.
Arguments OpWriteText {C} p c.
Arguments OpFsync {C} p.
Arguments OpRename {C} src dst.

(** The world a method runs in: the regular files with what they hold, the
    file-system calls made so far (the latest last), and the clock, whose
    [n]th reading is [clock n]. *)
Record World {C : Codec} : Type := mkWorld {
  files : gmap Path.t content;
  syscalls : list fs_op;
  ticks : nat;
  clock : nat -> datetime }.
Arguments mkWorld {C} files syscalls ticks clock.

Definition M {C : Codec} (A : Type) : Type := World -> (exn + A) * World.

Definition ret {C : Codec} {A : Type} (a : A) : M A := fun w => (inr a, w).
Definition raise {C : Codec} {A : Type} (e : exn) : M A := fun w => (inl e, w).
Definition bind {C : Codec} {A B : Type} (m : M A) (f : A -> M B) : M B :=
  fun w =>
    match m w with
    | (inr a, w') => f a w'
    | (inl e, w') => (inl e, w')
    end.
(** [try: m except Exception as e: h e] *)
Definition try_except {C : Codec} {A : Type} (m : M A) (h : exn -> M A) : M A :=
  fun w =>
    match m w with
    | (inl e, w') => h e w'
    | r => r
    end.
Definition lift {C : Codec} {A : Type} (e : exn) (o : option A) : M A :=
  match o with
  | Some a => ret a
  | None => raise e
  end.

Notation "x <- c1 ;; c2" := (bind c1 (fun x => c2))
  (at level 100, c1 at next level, right associativity).
Notation "c1 ;; c2" := (bind c1 (fun _ => c2))
  (at level 100, right associativity).

Section Primitives.
Context {C : Codec}.

(** [datetime.utcnow()] *)
Definition utcnow : M datetime :=
  fun w => (inr (clock w (ticks w)),
            mkWorld (files w) (syscalls w) (S (ticks w)) (clock w)).

(** What a call does to the files.  A directory holds no content, and
    [os.fsync] changes no content. *)
Definition apply_op (f : gmap Path.t content) (op : fs_op) : gmap Path.t content :=
  match op with
  | OpMkdir _ => f
  | OpWriteText p c => <[p := c]> f
  | OpFsync _ => f
  | OpRename src dst =>
      match f !! src with
      | Some c => <[dst := c]> (delete src f)
      | None => f
      end
  end.

(** The call is made: it is recorded, and the files change. *)
Definition exec (op : fs_op) (w : World) : World :=
  mkWorld (apply_op (files w) op) (syscalls w ++ [op]) (ticks w) (clock w).

(** [p.exists()] *)
Definition path_exists (p : Path.t) : M bool :=
  fun w => (inr (bool_decide (is_Some (files w !! p))), w).

(** [p.read_text()] *)
Definition read_text (p : Path.t) : M content :=
  fun w =>
    match files w !! p with
    | Some c => (inr c, w)
    | None => (inl FileNotFoundError, w)
    end.

(** [p.mkdir(parents=True, exist_ok=True)] *)
Definition mkdir (p : Path.t) : M unit :=
  fun w => (inr tt, exec (OpMkdir p) w).

(** [p.write_text(c)]: the file is created or truncated, then written. *)
Definition write_text (p : Path.t) (c : content) : M unit :=
  fun w => (inr tt, exec (OpWriteText p c) w).

(** [src.rename(dst)]: [dst] is replaced in one step. *)
Definition rename (src dst : Path.t) : M unit :=
  fun w =>
    match files w !! src with
    | Some _ => (inr tt, exec (OpRename src dst) w)
    | None => (inl FileNotFoundError, w)
    end.

Fixpoint mapM_io {A B : Type} (f : A -> M B) (l : list A) : M (list B) :=
  match l with
  | [] => ret []
  | x :: l' => y <- f x ;; ys <- mapM_io f l' ;; ret (y :: ys)
  end.

End Primitives.

(** Reading the fields of a pydantic model from the keyword arguments.  A
    value that is not of the field's type is a [ValidationError]: the lax
    conversions between scalar types are not modelled. *)
Module Pydantic.
Section Fields.
Context {C : Codec}.

Fixpoint get (d : list (string * json)) (k : string) : option json :=
  match d with
  | [] => None
  | (k', v) :: d' => if String.eqb k' k then Some v else get d' k
  end.

Definition str_ (j : json) : M string :=
  match j with JStr s => ret s | _ => raise ValidationError end.
Definition int_ (j : json) : M Z :=
  match j with JInt z => ret z | _ => raise ValidationError end.
Definition datetime_ (j : json) : M datetime :=
  match j with
  | JStr s => lift ValidationError (parse_datetime s)
  | _ => raise ValidationError
  end.
Definition optional {A : Type} (f : json -> M A) (j : json) : M (option A) :=
  match j with JNull => ret None | _ => a <- f j ;; ret (Some a) end.
Definition list_ {A : Type} (f : json -> M A) (j : json) : M (list A) :=
  match j with JList l => mapM_io f l | _ => raise ValidationError end.
Definition dict_any (j : json) : M (list (string * json)) :=
  match j with JDict d => ret d | _ => raise ValidationError end.

(** A field without a default. *)
Definition required {A : Type} (d : list (string * json)) (k : string)
    (f : json -> M A) : M A :=
  match get d k with Some j => f j | None => raise ValidationError end.
(** A field with a default or a default factory. *)
Definition field {A : Type} (d : list (string * json)) (k : string)
    (f : json -> M A) (dflt : M A) : M A :=
  match get d k with Some j => f j | None => dflt end.

End Fields.
End Pydantic.
(* ===================================================================== *)
(** * 3. The two documents and the task interface ([task_interface.py]) *)
(* ===================================================================== *)

Module TaskContext.
Record t : Type := mk {
  related_files : list string;
  dependencies : list string }.
Definition default : t := mk [] [].

Definition model_dump (x : t) : json :=
  JDict [ ("related_files", JList (JStr <$> related_files x));
          ("dependencies", JList (JStr <$> dependencies x)) ].

Definition validate {C : Codec} (j : json) : M t :=
  d <- Pydantic.dict_any j ;;
  related_files <- Pydantic.field d "related_files" (Pydantic.list_ Pydantic.str_) (ret []) ;;
  dependencies <- Pydantic.field d "dependencies" (Pydantic.list_ Pydantic.str_) (ret []) ;;
  ret (mk related_files dependencies).
End TaskContext.

Module TaskDefinition.
Record t : Type := mk {
  id : string;
  title : string;
  status : string;                  (* assigned | cancelled *)
  priority : string;                (* critical | high | medium | low *)
  branch : string;
  description : string;
  acceptance_criteria : list string;
  context : TaskContext.t;
  depends_on : list string;
  workspace_mode : string }.        (* shared | isolated | copy_on_write *)

(** [task.status = s] *)
Definition set_status (s : string) (x : t) : t :=
  mk (id x) (title x) s (priority x) (branch x) (description x)
     (acceptance_criteria x) (context x) (depends_on x) (workspace_mode x).

Definition model_dump (x : t) : json :=
  JDict [ ("id", JStr (id x));
          ("title", JStr (title x));
          ("status", JStr (status x));
          ("priority", JStr (priority x));
          ("branch", JStr (branch x));
          ("description", JStr (description x));
          ("acceptance_criteria", JList (JStr <$> acceptance_criteria x));
          ("context", TaskContext.model_dump (context x));
          ("depends_on", JList (JStr <$> depends_on x));
          ("workspace_mode", JStr (workspace_mode x)) ].

Definition validate {C : Codec} (j : json) : M t :=
  d <- Pydantic.dict_any j ;;
  id <- Pydantic.required d "id" Pydantic.str_ ;;
  title <- Pydantic.required d "title" Pydantic.str_ ;;
  status <- Pydantic.field d "status" Pydantic.str_ (ret "assigned") ;;
  priority <- Pydantic.field d "priority" Pydantic.str_ (ret "medium") ;;
  branch <- Pydantic.required d "branch" Pydantic.str_ ;;
  description <- Pydantic.required d "description" Pydantic.str_ ;;
  acceptance_criteria <-
    Pydantic.field d "acceptance_criteria" (Pydantic.list_ Pydantic.str_) (ret []) ;;
  context <- Pydantic.field d "context" TaskContext.validate (ret TaskContext.default) ;;
  depends_on <- Pydantic.field d "depends_on" (Pydantic.list_ Pydantic.str_) (ret []) ;;
  workspace_mode <- Pydantic.field d "workspace_mode" Pydantic.str_ (ret "shared") ;;
  ret (mk id title status priority branch description acceptance_criteria
          context depends_on workspace_mode).
End TaskDefinition.

(** [data or {}] on what [yaml.safe_load] returned. *)
Definition or_empty_dict (data : json) : json :=
  match data with
  | JNull | JBool false | JInt 0 | JStr EmptyString | JList [] => JDict []
  | _ => data
  end.

(** The keyword arguments of [cls] called on the unpacked [data], when
    [data] is a mapping. *)
Definition kwargs {C : Codec} (data : json) : M (list (string * json)) :=
  match data with
  | JDict d => ret d
  | _ => raise TypeError
  end.

Definition dump_optional_str (o : option string) : json :=
  match o with Some s => JStr s | None => JNull end.

Module TaskingFile.
Record t : Type := mk {
  version : Z;
  updated_at : datetime;
  workspace : option string;
  tasks : list TaskDefinition.t }.

Definition set_updated_at (d : datetime) (x : t) : t :=
  mk (version x) d (workspace x) (tasks x).
Definition set_workspace (w : option string) (x : t) : t :=
  mk (version x) (updated_at x) w (tasks x).
Definition set_tasks (l : list TaskDefinition.t) (x : t) : t :=
  mk (version x) (updated_at x) (workspace x) l.

Section Methods.
Context {C : Codec}.

(** [self.model_dump(mode="json")] *)
Definition model_dump (x : t) : json :=
  JDict [ ("version", JInt (version x));
          ("updated_at", JStr (isoformat (updated_at x)));
          ("workspace", dump_optional_str (workspace x));
          ("tasks", JList (TaskDefinition.model_dump <$> tasks x)) ].

(** [cls] called on the keyword arguments [d]. *)
Definition of_kwargs (d : list (string * json)) : M t :=
  version <- Pydantic.field d "version" Pydantic.int_ (ret 1) ;;
  updated_at <- Pydantic.field d "updated_at" Pydantic.datetime_ utcnow ;;
  workspace <- Pydantic.field d "workspace" (Pydantic.optional Pydantic.str_) (ret None) ;;
  tasks <- Pydantic.field d "tasks" (Pydantic.list_ TaskDefinition.validate) (ret []) ;;
  ret (mk version updated_at workspace tasks).

Definition load (path : Path.t) : M t :=
  ex <- path_exists path ;;
  if negb ex then of_kwargs []
  else
    content <- read_text path ;;
    data <- lift YAMLError (yaml_safe_load content) ;;
    d <- kwargs (or_empty_dict data) ;;
    of_kwargs d.

(** Returns [self] as the call leaves it, with its new [updated_at]. *)
Definition save (self : t) (path : Path.t) : M t :=
  mkdir (Path.parent path) ;;
  now <- utcnow ;;
  let self := set_updated_at now self in
  tmp_path <- lift PathValueError (Path.with_suffix path ".tmp") ;;
  let content := yaml_dump (model_dump self) in
  write_text tmp_path content ;;
  rename tmp_path path ;;
  ret self.

End Methods.

Definition add_task (self : t) (task : TaskDefinition.t) : t :=
  let kept :=
    List.filter
      (fun t => negb (String.eqb (TaskDefinition.id t) (TaskDefinition.id task)))
      (tasks self) in
  set_tasks (kept ++ [task]) self.

(** The loop of [cancel_task], which stops at the first task of that id. *)
Fixpoint cancel_first (task_id : string) (l : list TaskDefinition.t)
  : list TaskDefinition.t :=
  match l with
  | [] => []
  | task :: l' =>
      if String.eqb (TaskDefinition.id task) task_id
      then TaskDefinition.set_status "cancelled" task :: l'
      else task :: cancel_first task_id l'
  end.

Definition cancel_task (self : t) (task_id : string) : t :=
  set_tasks (cancel_first task_id (tasks self)) self.
End TaskingFile.

Module ProgressEntry.
Record t : Type := mk {
  timestamp : datetime;
  status : string;
  message : string;
  details : list (string * json) }.

Section Methods.
Context {C : Codec}.

(** [ProgressEntry(status=..., message=..., details=...)]: the timestamp
    comes from its default factory. *)
Definition make (status message : string) (details : list (string * json)) : M t :=
  timestamp <- utcnow ;;
  ret (mk timestamp status message details).

Definition model_dump (x : t) : json :=
  JDict [ ("timestamp", JStr (isoformat (timestamp x)));
          ("status", JStr (status x));
          ("message", JStr (message x));
          ("details", JDict (details x)) ].

Definition validate (j : json) : M t :=
  d <- Pydantic.dict_any j ;;
  timestamp <- Pydantic.field d "timestamp" Pydantic.datetime_ utcnow ;;
  status <- Pydantic.required d "status" Pydantic.str_ ;;
  message <- Pydantic.required d "message" Pydantic.str_ ;;
  details <- Pydantic.field d "details" Pydantic.dict_any (ret []) ;;
  ret (mk timestamp status message details).
End Methods.
End ProgressEntry.

Module FileChange.
Record t : Type := mk {
  path : string;
  change_type : string;             (* created | modified | deleted *)
  lines_added : Z;
  lines_removed : Z }.

Definition model_dump (x : t) : json :=
  JDict [ ("path", JStr (path x));
          ("change_type", JStr (change_type x));
          ("lines_added", JInt (lines_added x));
          ("lines_removed", JInt (lines_removed x)) ].

Definition validate {C : Codec} (j : json) : M t :=
  d <- Pydantic.dict_any j ;;
  path <- Pydantic.required d "path" Pydantic.str_ ;;
  change_type <- Pydantic.required d "change_type" Pydantic.str_ ;;
  lines_added <- Pydantic.field d "lines_added" Pydantic.int_ (ret 0) ;;
  lines_removed <- Pydantic.field d "lines_removed" Pydantic.int_ (ret 0) ;;
  ret (mk path change_type lines_added lines_removed).
End FileChange.

Module CommitRecord.
Record t : Type := mk {
  sha : string;
  message : string }.

Definition model_dump (x : t) : json :=
  JDict [ ("sha", JStr (sha x)); ("message", JStr (message x)) ].

Definition validate {C : Codec} (j : json) : M t :=
  d <- Pydantic.dict_any j ;;
  sha <- Pydantic.required d "sha" Pydantic.str_ ;;
  message <- Pydantic.required d "message" Pydantic.str_ ;;
  ret (mk sha message).
End CommitRecord.

Module AcceptanceCriterionStatus.
Record t : Type := mk {
  criterion : string;
  status : string }.                (* pending | in_progress | done | blocked *)

Definition model_dump (x : t) : json :=
  JDict [ ("criterion", JStr (criterion x)); ("status", JStr (status x)) ].

Definition validate {C : Codec} (j : json) : M t :=
  d <- Pydantic.dict_any j ;;
  criterion <- Pydantic.required d "criterion" Pydantic.str_ ;;
  status <- Pydantic.required d "status" Pydantic.str_ ;;
  ret (mk criterion status).
End AcceptanceCriterionStatus.

Module CredentialRequestRecord.
Record t : Type := mk {
  id : string;
  type : string;
  scope : string;
  reason : string;
  status : string;                  (* pending | approved | denied | injected *)
  requested_at : datetime }.

Section Methods.
Context {C : Codec}.

(** [CredentialRequestRecord(id=..., type=..., scope=..., reason=...)] *)
Definition make (id type scope reason : string) : M t :=
  requested_at <- utcnow ;;
  ret (mk id type scope reason "pending" requested_at).

Definition model_dump (x : t) : json :=
  JDict [ ("id", JStr (id x));
          ("type", JStr (type x));
          ("scope", JStr (scope x));
          ("reason", JStr (reason x));
          ("status", JStr (status x));
          ("requested_at", JStr (isoformat (requested_at x))) ].

Definition validate (j : json) : M t :=
  d <- Pydantic.dict_any j ;;
  id <- Pydantic.required d "id" Pydantic.str_ ;;
  type <- Pydantic.required d "type" Pydantic.str_ ;;
  scope <- Pydantic.required d "scope" Pydantic.str_ ;;
  reason <- Pydantic.required d "reason" Pydantic.str_ ;;
  status <- Pydantic.field d "status" Pydantic.str_ (ret "pending") ;;
  requested_at <- Pydantic.field d "requested_at" Pydantic.datetime_ utcnow ;;
  ret (mk id type scope reason status requested_at).
End Methods.
End CredentialRequestRecord.

Module TaskReport.
Record t : Type := mk {
  status : string;
  started_at : option datetime;
  current_step : option string;
  summary : option string;
  progress : list ProgressEntry.t;
  changes_summary : list string;
  files_modified : list FileChange.t;
  commits : list CommitRecord.t;
  acceptance_criteria : list AcceptanceCriterionStatus.t;
  error : option string;
  blocked_reason : option string;
  credential_requests : list CredentialRequestRecord.t }.

(** [TaskReport()]: every field at its default. *)
Definition default : t :=
  mk "waiting" None None None [] [] [] [] [] None None [].

Definition set_status (s : string) (x : t) : t :=
  mk s (started_at x) (current_step x) (summary x) (progress x)
     (changes_summary x) (files_modified x) (commits x)
     (acceptance_criteria x) (error x) (blocked_reason x)
     (credential_requests x).
Definition set_started_at (d : option datetime) (x : t) : t :=
  mk (status x) d (current_step x) (summary x) (progress x)
     (changes_summary x) (files_modified x) (commits x)
     (acceptance_criteria x) (error x) (blocked_reason x)
     (credential_requests x).
Definition set_current_step (s : option string) (x : t) : t :=
  mk (status x) (started_at x) s (summary x) (progress x)
     (changes_summary x) (files_modified x) (commits x)
     (acceptance_criteria x) (error x) (blocked_reason x)
     (credential_requests x).
Definition set_summary (s : option string) (x : t) : t :=
  mk (status x) (started_at x) (current_step x) s (progress x)
     (changes_summary x) (files_modified x) (commits x)
     (acceptance_criteria x) (error x) (blocked_reason x)
     (credential_requests x).
Definition set_progress (l : list ProgressEntry.t) (x : t) : t :=
  mk (status x) (started_at x) (current_step x) (summary x) l
     (changes_summary x) (files_modified x) (commits x)
     (acceptance_criteria x) (error x) (blocked_reason x)
     (credential_requests x).
Definition set_changes_summary (l : list string) (x : t) : t :=
  mk (status x) (started_at x) (current_step x) (summary x) (progress x)
     l (files_modified x) (commits x)
     (acceptance_criteria x) (error x) (blocked_reason x)
     (credential_requests x).
Definition set_files_modified (l : list FileChange.t) (x : t) : t :=
  mk (status x) (started_at x) (current_step x) (summary x) (progress x)
     (changes_summary x) l (commits x)
     (acceptance_criteria x) (error x) (blocked_reason x)
     (credential_requests x).
Definition set_commits (l : list CommitRecord.t) (x : t) : t :=
  mk (status x) (started_at x) (current_step x) (summary x) (progress x)
     (changes_summary x) (files_modified x) l
     (acceptance_criteria x) (error x) (blocked_reason x)
     (credential_requests x).
Definition set_error (e : option string) (x : t) : t :=
  mk (status x) (started_at x) (current_step x) (summary x) (progress x)
     (changes_summary x) (files_modified x) (commits x)
     (acceptance_criteria x) e (blocked_reason x)
     (credential_requests x).
Definition set_blocked_reason (e : option string) (x : t) : t :=
  mk (status x) (started_at x) (current_step x) (summary x) (progress x)
     (changes_summary x) (files_modified x) (commits x)
     (acceptance_criteria x) (error x) e
     (credential_requests x).
Definition set_credential_requests (l : list CredentialRequestRecord.t) (x : t) : t :=
  mk (status x) (started_at x) (current_step x) (summary x) (progress x)
     (changes_summary x) (files_modified x) (commits x)
     (acceptance_criteria x) (error x) (blocked_reason x) l.

Section Methods.
Context {C : Codec}.

Definition model_dump (x : t) : json :=
  JDict [ ("status", JStr (status x));
          ("started_at",
             match started_at x with Some d => JStr (isoformat d) | None => JNull end);
          ("current_step", dump_optional_str (current_step x));
          ("summary", dump_optional_str (summary x));
          ("progress", JList (ProgressEntry.model_dump <$> progress x));
          ("changes_summary", JList (JStr <$> changes_summary x));
          ("files_modified", JList (FileChange.model_dump <$> files_modified x));
          ("commits", JList (CommitRecord.model_dump <$> commits x));
          ("acceptance_criteria",
             JList (AcceptanceCriterionStatus.model_dump <$> acceptance_criteria x));
          ("error", dump_optional_str (error x));
          ("blocked_reason", dump_optional_str (blocked_reason x));
          ("credential_requests",
             JList (CredentialRequestRecord.model_dump <$> credential_requests x)) ].

Definition validate (j : json) : M t :=
  d <- Pydantic.dict_any j ;;
  status <- Pydantic.field d "status" Pydantic.str_ (ret "waiting") ;;
  started_at <-
    Pydantic.field d "started_at" (Pydantic.optional Pydantic.datetime_) (ret None) ;;
  current_step <-
    Pydantic.field d "current_step" (Pydantic.optional Pydantic.str_) (ret None) ;;
  summary <- Pydantic.field d "summary" (Pydantic.optional Pydantic.str_) (ret None) ;;
  progress <-
    Pydantic.field d "progress" (Pydantic.list_ ProgressEntry.validate) (ret []) ;;
  changes_summary <-
    Pydantic.field d "changes_summary" (Pydantic.list_ Pydantic.str_) (ret []) ;;
  files_modified <-
    Pydantic.field d "files_modified" (Pydantic.list_ FileChange.validate) (ret []) ;;
  commits <- Pydantic.field d "commits" (Pydantic.list_ CommitRecord.validate) (ret []) ;;
  acceptance_criteria <-
    Pydantic.field d "acceptance_criteria"
      (Pydantic.list_ AcceptanceCriterionStatus.validate) (ret []) ;;
  error <- Pydantic.field d "error" (Pydantic.optional Pydantic.str_) (ret None) ;;
  blocked_reason <-
    Pydantic.field d "blocked_reason" (Pydantic.optional Pydantic.str_) (ret None) ;;
  credential_requests <-
    Pydantic.field d "credential_requests"
      (Pydantic.list_ CredentialRequestRecord.validate) (ret []) ;;
  ret (mk status started_at current_step summary progress changes_summary
          files_modified commits acceptance_criteria error blocked_reason
          credential_requests).
End Methods.
End TaskReport.

Module ReportingFile.
Record t : Type := mk {
  version : Z;
  agent_type : string;
  agent_id : string;
  updated_at : datetime;
  status : string;                  (* idle | working | error *)
  tasks : gmap string TaskReport.t }.

Definition set_updated_at (d : datetime) (x : t) : t :=
  mk (version x) (agent_type x) (agent_id x) d (status x) (tasks x).
Definition set_status (s : string) (x : t) : t :=
  mk (version x) (agent_type x) (agent_id x) (updated_at x) s (tasks x).
Definition set_tasks (m : gmap string TaskReport.t) (x : t) : t :=
  mk (version x) (agent_type x) (agent_id x) (updated_at x) (status x) m.

Section Methods.
Context {C : Codec}.

Definition model_dump (x : t) : json :=
  JDict [ ("version", JInt (version x));
          ("agent_type", JStr (agent_type x));
          ("agent_id", JStr (agent_id x));
          ("updated_at", JStr (isoformat (updated_at x)));
          ("status", JStr (status x));
          ("tasks",
             JDict (prod_map id TaskReport.model_dump <$> map_to_list (tasks x))) ].

(** A [dict[str, TaskReport]] from a mapping. *)
Definition reports_ (j : json) : M (gmap string TaskReport.t) :=
  match j with
  | JDict d =>
      kvs <- mapM_io (fun kv => r <- TaskReport.validate kv.2 ;; ret (kv.1, r)) d ;;
      ret (list_to_map kvs)
  | _ => raise ValidationError
  end.

(** [cls] called on the keyword arguments [d]. *)
Definition of_kwargs (d : list (string * json)) : M t :=
  version <- Pydantic.field d "version" Pydantic.int_ (ret 1) ;;
  agent_type <- Pydantic.field d "agent_type" Pydantic.str_ (ret "unknown") ;;
  agent_id <- Pydantic.field d "agent_id" Pydantic.str_ (ret "unknown") ;;
  updated_at <- Pydantic.field d "updated_at" Pydantic.datetime_ utcnow ;;
  status <- Pydantic.field d "status" Pydantic.str_ (ret "idle") ;;
  tasks <- Pydantic.field d "tasks" reports_ (ret ∅) ;;
  ret (mk version agent_type agent_id updated_at status tasks).

Definition load (path : Path.t) : M t :=
  ex <- path_exists path ;;
  if negb ex then of_kwargs []
  else
    content <- read_text path ;;
    data <- lift YAMLError (yaml_safe_load content) ;;
    d <- kwargs (or_empty_dict data) ;;
    of_kwargs d.

(** Returns [self] as the call leaves it, with its new [updated_at]. *)
Definition save (self : t) (path : Path.t) : M t :=
  mkdir (Path.parent path) ;;
  now <- utcnow ;;
  let self := set_updated_at now self in
  tmp_path <- lift PathValueError (Path.with_suffix path ".tmp") ;;
  let content := yaml_dump (model_dump self) in
  write_text tmp_path content ;;
  rename tmp_path path ;;
  ret self.

(** [get_task_report] returns the report that the dict holds, so that an
    assignment to it changes the document: here the document with the entry
    ensured and the report read, and [put_task_report] to store it back. *)
Definition get_task_report (self : t) (task_id : string) : t * TaskReport.t :=
  match tasks self !! task_id with
  | Some r => (self, r)
  | None =>
      (set_tasks (<[task_id := TaskReport.default]> (tasks self)) self,
       TaskReport.default)
  end.
Definition put_task_report (self : t) (task_id : string) (r : TaskReport.t) : t :=
  set_tasks (<[task_id := r]> (tasks self)) self.

Definition update_task_status (self : t) (task_id status : string)
    (message : option string) (details : option (list (string * json))) : M t :=
  let (self, report) := get_task_report self task_id in
  let report := TaskReport.set_status status report in
  report <-
    (if String.eqb status "received" && bool_decide (TaskReport.started_at report = None)
     then now <- utcnow ;; ret (TaskReport.set_started_at (Some now) report)
     else ret report) ;;
  report <-
    (match message with
     | None | Some EmptyString => ret report
     | Some msg =>
         let report := TaskReport.set_current_step (Some msg) report in
         entry <- ProgressEntry.make status msg (default [] details) ;;
         ret (TaskReport.set_progress (TaskReport.progress report ++ [entry]) report)
     end) ;;
  ret (put_task_report self task_id report).

Definition add_credential_request (self : t)
    (task_id request_id cred_type scope reason : string) : M t :=
  let (self, report) := get_task_report self task_id in
  record <- CredentialRequestRecord.make request_id cred_type scope reason ;;
  let report :=
    TaskReport.set_credential_requests
      (TaskReport.credential_requests report ++ [record]) report in
  ret (put_task_report self task_id report).

End Methods.
End ReportingFile.

Module TaskInterface.
Section Methods.
Context {C : Codec}.

Record t : Type := mk { workspace_path : Path.t }.

Definition cloud_code_dir (self : t) : Path.t :=
  Path.joinpath (workspace_path self) ".cloud-code".
Definition tasking_path (self : t) : Path.t :=
  Path.joinpath (cloud_code_dir self) "tasking.yaml".
Definition reporting_path (self : t) : Path.t :=
  Path.joinpath (cloud_code_dir self) "reporting.yaml".

(** [str(self.workspace_path)] *)
Definition str_path (p : Path.t) : string := String.concat "/" p.

(** *** Orchestrator side *)

Definition write_task (self : t) (task : TaskDefinition.t) : M unit :=
  tasking <- TaskingFile.load (tasking_path self) ;;
  let tasking := TaskingFile.set_workspace (Some (str_path (workspace_path self))) tasking in
  let tasking := TaskingFile.add_task tasking task in
  TaskingFile.save tasking (tasking_path self) ;;
  ret tt.

Definition cancel_task (self : t) (task_id : string) : M unit :=
  tasking <- TaskingFile.load (tasking_path self) ;;
  let tasking := TaskingFile.cancel_task tasking task_id in
  TaskingFile.save tasking (tasking_path self) ;;
  ret tt.

Definition read_report (self : t) : M ReportingFile.t :=
  ReportingFile.load (reporting_path self).

Definition get_task_status (self : t) (task_id : string) : M (option TaskReport.t) :=
  report <- read_report self ;;
  ret (ReportingFile.tasks report !! task_id).

(** *** Agent side *)

Definition read_tasks (self : t) : M TaskingFile.t :=
  TaskingFile.load (tasking_path self).

Definition get_pending_tasks (self : t) : M (list TaskDefinition.t) :=
  tasking <- read_tasks self ;;
  ret (List.filter (fun t => String.eqb (TaskDefinition.status t) "assigned")
         (TaskingFile.tasks tasking)).

Definition update_status (self : t) (task_id status : string)
    (message : option string) (details : option (list (string * json))) : M unit :=
  report <- ReportingFile.load (reporting_path self) ;;
  let report :=
    ReportingFile.set_status
      (if String.eqb status "in_progress" then "working" else "idle") report in
  report <- ReportingFile.update_task_status report task_id status message details ;;
  ReportingFile.save report (reporting_path self) ;;
  ret tt.

Definition set_task_completed (self : t) (task_id summary : string)
    (changes : list string) (files : list FileChange.t)
    (commits : list CommitRecord.t) : M unit :=
  report <- ReportingFile.load (reporting_path self) ;;
  let report := ReportingFile.set_status "idle" report in
  let (report, task_report) := ReportingFile.get_task_report report task_id in
  let task_report := TaskReport.set_status "completed" task_report in
  let task_report := TaskReport.set_summary (Some summary) task_report in
  let task_report := TaskReport.set_changes_summary changes task_report in
  let task_report := TaskReport.set_files_modified files task_report in
  let task_report := TaskReport.set_commits commits task_report in
  entry <- ProgressEntry.make "completed" "Task completed successfully" [] ;;
  let task_report :=
    TaskReport.set_progress (TaskReport.progress task_report ++ [entry]) task_report in
  let report := ReportingFile.put_task_report report task_id task_report in
  ReportingFile.save report (reporting_path self) ;;
  ret tt.

Definition set_task_failed (self : t) (task_id error : string) : M unit :=
  report <- ReportingFile.load (reporting_path self) ;;
  let report := ReportingFile.set_status "idle" report in
  let (report, task_report) := ReportingFile.get_task_report report task_id in
  let task_report := TaskReport.set_status "failed" task_report in
  let task_report := TaskReport.set_error (Some error) task_report in
  entry <- ProgressEntry.make "failed" ("Task failed: " +:+ error) [] ;;
  let task_report :=
    TaskReport.set_progress (TaskReport.progress task_report ++ [entry]) task_report in
  let report := ReportingFile.put_task_report report task_id task_report in
  ReportingFile.save report (reporting_path self) ;;
  ret tt.

Definition set_task_blocked (self : t) (task_id reason : string) : M unit :=
  report <- ReportingFile.load (reporting_path self) ;;
  let report := ReportingFile.set_status "idle" report in
  let (report, task_report) := ReportingFile.get_task_report report task_id in
  let task_report := TaskReport.set_status "blocked" task_report in
  let task_report := TaskReport.set_blocked_reason (Some reason) task_report in
  entry <- ProgressEntry.make "blocked" ("Task blocked: " +:+ reason) [] ;;
  let task_report :=
    TaskReport.set_progress (TaskReport.progress task_report ++ [entry]) task_report in
  let report := ReportingFile.put_task_report report task_id task_report in
  ReportingFile.save report (reporting_path self) ;;
  ret tt.

(** [uuid_hex] is [uuid4().hex]. *)
Definition request_credential (self : t) (uuid_hex : string)
    (task_id cred_type scope reason : string) : M string :=
  let request_id := "cred-" +:+ String.substring 0 8 uuid_hex in
  report <- ReportingFile.load (reporting_path self) ;;
  report <- ReportingFile.add_credential_request report task_id request_id
              cred_type scope reason ;;
  ReportingFile.save report (reporting_path self) ;;
  ret request_id.

Definition initialize_agent (self : t) (agent_type agent_id : string) : M unit :=
  updated_at <- utcnow ;;
  let report := ReportingFile.mk 1 agent_type agent_id updated_at "idle" ∅ in
  ReportingFile.save report (reporting_path self) ;;
  ret tt.

End Methods.
End TaskInterface.

(* ===================================================================== *)
(** * 4. Python's [re], as far as the code uses it *)
(* ===================================================================== *)

(** A backtracking matcher for the part of [re] that [COMMAND_PATTERN] is
    written in: literals, the classes [\s], [\w] and [.], greedy [+], [*]
    and [?], groups, and the anchors [^] and [$]; under [re.IGNORECASE]
    a literal is compared modulo case, under [re.MULTILINE] the anchors match
    at the line breaks too. *)
Module Re.
Import Py.

Inductive atom : Type :=
| AChar (c : ascii)
| ASpace
| AWord
| ADot.

Inductive regex : Type :=
| Atom (a : atom)
| Plus (a : atom)
| Star (a : atom)
| Seq (r1 r2 : regex)
| Opt (r : regex)
| Group (n : nat) (r : regex)
| Bol
| Eol.

Record flags : Type := { ignorecase : bool; multiline : bool }.

Definition atom_matches (fl : flags) (a : atom) (c : ascii) : bool :=
  match a with
  | AChar x =>
      if ignorecase fl then Ascii.eqb (lower_char x) (lower_char c) else Ascii.eqb x c
  | ASpace => isspace c
  | AWord => isword c
  | ADot => negb (Ascii.eqb c nl)
  end.

(** [^]: at the start of the text, and after a newline when multiline. *)
Definition at_bol (fl : flags) (prev : option ascii) : bool :=
  match prev with
  | None => true
  | Some c => multiline fl && Ascii.eqb c nl
  end.

(** [$]: at the end of the text (or just before a newline that ends it), and
    before any newline when multiline. *)
Definition at_eol (fl : flags) (s : str) : bool :=
  match s with
  | [] => true
  | c :: s' => Ascii.eqb c nl && (multiline fl || match s' with [] => true | _ => false end)
  end.

(** The groups that took part in the match, with the text of each. *)
Definition groups : Type := list (nat * str).

Fixpoint group (g : groups) (n : nat) : option str :=
  match g with
  | [] => None
  | (m, s) :: g' => if Nat.eqb m n then Some s else group g' n
  end.

Section Matcher.
Context {R : Type} (fl : flags).

(** A greedy repetition of one atom: the longest run first, then shorter
    ones; [need] asks for one more character at least. *)
Fixpoint rep (a : atom) (need : bool) (prev : option ascii) (s : str)
    (k : option ascii -> str -> option R) : option R :=
  match s with
  | c :: s' =>
      if atom_matches fl a c then
        match rep a false (Some c) s' k with
        | Some r => Some r
        | None => if need then None else k prev s
        end
      else if need then None else k prev s
  | [] => if need then None else k prev s
  end.

(** [rmatch r g prev s k]: match [r] at the text [s], which follows the
    character [prev], and go on with [k]; the first success in the order of
    a backtracking search. *)
Fixpoint rmatch (r : regex) (g : groups) (prev : option ascii) (s : str)
    (k : groups -> option ascii -> str -> option R) : option R :=
  match r with
  | Atom a =>
      match s with
      | c :: s' => if atom_matches fl a c then k g (Some c) s' else None
      | [] => None
      end
  | Plus a => rep a true prev s (k g)
  | Star a => rep a false prev s (k g)
  | Seq r1 r2 => rmatch r1 g prev s (fun g' p' s' => rmatch r2 g' p' s' k)
  | Opt r1 =>
      match rmatch r1 g prev s k with
      | Some x => Some x
      | None => k g prev s
      end
  | Group n r1 =>
      rmatch r1 g prev s
        (fun g' p' s' => k ((n, take (length s - length s')%nat s) :: g') p' s')
  | Bol => if at_bol fl prev then k g prev s else None
  | Eol => if at_eol fl s then k g prev s else None
  end.
End Matcher.

(** [pattern.search(text)]: the match at the leftmost position that has one. *)
Fixpoint search_from (fl : flags) (r : regex) (prev : option ascii) (s : str)
  : option groups :=
  match rmatch fl r [] prev s (fun g _ _ => Some g) with
  | Some g => Some g
  | None =>
      match s with
      | [] => None
      | c :: s' => search_from fl r (Some c) s'
      end
  end.

Definition search (fl : flags) (r : regex) (s : str) : option groups :=
  search_from fl r None s.

(** The regex of a literal text followed by [r]. *)
Fixpoint lit (s : str) (r : regex) : regex :=
  match s with
  | [] => r
  | c :: s' => Seq (Atom (AChar c)) (lit s' r)
  end.

End Re.

(** [re.sub] with the empty replacement, for the patterns without groups
    that are made of sets of characters, greedy [*] and [+], sequence,
    alternation and the anchor [^] (no flag: the start of the text only). *)
Module ReSub.
Import Py.

(** A set of characters: listed as in [[-*]] or as a literal, [\s], [\d]. *)
Inductive cset : Type :=
| Chars (l : list ascii)
| Space
| Digit.

Definition isdigit (c : ascii) : bool := ((48 <=? code c) && (code c <=? 57))%N.

Definition in_cset (cs : cset) (c : ascii) : bool :=
  match cs with
  | Chars l => existsb (Ascii.eqb c) l
  | Space => isspace c
  | Digit => isdigit c
  end.

Inductive regex : Type :=
| One (cs : cset)
| Star (cs : cset)
| Plus (cs : cset)
| Seq (r1 r2 : regex)
| Alt (r1 r2 : regex)
| Bol.

Section Matcher.
Context {R : Type}.

(** A greedy repetition of one set, as [Re.rep]; [pos] is the position in
    the text. *)
Fixpoint rep (cs : cset) (need : bool) (pos : nat) (s : str)
    (k : nat -> str -> option R) : option R :=
  match s with
  | c :: s' =>
      if in_cset cs c then
        match rep cs false (S pos) s' k with
        | Some r => Some r
        | None => if need then None else k pos s
        end
      else if need then None else k pos s
  | [] => if need then None else k pos s
  end.

(** The first success of a backtracking search; an alternation tries its
    left side first. *)
Fixpoint rmatch (r : regex) (pos : nat) (s : str)
    (k : nat -> str -> option R) : option R :=
  match r with
  | One cs =>
      match s with
      | c :: s' => if in_cset cs c then k (S pos) s' else None
      | [] => None
      end
  | Star cs => rep cs false pos s k
  | Plus cs => rep cs true pos s k
  | Seq r1 r2 => rmatch r1 pos s (fun pos' s' => rmatch r2 pos' s' k)
  | Alt r1 r2 =>
      match rmatch r1 pos s k with
      | Some x => Some x
      | None => rmatch r2 pos s k
      end
  | Bol => if (pos =? 0)%nat then k pos s else None
  end.
End Matcher.

(** The text from position [pos] on, with every match deleted: the
    matches are taken from the left and do not overlap.  A character that
    starts no match is kept.  (A match of the empty text deletes nothing;
    the pattern of the code has none.)  [fuel] bounds the steps, of which
    there is one for each character at most. *)
Fixpoint sub_from (fuel : nat) (r : regex) (pos : nat) (s : str) : str :=
  match fuel with
  | O => s
  | S fuel' =>
      let keep :=
        match s with
        | [] => []
        | c :: s' => c :: sub_from fuel' r (S pos) s'
        end in
      match rmatch r pos s (fun pos' s' => Some (pos', s')) with
      | Some (pos', s') =>
          if (pos <? pos')%nat then sub_from fuel' r pos' s' else keep
      | None => keep
      end
  end.

(** [re.sub(pattern, "", text)] *)
Definition sub (r : regex) (s : str) : str := sub_from (S (length s)) r 0 s.

End ReSub.

(* ===================================================================== *)
(** * 5. Comment commands ([comment_parser.py]) *)
(* ===================================================================== *)

Module comment_parser.
Import Py Re.

(** [re.compile(r"^/cloud-code\s+(\w+)(?:\s+(G2))?$", re.MULTILINE | re.IGNORECASE)]
    where G2, the second group, is the dot under a star. *)
Definition COMMAND_FLAGS : flags := {| ignorecase := true; multiline := true |}.
Definition COMMAND_PATTERN : regex :=
  Seq Bol
    (lit (of_string "/cloud-code")
       (Seq (Plus ASpace)
          (Seq (Group 1 (Plus AWord))
             (Seq (Opt (Seq (Plus ASpace) (Group 2 (Star ADot))))
                Eol)))).

(** The resulting [dict]: keys in insertion order, a value a [str] or [None]. *)
Definition command : Type := list (string * option string).

(** The function after the search: [action] is [match.group(1).lower()],
    [args] is [match.group(2).strip() if match.group(2) else ""]. *)
Definition action_of (m : groups) : string :=
  to_string (lower (default [] (group m 1))).

Definition args_of (m : groups) : str :=
  match group m 2 with
  | Some (c :: g2) => strip (c :: g2)
  | _ => []
  end.

Definition command_of (action : string) (args : str) : exn + option command :=
  let result : command := [("action", Some action)] in
  if String.eqb action "run" then
    match args with
    | [] => inr (Some result)
    | _ => match split args with
           | tok :: _ => inr (Some (result ++ [("agent_type", Some (to_string tok))]))
           | [] => inl IndexError
           end
    end
  else if String.eqb action "handoff" then
    match args with
    | [] => inr (Some (result ++ [("target_agent", None)]))
    | _ => match split args with
           | tok :: _ => inr (Some (result ++ [("target_agent", Some (to_string tok))]))
           | [] => inl IndexError
           end
    end
  else if String.eqb action "reject" then
    match args with
    | [] => inr (Some result)
    | _ => inr (Some (result ++ [("reason", Some (to_string args))]))
    end
  else if String.eqb action "config" then
    match split_maxsplit1 args with
    | [] => inr (Some result)
    | [key] => inr (Some (result ++ [("key", Some (to_string key))]))
    | key :: value :: _ =>
        inr (Some (result ++ [("key", Some (to_string key));
                              ("value", Some (to_string value))]))
    end
  else inr (Some result).

Definition parse_cloud_code_command (comment_body : string) : exn + option command :=
  match search COMMAND_FLAGS COMMAND_PATTERN (of_string comment_body) with
  | None => inr None
  | Some m => command_of (action_of m) (args_of m)
  end.

(** *** The context of an issue *)

(** The [dict] that [extract_task_context] fills and returns, [context] in
    the code, by its four keys. *)
Record context_data : Type := mk_context {
  description : string;
  acceptance_criteria : list string;
  related_files : list string;
  context_notes : string }.

Definition set_description (v : string) (x : context_data) : context_data :=
  mk_context v (acceptance_criteria x) (related_files x) (context_notes x).
Definition set_acceptance_criteria (v : list string) (x : context_data) : context_data :=
  mk_context (description x) v (related_files x) (context_notes x).
Definition set_related_files (v : list string) (x : context_data) : context_data :=
  mk_context (description x) (acceptance_criteria x) v (context_notes x).
Definition set_context_notes (v : string) (x : context_data) : context_data :=
  mk_context (description x) (acceptance_criteria x) (related_files x) v.

(** The pattern of the bullet or number of a criterion: a dash or a star at
    the start of the line with the whitespace after it, or digits and a dot,
    anywhere, with the whitespace after them. *)
Definition BULLET_PATTERN : ReSub.regex :=
  ReSub.Alt
    (ReSub.Seq ReSub.Bol
       (ReSub.Seq (ReSub.One (ReSub.Chars (of_string "-*"))) (ReSub.Star ReSub.Space)))
    (ReSub.Seq (ReSub.Plus ReSub.Digit)
       (ReSub.Seq (ReSub.One (ReSub.Chars (of_string "."))) (ReSub.Star ReSub.Space))).

(** The prefixes that make a line a criterion. *)
Definition CRITERION_PREFIXES : list str :=
  List.map of_string ["-"; "*"; "1."; "2."; "3."; "4."; "5."; "6."; "7."; "8."; "9."].

(** The body of the loop over the lines of an acceptance-criteria section:
    the criterion that the line adds, if any. *)
Definition criterion_of (line : str) : option string :=
  let line := strip line in
  if startswith_any line CRITERION_PREFIXES then
    match ReSub.sub BULLET_PATTERN line with
    | [] => None
    | criterion => Some (to_string criterion)
    end
  else None.

(** The body of the loop over the lines of a related-files section.  The
    condition is [path and "/" in path or "." in path], in which [and]
    binds before [or]. *)
Definition related_file_of (line : str) : option string :=
  let line := strip line in
  if startswith_any line (List.map of_string ["-"; "*"]) then
    let path := strip (lstrip_chars (of_string "-* ") line) in
    if (match path with [] => false | _ => true end) && contains (of_string "/") path
       || contains (of_string ".") path
    then Some (to_string path) else None
  else None.

Definition _save_section (ctx : context_data) (section : string) (lines : list str)
  : context_data :=
  let content := to_string (strip (join [nl] lines)) in
  if String.eqb section "description" then set_description content ctx
  else if String.eqb section "context_notes" then set_context_notes content ctx
  else if String.eqb section "acceptance_criteria" then
    set_acceptance_criteria (omap criterion_of lines) ctx
  else if String.eqb section "related_files" then
    set_related_files (omap related_file_of lines) ctx
  else ctx.

(** The section that a header opens. *)
Definition section_of_header (header : str) : string :=
  if contains (of_string "acceptance") header || contains (of_string "criteria") header
  then "acceptance_criteria"
  else if contains (of_string "related") header || contains (of_string "files") header
  then "related_files"
  else if contains (of_string "context") header then "context_notes"
  else "description".

(** The loop over the lines, and the save of the last section after it. *)
Fixpoint scan_lines (lines : list str) (ctx : context_data) (current_section : string)
    (section_content : list str) : context_data :=
  match lines with
  | [] => _save_section ctx current_section section_content
  | line :: lines' =>
      if startswith line (of_string "## ") then
        let ctx := _save_section ctx current_section section_content in
        let header := lower (strip (drop 3 line)) in
        scan_lines lines' ctx (section_of_header header) []
      else scan_lines lines' ctx current_section (section_content ++ [line])
  end.

Definition extract_task_context (issue_body : string) : context_data :=
  scan_lines (split_nl (of_string issue_body)) (mk_context "" [] [] "") "description" [].

End comment_parser.

(* ===================================================================== *)
(** * 6. Coding CLIs ([cli_runner.py]) *)
(* ===================================================================== *)

Module CLIResult.
(** [cost_usd], a float that no code path sets, is left out. *)
Record t : Type := mk {
  success : bool;
  output : string;
  error : option string;
  files_changed : list string;
  needs_handoff : bool;
  tokens_used : Z }.
(** [CLIResult(success=..., output=..., error=...)], the rest at its default. *)
Definition make (success : bool) (output : string) (error : option string) : t :=
  mk success output error [] false 0.
End CLIResult.

Module BaseCLI.
Import Py.

Definition indicators : list string :=
  [ "unable to resolve"; "stuck"; "cannot proceed"; "need different approach";
    "out of my expertise"; "i cannot"; "beyond my capabilities" ].

(** [error or ""] *)
Definition or_empty (error : option string) : string := default "" error.

Definition _check_needs_handoff (output : string) (error : option string) : bool :=
  let text := lower (of_string (output +:+ or_empty error)) in
  existsb (fun ind => contains (of_string ind) text) indicators.

(** What running the subprocess came to: it ended within the timeout, with
    its return code and its two streams decoded; [asyncio.TimeoutError];
    [FileNotFoundError]; any other exception [e], with [str(e)]. *)
Inductive outcome : Type :=
| Exited (returncode : Z) (stdout stderr : string)
| TimedOut
| NotFound
| Raised (msg : string).

(** Decimal digits of an integer, as an f-string prints it. *)
Definition str_of_int (n : Z) : string := NilZero.string_of_int (Z.to_int n).

Definition _run_command (name binary : string) (timeout : Z) (o : outcome)
  : CLIResult.t :=
  match o with
  | TimedOut =>
      CLIResult.make false ""
        (Some ("Task timed out after " +:+ str_of_int timeout +:+ " seconds"))
  | Exited returncode stdout stderr =>
      let success := returncode =? 0 in
      let output := stdout in
      let error_msg :=
        if negb (String.eqb stderr "") && negb success then Some stderr else None in
      CLIResult.mk success output error_msg [] (_check_needs_handoff output error_msg) 0
  | NotFound =>
      CLIResult.make false ""
        (Some (name +:+ " CLI not found. Is '" +:+ binary +:+ "' installed?"))
  | Raised msg => CLIResult.make false "" (Some msg)
  end.

End BaseCLI.

Module CLIRunner.

(** [SUPPORTED_CLIS], each class by its [name] and [binary]. *)
Definition SUPPORTED_CLIS : list (string * (string * string)) :=
  [ ("claude-code", ("claude-code", "claude"));
    ("aider", ("aider", "aider"));
    ("codex", ("codex", "codex"));
    ("gemini", ("gemini", "gemini"));
    ("continue", ("continue", "continue"));
    ("cursor", ("cursor", "cursor")) ].

Fixpoint lookup_cli (d : list (string * (string * string))) (k : string)
  : option (string * string) :=
  match d with
  | [] => None
  | (k', v) :: d' => if String.eqb k' k then Some v else lookup_cli d' k
  end.

(** [CLIRunner.run]: [available] is what [cli.is_available()] answers, and
    [o] what running the command comes to.  Every [execute] builds its
    command line and calls [_run_command]. *)
Definition run (cli_name : string) (available : bool) (timeout : Z)
    (o : BaseCLI.outcome) : exn + CLIResult.t :=
  match lookup_cli SUPPORTED_CLIS cli_name with
  | None =>
      inl (ValueError
             ("Unknown CLI: " +:+ cli_name +:+ ". Supported: "
              +:+ String.concat ", " (List.map fst SUPPORTED_CLIS)))
  | Some (name, binary) =>
      if negb available then
        inr (CLIResult.make false ""
               (Some (cli_name +:+ " CLI is not installed or not in PATH")))
      else inr (BaseCLI._run_command name binary timeout o)
  end.

End CLIRunner.

(* ===================================================================== *)
(** * 7. The agent loop ([loop.py]) *)
(* ===================================================================== *)

Module AgentLoop.

(** [priority_order.get(t.priority, 2)] with
    [priority_order = {"critical": 0, "high": 1, "medium": 2, "low": 3}]. *)
Definition priority_order : list (string * Z) :=
  [("critical", 0); ("high", 1); ("medium", 2); ("low", 3)].

Fixpoint dict_get {V : Type} (d : list (string * V)) (k : string) (dflt : V) : V :=
  match d with
  | [] => dflt
  | (k', v) :: d' => if String.eqb k' k then v else dict_get d' k dflt
  end.

Definition sort_key (t : TaskDefinition.t) : Z :=
  dict_get priority_order (TaskDefinition.priority t) 2.

(** [all(reporting.tasks.get(dep, {}).status == "completed" for dep in deps)]:
    the generator is consumed from the left and [all] stops at the first
    false element.  A dependency without a report evaluates [{}.status],
    which raises. *)
Fixpoint deps_met (reports : gmap string TaskReport.t) (deps : list string)
  : exn + bool :=
  match deps with
  | [] => inr true
  | dep :: deps' =>
      match reports !! dep with
      | None => inl AttributeError
      | Some r =>
          if String.eqb (TaskReport.status r) "completed"
          then deps_met reports deps'
          else inr false
      end
  end.

(** [status in ("completed", "failed", "blocked")] *)
Definition is_done (status : string) : bool :=
  String.eqb status "completed" || String.eqb status "failed"
  || String.eqb status "blocked".

(** The loop that fills [eligible], in document order. *)
Fixpoint eligible_tasks (tasks : list TaskDefinition.t)
    (reports : gmap string TaskReport.t) : exn + list TaskDefinition.t :=
  match tasks with
  | [] => inr []
  | task :: rest =>
      let skip :=
        match reports !! TaskDefinition.id task with
        | Some task_report => is_done (TaskReport.status task_report)
        | None => false
        end in
      if skip then eligible_tasks rest reports
      else
        let met :=
          match TaskDefinition.depends_on task with
          | [] => inr true
          | deps => deps_met reports deps
          end in
        match met with
        | inl e => inl e
        | inr false => eligible_tasks rest reports
        | inr true =>
            match eligible_tasks rest reports with
            | inl e => inl e
            | inr l => inr (task :: l)
            end
        end
  end.

(** [list.sort(key=...)] is a stable sort; insertion sort is one. *)
Fixpoint insert_by {A : Type} (key : A -> Z) (x : A) (l : list A) : list A :=
  match l with
  | [] => [x]
  | y :: l' => if key x <=? key y then x :: l else y :: insert_by key x l'
  end.

Fixpoint sort_by {A : Type} (key : A -> Z) (l : list A) : list A :=
  match l with
  | [] => []
  | x :: l' => insert_by key x (sort_by key l')
  end.

Definition _select_next_task (tasks : list TaskDefinition.t)
    (reporting : ReportingFile.t) : exn + option TaskDefinition.t :=
  match eligible_tasks tasks (ReportingFile.tasks reporting) with
  | inl e => inl e
  | inr [] => inr None
  | inr eligible => inr (head (sort_by sort_key eligible))
  end.

(** [line[:200]] *)
Definition first200 (line : Py.str) : Py.str := take 200 line.

(** [_extract_summary]: the last line, among those that are not blank,
    that says completed, done, finished or success; else the last one. *)
Definition _extract_summary (output : string) : string :=
  let lines :=
    List.filter (fun l => match l with [] => false | _ => true end)
      (List.map Py.strip (Py.split_nl (Py.of_string output))) in
  match lines with
  | [] => "Task completed"
  | _ =>
      let says (line : Py.str) : bool :=
        existsb (fun word => Py.contains (Py.of_string word) (Py.lower line))
          ["completed"; "done"; "finished"; "success"] in
      match List.find says (rev lines) with
      | Some line => Py.to_string (first200 line)
      | None => Py.to_string (first200 (List.last lines []))
      end
  end.

Record t : Type := mk {
  workspace : Path.t;
  agent_type : string;
  agent_id : string;
  coding_cli : string }.

(** [self.task_interface] *)
Definition task_interface (self : t) : TaskInterface.t :=
  TaskInterface.mk (workspace self).

Definition _suggest_alternative_cli (self : t) : string :=
  if String.eqb (coding_cli self) "claude-code" then "aider"
  else if String.eqb (coding_cli self) "aider" then "claude-code"
  else "claude-code".

Section Execute.
Context {C : Codec}.

(** [files_changed] and [commits] are what [_get_changed_files] and
    [_commit_changes] return from git; both catch every exception. *)
Definition _handle_success (self : t) (task : TaskDefinition.t)
    (result : CLIResult.t) (files_changed : list FileChange.t)
    (commits : list CommitRecord.t) : M unit :=
  let summary := _extract_summary (CLIResult.output result) in
  TaskInterface.set_task_completed (task_interface self) (TaskDefinition.id task)
    (if String.eqb summary "" then "Completed: " +:+ TaskDefinition.title task
     else summary)
    ["Implemented " +:+ TaskDefinition.title task]
    files_changed commits.

Definition _handle_handoff (self : t) (task : TaskDefinition.t)
    (result : CLIResult.t) : M unit :=
  let reason := "recommend_handoff:" +:+ _suggest_alternative_cli self in
  TaskInterface.set_task_blocked (task_interface self) (TaskDefinition.id task) reason.

Definition _handle_failure (self : t) (task : TaskDefinition.t)
    (result : CLIResult.t) : M unit :=
  TaskInterface.set_task_failed (task_interface self) (TaskDefinition.id task)
    (match CLIResult.error result with
     | None | Some EmptyString => "Unknown error"
     | Some e => e
     end).

(** [_execute_task].  [cli] is what [CLIRunner.run] returns, or the
    exception it raises; the prompt goes to the CLI only.  The [finally]
    clears [current_task], which no file shows. *)
Definition _execute_task (self : t) (task : TaskDefinition.t)
    (cli : exn + CLIResult.t) (files_changed : list FileChange.t)
    (commits : list CommitRecord.t) : M unit :=
  let task_id := TaskDefinition.id task in
  try_except
    (TaskInterface.update_status (task_interface self) task_id "received"
       (Some "Task acknowledged") None ;;
     TaskInterface.update_status (task_interface self) task_id "planning"
       (Some "Analyzing task requirements") None ;;
     TaskInterface.update_status (task_interface self) task_id "in_progress"
       (Some "Starting implementation") None ;;
     result <- match cli with inl e => raise e | inr r => ret r end ;;
     if CLIResult.success result
     then _handle_success self task result files_changed commits
     else if CLIResult.needs_handoff result
     then _handle_handoff self task result
     else _handle_failure self task result)
    (fun e => TaskInterface.set_task_failed (task_interface self) task_id (str_exn e)).

(** One pass of the loop of [run]: the tasks that are assigned, the
    selection, and the execution of the task selected.  [cli],
    [files_changed] and [commits] are what the CLI runner and git come to in
    this pass.  Every exception is caught and logged; the sleeps of an idle
    pass and of the handler change nothing that is modelled. *)
Definition run_pass (self : t) (cli : exn + CLIResult.t)
    (files_changed : list FileChange.t) (commits : list CommitRecord.t) : M unit :=
  try_except
    (tasking <- TaskInterface.read_tasks (task_interface self) ;;
     let pending_tasks :=
       List.filter (fun t => String.eqb (TaskDefinition.status t) "assigned")
         (TaskingFile.tasks tasking) in
     reporting <- TaskInterface.read_report (task_interface self) ;;
     task <- match _select_next_task pending_tasks reporting with
             | inl e => raise e
             | inr task => ret task
             end ;;
     match task with
     | Some task => _execute_task self task cli files_changed commits
     | None => ret tt
     end)
    (fun _ => ret tt).

(** What the commands of a pass come to. *)
Definition pass_outcome : Type :=
  (exn + CLIResult.t) * list FileChange.t * list CommitRecord.t.

Fixpoint run_passes (self : t) (outcomes : list pass_outcome) : M unit :=
  match outcomes with
  | [] => ret tt
  | (cli, files_changed, commits) :: outcomes' =>
      run_pass self cli files_changed commits ;; run_passes self outcomes'
  end.

(** [run], up to the pass at which [stop] is called: the reporting file is
    initialized, and then the loop makes one pass for each outcome. *)
Definition run (self : t) (outcomes : list pass_outcome) : M unit :=
  TaskInterface.initialize_agent (task_interface self) (agent_type self) (agent_id self) ;;
  run_passes self outcomes.

End Execute.

(** *** What git reports *)

(** The change type of a status of [git status --porcelain]. *)
Definition change_type_of (status : Py.str) : string :=
  if Py.contains (Py.of_string "A") status || Py.contains (Py.of_string "?") status
  then "created"
  else if Py.contains (Py.of_string "D") status then "deleted"
  else "modified".

(** [_get_changed_files]: [git_status] is the decoded standard output of
    [git status --porcelain], or the exception that running it raised, which
    the function catches. *)
Definition _get_changed_files (git_status : exn + string) : list FileChange.t :=
  match git_status with
  | inl _ => []
  | inr stdout =>
      omap
        (fun line : Py.str =>
           match line with
           | [] => None
           | _ =>
               let status := Py.strip (take 2 line) in
               let path := Py.strip (drop 3 line) in
               Some (FileChange.mk (Py.to_string path) (change_type_of status) 0 0)
           end)
        (Py.split_nl (Py.strip (Py.of_string stdout)))
  end.

(** [_commit_changes]: [commit] is the return code of [git commit] and
    [rev_parse] the decoded standard output of [git rev-parse HEAD], or the
    exceptions that running them raised, which the function catches. *)
Definition _commit_changes (task : TaskDefinition.t) (commit : exn + Z)
    (rev_parse : exn + string) : list CommitRecord.t :=
  match commit with
  | inr 0 =>
      match rev_parse with
      | inr stdout =>
          let sha := Py.strip (Py.of_string stdout) in
          [CommitRecord.mk (Py.to_string (take 7 sha))
             ("feat: " +:+ TaskDefinition.title task)]
      | inl _ => []
      end
  | _ => []
  end.

End AgentLoop.

(* ===================================================================== *)
(** * 7b. Tasks from GitHub events ([task_creator.py], [events.py]) *)
(* ===================================================================== *)

(** [cloud_code.db.models.TaskPriority], an [enum.Enum] whose values are
    integers. *)
Module TaskPriority.
Inductive t : Type := CRITICAL | HIGH | MEDIUM | LOW | BACKGROUND.

(** [priority.value] *)
Definition value (p : t) : Z :=
  match p with
  | CRITICAL => 0
  | HIGH => 1
  | MEDIUM => 2
  | LOW => 3
  | BACKGROUND => 4
  end.
End TaskPriority.

Module task_creator.
Import Py.

Definition PRIORITY_LABELS : list (string * TaskPriority.t) :=
  [ ("critical", TaskPriority.CRITICAL);
    ("urgent", TaskPriority.CRITICAL);
    ("high", TaskPriority.HIGH);
    ("high-priority", TaskPriority.HIGH);
    ("medium", TaskPriority.MEDIUM);
    ("low", TaskPriority.LOW);
    ("low-priority", TaskPriority.LOW) ].

(** [x in l] for a list of strings. *)
Definition mem (x : string) (l : list string) : bool := existsb (String.eqb x) l.

(** The loop over [PRIORITY_LABELS.items()], in the order of the dict, which
    returns at the first label that the issue has. *)
Definition _get_priority_from_labels (labels : list string) : TaskPriority.t :=
  let labels_lower := List.map lower_string labels in
  match List.find (fun entry => mem (fst entry) labels_lower) PRIORITY_LABELS with
  | Some (_, priority) => priority
  | None => TaskPriority.MEDIUM
  end.

Section Create.
Context {C : Codec}.

(** [create_task_from_issue]; [uuid_hex] is [uuid4().hex].  The call of
    [TaskDefinition] validates its keyword arguments as the validation of a
    mapping does; the [TaskContext] passed for [context] is taken as it
    is, which is what the validation of its dump gives.  The priority passed
    is [priority.value], an integer. *)
Definition create_task_from_issue (uuid_hex : string) (issue_number : Z)
    (title body repo_owner repo_name agent_type : string) (labels : list string)
  : M TaskDefinition.t :=
  let task_id :=
    "issue-" +:+ BaseCLI.str_of_int issue_number +:+ "-" +:+ String.substring 0 8 uuid_hex in
  let context_data := comment_parser.extract_task_context body in
  let priority := _get_priority_from_labels labels in
  let branch_name := "cloud-code/issue-" +:+ BaseCLI.str_of_int issue_number in
  let task_context :=
    TaskContext.mk (comment_parser.related_files context_data) [] in
  let description :=
    if String.eqb (comment_parser.description context_data) "" then body
    else comment_parser.description context_data in
  let description :=
    if String.eqb (comment_parser.context_notes context_data) "" then description
    else description +:+ to_string [nl; nl] +:+ "## Additional Context" +:+ to_string [nl]
         +:+ comment_parser.context_notes context_data in
  TaskDefinition.validate
    (JDict [ ("id", JStr task_id);
             ("title", JStr title);
             ("status", JStr "assigned");
             ("priority", JInt (TaskPriority.value priority));
             ("branch", JStr branch_name);
             ("description", JStr description);
             ("acceptance_criteria",
                JList (JStr <$> comment_parser.acceptance_criteria context_data));
             ("context", TaskContext.model_dump task_context);
             ("depends_on", JList []);
             ("workspace_mode", JStr "shared") ]).

End Create.
End task_creator.

Module events.
Import Py.

Definition AGENT_LABELS : list (string * list string) :=
  [ ("frontend", ["frontend"; "ui"; "react"; "vue"; "angular"; "css"; "html"]);
    ("backend", ["backend"; "api"; "server"; "database"; "python"; "node"; "go"]);
    ("devops", ["devops"; "ci"; "cd"; "infrastructure"; "docker"; "kubernetes"]);
    ("testing", ["testing"; "test"; "qa"; "e2e"; "unit-test"]);
    ("database", ["database"; "db"; "sql"; "migration"; "schema"]);
    ("reviewer", ["review"; "code-review"]) ].

(** The agent type of the first entry of [AGENT_LABELS], in the order of
    the dict, one of whose keywords passes the test. *)
Definition first_agent_type (test : string -> bool) : option string :=
  fst <$> List.find (fun entry => existsb test (snd entry)) AGENT_LABELS.

(** [infer_agent_type]: the labels first, where a keyword has to be a
    label, then the title and the body, where it has to occur. *)
Definition infer_agent_type (labels : list string) (title body : string) : string :=
  let labels_lower := List.map lower_string labels in
  let content := lower (of_string (title +:+ " " +:+ body)) in
  match first_agent_type (fun kw => task_creator.mem kw labels_lower) with
  | Some agent_type => agent_type
  | None =>
      match first_agent_type (fun kw => contains (of_string kw) content) with
      | Some agent_type => agent_type
      | None => "backend"
      end
  end.

(** The issue of a payload, with the fields that the handlers read: its
    number, title and body, and the names of its labels. *)
Record issue : Type := mk_issue {
  number : Z;
  title : string;
  body : string;
  labels : list string }.

(** A [dict] with string keys that a handler returns. *)
Definition result : Type := list (string * json).

Section Handlers.
Context {C : Codec}.

Definition handle_issue_opened (uuid_hex : string) (issue : issue)
    (repo_owner repo_name : string) : M result :=
  if negb (task_creator.mem "cloud-code" (labels issue))
     && negb (task_creator.mem "auto-code" (labels issue))
  then ret [("status", JStr "skipped"); ("reason", JStr "no cloud-code label")]
  else
    let agent_type := infer_agent_type (labels issue) (title issue) (body issue) in
    task <- task_creator.create_task_from_issue uuid_hex (number issue) (title issue)
              (body issue) repo_owner repo_name agent_type (labels issue) ;;
    ret [ ("status", JStr "task_created");
          ("task_id", JStr (TaskDefinition.id task));
          ("agent_type", JStr agent_type);
          ("issue_number", JInt (number issue)) ].

(** [command.get(key)]: [None] for a key that the dict does not have. *)
Fixpoint command_get (command : comment_parser.command) (key : string)
  : option string :=
  match command with
  | [] => None
  | (k, v) :: command' => if String.eqb k key then v else command_get command' key
  end.

Definition _handle_run_command (uuid_hex : string) (issue : issue)
    (repo_owner repo_name : string) (command : comment_parser.command) : M result :=
  let agent_type :=
    match command_get command "agent_type" with
    | None | Some EmptyString =>
        infer_agent_type (labels issue) (title issue) (body issue)
    | Some agent_type => agent_type
    end in
  task <- task_creator.create_task_from_issue uuid_hex (number issue) (title issue)
            (body issue) repo_owner repo_name agent_type (labels issue) ;;
  ret [ ("status", JStr "task_started");
        ("task_id", JStr (TaskDefinition.id task));
        ("agent_type", JStr agent_type) ].

Definition _handle_cancel_command (issue_number : Z) (repo_owner repo_name : string)
  : result :=
  [("status", JStr "cancelled"); ("issue_number", JInt issue_number)].

Definition _handle_status_command (issue_number : Z) (repo_owner repo_name : string)
  : result :=
  [("status", JStr "status_requested"); ("issue_number", JInt issue_number)].

Definition _handle_handoff_command (issue_number : Z) (repo_owner repo_name : string)
    (target_agent : option string) : result :=
  [ ("status", JStr "handoff_requested");
    ("issue_number", JInt issue_number);
    ("target_agent", dump_optional_str target_agent) ].

Definition _handle_retry_command (issue_number : Z) (repo_owner repo_name : string)
  : result :=
  [("status", JStr "retry_requested"); ("issue_number", JInt issue_number)].

(** [command[key]]: the value, or [None] for the [KeyError]. *)
Fixpoint command_item (command : comment_parser.command) (key : string)
  : option (option string) :=
  match command with
  | [] => None
  | (k, v) :: command' => if String.eqb k key then Some v else command_item command' key
  end.

(** [handle_issue_comment]; [comment_body] is the body of the comment.  A
    dict without a key is false for [if not command]. *)
Definition handle_issue_comment (uuid_hex : string) (comment_body : string)
    (issue : issue) (repo_owner repo_name : string) : M result :=
  match comment_parser.parse_cloud_code_command comment_body with
  | inl e => raise e
  | inr None | inr (Some []) =>
      ret [("status", JStr "ignored"); ("reason", JStr "no command found")]
  | inr (Some command) =>
      match command_item command "action" with
      | None => raise (OtherError "'action'")
      | Some action =>
          if bool_decide (action = Some "run") then
            _handle_run_command uuid_hex issue repo_owner repo_name command
          else if bool_decide (action = Some "cancel") then
            ret (_handle_cancel_command (number issue) repo_owner repo_name)
          else if bool_decide (action = Some "status") then
            ret (_handle_status_command (number issue) repo_owner repo_name)
          else if bool_decide (action = Some "handoff") then
            ret (_handle_handoff_command (number issue) repo_owner repo_name
                   (command_get command "target_agent"))
          else if bool_decide (action = Some "retry") then
            ret (_handle_retry_command (number issue) repo_owner repo_name)
          else
            ret [("status", JStr "unknown_command"); ("command", dump_optional_str action)]
      end
  end.

End Handlers.
End events.

(* ===================================================================== *)
(** * 8. A codec to run the model on *)
(* ===================================================================== *)

(** A file holds the dumped data itself, and a [datetime] is written as the
    decimal number of its microseconds. *)
Definition data_codec : Codec :=
  {| content := json;
     yaml_dump := fun v => v;
     yaml_safe_load := fun c => Some c;
     isoformat := fun d => NilEmpty.string_of_int (Z.to_int d);
     parse_datetime := fun s => Z.of_int <$> NilEmpty.int_of_string s |}.

(** The world before anything ran: no file, no call, the clock at its
    first reading; the [n]th reading is [n]. *)
Definition empty_world {C : Codec} : World :=
  mkWorld ∅ [] 0 (fun n => Z.of_nat n).

(* ===================================================================== *)
(** * 9. The vocabulary of the properties *)
(* ===================================================================== *)

(** ** Task selection *)

(** A dependency has a report, and its status is completed. *)
Definition dep_completed (reports : gmap string TaskReport.t) (dep : string) : Prop :=
  exists r, reports !! dep = Some r /\ TaskReport.status r = "completed".

(** The task has a report whose status is completed, failed or blocked. *)
Definition report_done (reports : gmap string TaskReport.t) (t : TaskDefinition.t) : Prop :=
  exists r, reports !! TaskDefinition.id t = Some r
            /\ In (TaskReport.status r) ["completed"; "failed"; "blocked"].

Definition recognized (p : string) : Prop :=
  In p ["critical"; "high"; "medium"; "low"].

Definition with_priority (p : string) (x : TaskDefinition.t) : TaskDefinition.t :=
  TaskDefinition.mk (TaskDefinition.id x) (TaskDefinition.title x)
    (TaskDefinition.status x) p (TaskDefinition.branch x)
    (TaskDefinition.description x) (TaskDefinition.acceptance_criteria x)
    (TaskDefinition.context x) (TaskDefinition.depends_on x)
    (TaskDefinition.workspace_mode x).

(** The task with an unrecognised priority read as medium. *)
Definition as_medium (x : TaskDefinition.t) : TaskDefinition.t :=
  if existsb (String.eqb (TaskDefinition.priority x)) ["critical"; "high"; "medium"; "low"]
  then x else with_priority "medium" x.

(** The task is eligible for selection: it has no report whose status is
    completed, failed or blocked, and each of its dependencies has a report
    whose status is completed. *)
Definition is_eligible (reports : gmap string TaskReport.t) (t : TaskDefinition.t) : bool :=
  negb (match reports !! TaskDefinition.id t with
        | Some r =>
            existsb (String.eqb (TaskReport.status r)) ["completed"; "failed"; "blocked"]
        | None => false
        end)
  && forallb (fun dep => match reports !! dep with
                         | Some r => String.eqb (TaskReport.status r) "completed"
                         | None => false
                         end)
       (TaskDefinition.depends_on t).

(** Every dependency of every task has a report. *)
Definition deps_reported (reports : gmap string TaskReport.t)
    (tasks : list TaskDefinition.t) : Prop :=
  Forall (fun t => Forall (fun dep => is_Some (reports !! dep)) (TaskDefinition.depends_on t))
    tasks.

(** [t] is the first, in the order of [l], of the elements of [l] of least
    key: the elements before it have a greater key, those after it none
    smaller. *)
Definition first_of_least {A : Type} (key : A -> Z) (l : list A) (t : A) : Prop :=
  exists l1 l2, l = l1 ++ t :: l2
    /\ Forall (fun x => key t < key x) l1
    /\ Forall (fun x => key t <= key x) l2.

(** ** Handoff detection *)

Section HandoffVocabulary.
Import Py BaseCLI.

(** [needle] occurs in [hay]. *)
Definition occurs_in (needle hay : str) : Prop :=
  exists pre post, hay = pre ++ needle ++ post.

(** The text, whatever its case, holds one of the seven phrases. *)
Definition mentions_handoff (text : string) : Prop :=
  exists ind, In ind indicators /\ occurs_in (of_string ind) (lower (of_string text)).

End HandoffVocabulary.

(** ** Comment commands *)

Section ParserVocabulary.
Import Py Re comment_parser.

(** No position of [s], which follows [prev], starts a line with the prefix. *)
Fixpoint no_command (prev : option ascii) (s : str) : Prop :=
  (at_bol COMMAND_FLAGS prev = true ->
   startswith (lower s) (of_string "/cloud-code") = false)
  /\ match s with
     | [] => True
     | c :: s' => no_command (Some c) s'
     end.

(** The newline, as a [string]. *)
Definition newline : string := String nl EmptyString.

(** Modelled on the words of the specification, to compare the code with:
    the grammar [^/cloud-code\s+(\w+)(\s+G)?$] where G is the dot under a
    star, case-insensitive and multiline.  Its second group holds the
    whitespace before the arguments, which the code's does not. *)
Definition SPEC_GRAMMAR : regex :=
  Seq Bol
    (lit (of_string "/cloud-code")
       (Seq (Plus ASpace)
          (Seq (Group 1 (Plus AWord))
             (Seq (Opt (Group 2 (Seq (Plus ASpace) (Star ADot))))
                Eol)))).

(** The parser over the grammar of the specification. *)
Definition parse_by_grammar (comment_body : string) : exn + option command :=
  match search COMMAND_FLAGS SPEC_GRAMMAR (of_string comment_body) with
  | None => inr None
  | Some m => command_of (action_of m) (args_of m)
  end.

(** The two patterns after the prefix; [with_ws] is the grouping of the
    specification. *)
Definition tail_pattern (with_ws : bool) : regex :=
  Seq (Plus ASpace)
    (Seq (Group 1 (Plus AWord))
       (Seq (Opt (if with_ws then Group 2 (Seq (Plus ASpace) (Star ADot))
                  else Seq (Plus ASpace) (Group 2 (Star ADot))))
          Eol)).

(** What the prefix leaves of the text, when the text starts with it. *)
Fixpoint strip_lit (fl : flags) (l : str) (prev : option ascii) (s : str)
  : option (option ascii * str) :=
  match l with
  | [] => Some (prev, s)
  | x :: l' =>
      match s with
      | c :: s' =>
          if atom_matches fl (AChar x) c then strip_lit fl l' (Some c) s' else None
      | [] => None
      end
  end.

(** The character before the text that follows [run]. *)
Definition last_prev (prev : option ascii) (run : str) : option ascii :=
  match last run with
  | Some c => Some c
  | None => prev
  end.

(** What a match of the part of the pattern after the prefix comes to, read
    from left to right without going back: whitespace, a word, and then the
    end of the text, or whitespace and the rest of a line.  [with_ws] says
    that the second group holds that whitespace too. *)
Definition scan_tail (with_ws : bool) (g : groups) (s : str) : option groups :=
  let (ws, s2) := span isspace s in
  match ws with
  | [] => None
  | _ =>
      let (word, s3) := span isword s2 in
      match word with
      | [] => None
      | _ =>
          match s3 with
          | [] => Some ((1%nat, word) :: g)
          | _ =>
              let (ws2, s4) := span isspace s3 in
              match ws2 with
              | [] => None
              | _ =>
                  let (rest, _) := span (fun c => negb (Ascii.eqb c nl)) s4 in
                  Some ((2%nat, if with_ws then ws2 ++ rest else rest)
                          :: (1%nat, word) :: g)
              end
          end
      end
  end.

End ParserVocabulary.

(** ** Saving, and the reporting operations *)

Section ReportingVocabulary.
Context {C : Codec}.

(** The calls of one save. *)
Definition save_ops (path tmp : Path.t) (c : content) : list fs_op :=
  [OpMkdir (Path.parent path); OpWriteText tmp c; OpRename tmp path].

(** The world after the calls of [ops], made at the clock's next reading. *)
Definition after_save (w : World) (ops : list fs_op) : World :=
  mkWorld (foldl apply_op (files w) ops) (syscalls w ++ ops) (S (ticks w)) (clock w).

(** The world with the clock read [k] more times. *)
Definition advance (k : nat) (w : World) : World :=
  mkWorld (files w) (syscalls w) (k + ticks w) (clock w).

(** A call is an [os.fsync]. *)
Definition is_fsync (op : fs_op) : bool :=
  match op with OpFsync _ => true | _ => false end.

(** The operations of the agent side that write the reporting document. *)
Inductive report_op : Type :=
| UpdateStatus (task_id status : string) (message : option string)
    (details : option (list (string * json)))
| SetTaskCompleted (task_id summary : string) (changes : list string)
    (files : list FileChange.t) (commits : list CommitRecord.t)
| SetTaskFailed (task_id error : string)
| SetTaskBlocked (task_id reason : string)
| RequestCredential (uuid_hex task_id cred_type scope reason : string).

Definition run_op (self : TaskInterface.t) (op : report_op) : M unit :=
  match op with
  | UpdateStatus task_id status message details =>
      TaskInterface.update_status self task_id status message details
  | SetTaskCompleted task_id summary changes files commits =>
      TaskInterface.set_task_completed self task_id summary changes files commits
  | SetTaskFailed task_id error => TaskInterface.set_task_failed self task_id error
  | SetTaskBlocked task_id reason => TaskInterface.set_task_blocked self task_id reason
  | RequestCredential uuid_hex task_id cred_type scope reason =>
      TaskInterface.request_credential self uuid_hex task_id cred_type scope reason ;;
      ret tt
  end.

Fixpoint run_ops (self : TaskInterface.t) (ops : list report_op) : M unit :=
  match ops with
  | [] => ret tt
  | op :: ops' => run_op self op ;; run_ops self ops'
  end.

(** What an operation does to the document between the load and the save. *)
Definition op_body (op : report_op) (report : ReportingFile.t) : M ReportingFile.t :=
  match op with
  | UpdateStatus task_id status message details =>
      ReportingFile.update_task_status
        (ReportingFile.set_status
           (if String.eqb status "in_progress" then "working" else "idle") report)
        task_id status message details
  | SetTaskCompleted task_id summary changes files commits =>
      let (report, r) :=
        ReportingFile.get_task_report (ReportingFile.set_status "idle" report) task_id in
      entry <- ProgressEntry.make "completed" "Task completed successfully" [] ;;
      let r :=
        TaskReport.set_commits commits
          (TaskReport.set_files_modified files
             (TaskReport.set_changes_summary changes
                (TaskReport.set_summary (Some summary)
                   (TaskReport.set_status "completed" r)))) in
      ret (ReportingFile.put_task_report report task_id
             (TaskReport.set_progress (TaskReport.progress r ++ [entry]) r))
  | SetTaskFailed task_id error =>
      let (report, r) :=
        ReportingFile.get_task_report (ReportingFile.set_status "idle" report) task_id in
      entry <- ProgressEntry.make "failed" ("Task failed: " +:+ error) [] ;;
      let r := TaskReport.set_error (Some error) (TaskReport.set_status "failed" r) in
      ret (ReportingFile.put_task_report report task_id
             (TaskReport.set_progress (TaskReport.progress r ++ [entry]) r))
  | SetTaskBlocked task_id reason =>
      let (report, r) :=
        ReportingFile.get_task_report (ReportingFile.set_status "idle" report) task_id in
      entry <- ProgressEntry.make "blocked" ("Task blocked: " +:+ reason) [] ;;
      let r :=
        TaskReport.set_blocked_reason (Some reason) (TaskReport.set_status "blocked" r) in
      ret (ReportingFile.put_task_report report task_id
             (TaskReport.set_progress (TaskReport.progress r ++ [entry]) r))
  | RequestCredential uuid_hex task_id cred_type scope reason =>
      ReportingFile.add_credential_request report task_id
        ("cred-" +:+ String.substring 0 8 uuid_hex) cred_type scope reason
  end.

(** The report of a task as the document has it: a task without an entry
    has the report that [get_task_report] would create. *)
Definition report_of (d : ReportingFile.t) (t : string) : TaskReport.t :=
  default TaskReport.default (ReportingFile.tasks d !! t).

Definition status_of (d : ReportingFile.t) (t : string) : string :=
  TaskReport.status (report_of d t).

Definition started_at_of (d : ReportingFile.t) (t : string) : option datetime :=
  TaskReport.started_at (report_of d t).

(** The task an operation is called for, and the status it writes. *)
Definition op_task (op : report_op) : string :=
  match op with
  | UpdateStatus task_id _ _ _ => task_id
  | SetTaskCompleted task_id _ _ _ _ => task_id
  | SetTaskFailed task_id _ => task_id
  | SetTaskBlocked task_id _ => task_id
  | RequestCredential _ task_id _ _ _ => task_id
  end.

Definition op_status (op : report_op) : option string :=
  match op with
  | UpdateStatus _ status _ _ => Some status
  | SetTaskCompleted _ _ _ _ _ => Some "completed"
  | SetTaskFailed _ _ => Some "failed"
  | SetTaskBlocked _ _ => Some "blocked"
  | RequestCredential _ _ _ _ _ => None
  end.

(** The one case in which [started_at] is assigned: an update to
    ["received"] of a task whose [started_at] is [None]. *)
Definition sets_started_at (op : report_op) (d : ReportingFile.t) (t : string) : bool :=
  match op with
  | UpdateStatus task_id status _ _ =>
      String.eqb t task_id && String.eqb status "received"
      && bool_decide (started_at_of d t = None)
  | _ => false
  end.

(** No operation of the sequence writes a status for a task whose report,
    in the file as it is when the operation starts, is completed, failed or
    blocked: the tasks that the selector skips. *)
Fixpoint guarded (self : TaskInterface.t) (ops : list report_op) (w : World) : Prop :=
  match ops with
  | [] => True
  | op :: ops' =>
      match (ReportingFile.load (TaskInterface.reporting_path self) w).1 with
      | inr d =>
          op_status op = None
          \/ AgentLoop.is_done (status_of d (op_task op)) = false
      | inl _ => False
      end
      /\ guarded self ops' (run_op self op w).2
  end.

(** The operation that ends the execution of a task: by the outcome of the
    CLI, [set_task_completed], [set_task_blocked] or [set_task_failed]. *)
Definition final_op (self : AgentLoop.t) (task : TaskDefinition.t)
    (cli : exn + CLIResult.t) (files_changed : list FileChange.t)
    (commits : list CommitRecord.t) : report_op :=
  let task_id := TaskDefinition.id task in
  match cli with
  | inl e => SetTaskFailed task_id (str_exn e)
  | inr result =>
      if CLIResult.success result then
        let summary := AgentLoop._extract_summary (CLIResult.output result) in
        SetTaskCompleted task_id
          (if String.eqb summary "" then "Completed: " +:+ TaskDefinition.title task
           else summary)
          ["Implemented " +:+ TaskDefinition.title task] files_changed commits
      else if CLIResult.needs_handoff result then
        SetTaskBlocked task_id
          ("recommend_handoff:" +:+ AgentLoop._suggest_alternative_cli self)
      else
        SetTaskFailed task_id
          (match CLIResult.error result with
           | None | Some EmptyString => "Unknown error"
           | Some e => e
           end)
  end.

(** The operations of one execution, in their order. *)
Definition execute_ops (self : AgentLoop.t) (task : TaskDefinition.t)
    (cli : exn + CLIResult.t) (files_changed : list FileChange.t)
    (commits : list CommitRecord.t) : list report_op :=
  [ UpdateStatus (TaskDefinition.id task) "received" (Some "Task acknowledged") None;
    UpdateStatus (TaskDefinition.id task) "planning"
      (Some "Analyzing task requirements") None;
    UpdateStatus (TaskDefinition.id task) "in_progress"
      (Some "Starting implementation") None;
    final_op self task cli files_changed commits ].

End ReportingVocabulary.

(** ** The examples *)

(** The tasks of the specification's dependency-gating scenario. *)
Definition task_a : TaskDefinition.t :=
  TaskDefinition.mk "a" "A" "assigned" "high" "cloud-code/issue-1" ""
    [] TaskContext.default [] "shared".

Definition task_b : TaskDefinition.t :=
  TaskDefinition.mk "b" "B" "assigned" "critical" "cloud-code/issue-2" ""
    [] TaskContext.default ["a"] "shared".

(** A task whose priority is none of the four. *)
Definition task_urgent : TaskDefinition.t :=
  TaskDefinition.mk "u" "U" "assigned" "urgent" "cloud-code/issue-3" ""
    [] TaskContext.default [] "shared".

(** Two tasks of low and of medium priority. *)
Definition task_low : TaskDefinition.t :=
  TaskDefinition.mk "l" "L" "assigned" "low" "cloud-code/issue-4" ""
    [] TaskContext.default [] "shared".

Definition task_medium : TaskDefinition.t :=
  TaskDefinition.mk "m" "M" "assigned" "medium" "cloud-code/issue-5" ""
    [] TaskContext.default [] "shared".

(** The task of the examples, once cancelled. *)
Definition task_a_cancelled : TaskDefinition.t :=
  TaskDefinition.set_status "cancelled" task_a.

Definition reporting_of (m : gmap string TaskReport.t) : ReportingFile.t :=
  ReportingFile.mk 1 "backend" "backend-1" 0 "idle" m.

(** A workspace for the examples. *)
Definition ws_example : TaskInterface.t := TaskInterface.mk ["ws"].

(** The initial document that a missing reporting file loads as when the
    clock reads 0, and the world after that load. *)
Definition report0 : ReportingFile.t := ReportingFile.mk 1 "unknown" "unknown" 0 "idle" ∅.

Definition world1 : World (C := data_codec) := mkWorld ∅ [] 1 (fun n => Z.of_nat n).

(** A world without files in which the clock reads 7 next, and two
    documents that were stamped when it read 3. *)
Definition world7 : World (C := data_codec) := mkWorld ∅ [] 7 (fun n => Z.of_nat n).
Definition tasking3 : TaskingFile.t := TaskingFile.mk 1 3 None [].
Definition reporting3 : ReportingFile.t :=
  ReportingFile.mk 1 "backend" "backend-1" 3 "idle" ∅.

(** A workspace in which task t1 was acknowledged when the clock read 1:
    the world after that update, and the document its reporting file holds. *)
Definition world_started : World (C := data_codec) :=
  (TaskInterface.update_status ws_example "t1" "received" (Some "Task acknowledged")
     None empty_world).2.

Definition report_started : ReportingFile.t :=
  ReportingFile.mk 1 "unknown" "unknown" 3 "idle"
    {[ "t1" :=
         TaskReport.mk "received" (Some 1) (Some "Task acknowledged") None
           [ProgressEntry.mk 2 "received" "Task acknowledged" []]
           [] [] [] [] None None [] ]}.

(** A workspace in which task t1 failed: the world after that report, and
    the document its reporting file holds. *)
Definition world_failed : World (C := data_codec) :=
  (run_op ws_example (SetTaskFailed "t1" "boom") empty_world).2.
Definition report_failed : ReportingFile.t :=
  ReportingFile.mk 1 "unknown" "unknown" 2 "idle"
    {[ "t1" :=
         TaskReport.mk "failed" None None None
           [ProgressEntry.mk 1 "failed" "Task failed: boom" []]
           [] [] [] [] (Some "boom") None [] ]}.

(** The tasking document of the examples with task a in it, and the world
    whose tasking file holds it. *)
Definition world_tasked : World (C := data_codec) :=
  (TaskInterface.write_task ws_example task_a empty_world).2.

Definition tasking_a : TaskingFile.t := TaskingFile.mk 1 1 (Some "ws") [task_a].

(** ** Further vocabulary: tasks by id, computations that only read *)

(** The task has the id [i]. *)
Definition has_id (i : string) (t : TaskDefinition.t) : bool :=
  String.eqb (TaskDefinition.id t) i.

(** The ids of a task list, in its order. *)
Definition task_ids (l : list TaskDefinition.t) : list string :=
  List.map TaskDefinition.id l.

(** The status that the operations of a sequence leave a task with, from
    the status [s] it had: that of the last one that writes it a status. *)
Definition status_after (t : string) (ops : list report_op) (s : string) : string :=
  fold_left
    (fun s op => if String.eqb t (op_task op) then default s (op_status op) else s)
    ops s.

(** A computation that makes no file-system call and changes no file,
    whether it returns or raises; it may read the clock. *)
Definition reads_only {C : Codec} {A : Type} (m : M A) : Prop :=
  forall w : World,
    files (m w).2 = files w /\ syscalls (m w).2 = syscalls w /\ clock (m w).2 = clock w.

(** The status that [_execute_task] ends a task with, by what the CLI
    runner came to. *)
Definition final_status (cli : exn + CLIResult.t) : string :=
  match cli with
  | inl _ => "failed"
  | inr result =>
      if CLIResult.success result then "completed"
      else if CLIResult.needs_handoff result then "blocked"
      else "failed"
  end.

(** A world whose only file is an empty reporting document: the YAML of
    the file loads as [None]. *)
Definition world_empty_report : World (C := data_codec) :=
  mkWorld {[ TaskInterface.reporting_path ws_example := JNull ]} [] 0
    (fun n => Z.of_nat n).

(** A world whose reporting file holds a YAML sequence. *)
Definition world_list_report : World (C := data_codec) :=
  mkWorld {[ TaskInterface.reporting_path ws_example := JList [JInt 1] ]} [] 0
    (fun n => Z.of_nat n).

(** The tasks of a tasking document that a pass of the agent's loop looks
    at: those with the status assigned. *)
Definition pending_of (dt : TaskingFile.t) : list TaskDefinition.t :=
  List.filter (fun t => String.eqb (TaskDefinition.status t) "assigned")
    (TaskingFile.tasks dt).

(** An agent on the workspace of the examples, and a world in which the
    tasking file of that workspace holds a document with the tasks given and
    its reporting file the initial document. *)
Definition agent_example : AgentLoop.t := AgentLoop.mk ["ws"] "backend" "backend-1" "aider".

Definition tasking_of (tasks : list TaskDefinition.t) : TaskingFile.t :=
  TaskingFile.mk 1 0 (Some "ws") tasks.

Definition world_with_tasks (tasks : list TaskDefinition.t) : World (C := data_codec) :=
  mkWorld
    {[ TaskInterface.tasking_path ws_example
         := yaml_dump (Codec := data_codec)
              (TaskingFile.model_dump (C := data_codec) (tasking_of tasks));
       TaskInterface.reporting_path ws_example
         := yaml_dump (Codec := data_codec)
              (ReportingFile.model_dump (C := data_codec) report0) ]}
    [] 0 (fun n => Z.of_nat n).

(** The state of the loop of [extract_task_context] after the lines given:
    the dict, the current section, and the lines of that section read so
    far. *)
Fixpoint scan_state (lines : list Py.str) (ctx : comment_parser.context_data)
    (current_section : string) (section_content : list Py.str)
  : comment_parser.context_data * string * list Py.str :=
  match lines with
  | [] => (ctx, current_section, section_content)
  | line :: lines' =>
      if Py.startswith line (Py.of_string "## ") then
        scan_state lines'
          (comment_parser._save_section ctx current_section section_content)
          (comment_parser.section_of_header (Py.lower (Py.strip (drop 3 line)))) []
      else scan_state lines' ctx current_section (section_content ++ [line])
  end.

(** A line is no header of a section. *)
Definition no_header (line : Py.str) : Prop :=
  Py.startswith line (Py.of_string "## ") = false.

(** A character that is neither a digit nor whitespace. *)
Definition plain_char (c : ascii) : Prop :=
  ReSub.isdigit c = false /\ Py.isspace c = false.
(* ===================================================================== *)
(** * Properties *)
(* ===================================================================== *)

(** ** Task selection *)

Section Selection.
Import AgentLoop.

Lemma dict_get_priority (p : string) :
  dict_get priority_order p 2 =
    if String.eqb "critical" p then 0
    else if String.eqb "high" p then 1
    else if String.eqb "medium" p then 2
    else if String.eqb "low" p then 3 else 2.
Proof. reflexivity. Qed.

Lemma filter_insert_by {A : Type} (key : A -> Z) (k : Z) (x : A) (l : list A) :
  List.filter (fun y => key y =? k) (insert_by key x l)
  = List.filter (fun y => key y =? k) (x :: l).
Proof.
  induction l as [|y l IH]; [reflexivity|].
  cbn [insert_by]. destruct (Z.leb_spec (key x) (key y)) as [Hle|Hlt]; [reflexivity|].
  cbn [List.filter] in *. rewrite IH.
  destruct (Z.eqb_spec (key x) k), (Z.eqb_spec (key y) k); try reflexivity; lia.
Qed.

(** Stability: the elements of each sort key keep their original order. *)
Lemma sort_by_stable {A : Type} (key : A -> Z) (k : Z) (l : list A) :
  List.filter (fun y => key y =? k) (sort_by key l)
  = List.filter (fun y => key y =? k) l.
Proof.
  induction l as [|x l IH]; [reflexivity|].
  cbn [sort_by]. rewrite filter_insert_by. cbn [List.filter]. now rewrite IH.
Qed.

Lemma insert_by_perm {A : Type} (key : A -> Z) (x : A) (l : list A) :
  Permutation (insert_by key x l) (x :: l).
Proof.
  induction l as [|y l IH]; [reflexivity|].
  cbn [insert_by]. destruct (key x <=? key y); [reflexivity|].
  rewrite IH. apply perm_swap.
Qed.

Lemma sort_by_perm {A : Type} (key : A -> Z) (l : list A) :
  Permutation (sort_by key l) l.
Proof.
  induction l as [|x l IH]; [reflexivity|].
  cbn [sort_by]. rewrite insert_by_perm. now rewrite IH.
Qed.

Lemma insert_by_sorted {A : Type} (key : A -> Z) (x : A) (l : list A) :
  StronglySorted (fun a b => key a <= key b) l ->
  StronglySorted (fun a b => key a <= key b) (insert_by key x l).
Proof.
  induction 1 as [|y l Hs IH Hy]; cbn [insert_by].
  - repeat constructor.
  - destruct (Z.leb_spec (key x) (key y)) as [Hle|Hlt].
    + constructor; [now constructor|].
      constructor; [exact Hle|].
      eapply Forall_impl; [exact Hy|]. cbn. intros; lia.
    + constructor; [exact IH|].
      rewrite insert_by_perm. constructor; [lia | exact Hy].
Qed.

Lemma sort_by_sorted {A : Type} (key : A -> Z) (l : list A) :
  StronglySorted (fun a b => key a <= key b) (sort_by key l).
Proof.
  induction l as [|x l IH]; cbn [sort_by]; [constructor|].
  now apply insert_by_sorted.
Qed.

(** The head of the sorted list is the first element of least key. *)
Lemma head_sort_by {A : Type} (key : A -> Z) (l : list A) (t : A) :
  head (sort_by key l) = Some t ->
  exists l1 l2, l = l1 ++ t :: l2
    /\ Forall (fun x => key t < key x) l1
    /\ Forall (fun x => key t <= key x) l2.
Proof.
  revert t. induction l as [|x l IH]; intros t; [discriminate|].
  cbn [sort_by]. destruct (sort_by key l) as [|h s] eqn:Hs.
  - cbn. intros [= <-]. exists [], l. split; [reflexivity|].
    assert (l = []) as ->.
    { apply Permutation_nil. rewrite <- Hs. apply sort_by_perm. }
    split; constructor.
  - destruct (IH h eq_refl) as (l1 & l2 & -> & H1 & H2).
    cbn [insert_by]. destruct (Z.leb_spec (key x) (key h)) as [Hle|Hlt].
    + cbn. intros [= <-]. exists [], (l1 ++ h :: l2). split; [reflexivity|].
      split; [constructor|]. apply Forall_app. split.
      * eapply Forall_impl; [exact H1|]. cbn; intros; lia.
      * constructor; [exact Hle|].
        eapply Forall_impl; [exact H2|]. cbn; intros; lia.
    + cbn. intros [= <-]. exists (x :: l1), l2. split; [reflexivity|].
      split; [|exact H2]. constructor; [exact Hlt | exact H1].
Qed.

Lemma is_done_spec (s : string) :
  is_done s = true <-> In s ["completed"; "failed"; "blocked"].
Proof.
  unfold is_done. rewrite !orb_true_iff, !String.eqb_eq. cbn. intuition congruence.
Qed.

Lemma deps_met_true reports deps :
  deps_met reports deps = inr true <-> Forall (dep_completed reports) deps.
Proof.
  induction deps as [|d deps IH]; cbn [deps_met].
  - split; [constructor | reflexivity].
  - destruct (reports !! d) as [r|] eqn:Hr.
    + destruct (String.eqb_spec (TaskReport.status r) "completed") as [He|Hne].
      * rewrite IH. split.
        -- intros H. constructor; [exists r; auto | exact H].
        -- intros H. now inversion H.
      * split; [discriminate|]. intros H. inversion H as [|? ? (r' & Hr' & Hs) _]; subst.
        congruence.
    + split; [discriminate|]. intros H. inversion H as [|? ? (r' & Hr' & Hs) _]; subst.
      congruence.
Qed.

(** The selector raises only at a dependency that has no report. *)
Lemma deps_met_raises reports deps e :
  deps_met reports deps = inl e -> exists dep, In dep deps /\ reports !! dep = None.
Proof.
  induction deps as [|d deps IH]; cbn [deps_met]; [discriminate|].
  destruct (reports !! d) as [r|] eqn:Hr.
  - destruct (String.eqb (TaskReport.status r) "completed"); [|discriminate].
    intros H. destruct (IH H) as (dep & Hin & Hn). exists dep. split; [now right | exact Hn].
  - intros _. exists d. split; [now left | exact Hr].
Qed.

Lemma eligible_tasks_raises tasks reports e :
  eligible_tasks tasks reports = inl e ->
  exists t dep, In t tasks /\ In dep (TaskDefinition.depends_on t) /\ reports !! dep = None.
Proof.
  induction tasks as [|t tasks IH]; cbn [eligible_tasks]; [discriminate|].
  assert (Hrest : eligible_tasks tasks reports = inl e ->
            exists t0 dep, In t0 (t :: tasks) /\ In dep (TaskDefinition.depends_on t0)
                           /\ reports !! dep = None).
  { intros H. destruct (IH H) as (t0 & dep & Hin & Hd & Hn).
    exists t0, dep. split; [now right | auto]. }
  destruct (match reports !! TaskDefinition.id t with
            | Some r => is_done (TaskReport.status r) | None => false end); [exact Hrest|].
  destruct (TaskDefinition.depends_on t) as [|d ds] eqn:Hdeps.
  - destruct (eligible_tasks tasks reports) as [e'|l]; [|discriminate].
    intros [= <-]. now apply Hrest.
  - destruct (deps_met reports (d :: ds)) as [e'|[|]] eqn:Hm.
    + intros _. destruct (deps_met_raises _ _ _ Hm) as (dep & Hin & Hn).
      exists t, dep. split; [now left|]. rewrite Hdeps. auto.
    + destruct (eligible_tasks tasks reports) as [e'|l]; [|discriminate].
      intros [= <-]. now apply Hrest.
    + exact Hrest.
Qed.

(** Without an exception, [eligible] holds exactly the tasks that are not
    done and whose dependencies are all completed, in document order. *)
Lemma eligible_tasks_elem tasks reports l t :
  eligible_tasks tasks reports = inr l ->
  In t l <->
  In t tasks /\ ~ report_done reports t
  /\ Forall (dep_completed reports) (TaskDefinition.depends_on t).
Proof.
  revert l. induction tasks as [|t0 tasks IH]; intros l; cbn [eligible_tasks].
  - intros [= <-]. cbn. tauto.
  - assert (Hdone : (match reports !! TaskDefinition.id t0 with
                     | Some r => is_done (TaskReport.status r) | None => false end) = true
                    <-> report_done reports t0).
    { unfold report_done. destruct (reports !! TaskDefinition.id t0) as [r|].
      - rewrite is_done_spec. split; [intros H; exists r; auto|].
        intros (r' & [= <-] & H). exact H.
      - split; [discriminate|]. intros (r' & [=] & _). }
    destruct (match reports !! TaskDefinition.id t0 with
              | Some r => is_done (TaskReport.status r) | None => false end) eqn:Hskip.
    { intros H. rewrite (IH _ H). cbn [In]. split; [tauto|].
      intros ([<-|Hin] & Hnd & Hf); [|tauto]. exfalso. apply Hnd, Hdone. reflexivity. }
    assert (Hnd : ~ report_done reports t0) by (rewrite <- Hdone; discriminate).
    assert (Hmet : (match TaskDefinition.depends_on t0 with
                    | [] => inr true | deps => deps_met reports deps end)
                   = deps_met reports (TaskDefinition.depends_on t0)).
    { now destruct (TaskDefinition.depends_on t0). }
    rewrite Hmet. destruct (deps_met reports (TaskDefinition.depends_on t0)) as [e|[|]] eqn:Hm.
    + discriminate.
    + apply deps_met_true in Hm.
      destruct (eligible_tasks tasks reports) as [e|l0]; [discriminate|].
      intros [= <-]. cbn [In]. rewrite (IH l0 eq_refl). split.
      * intros [<-|H]; [tauto|]. tauto.
      * tauto.
    + intros H. rewrite (IH _ H). cbn [In]. split; [tauto|].
      intros ([<-|Hin] & Hnd' & Hf); [|tauto].
      apply deps_met_true in Hf. congruence.
Qed.

Lemma eligible_tasks_sublist tasks reports l :
  eligible_tasks tasks reports = inr l -> sublist l tasks.
Proof.
  revert l. induction tasks as [|t0 tasks IH]; intros l; cbn [eligible_tasks].
  - intros [= <-]. constructor.
  - destruct (match reports !! TaskDefinition.id t0 with
              | Some r => is_done (TaskReport.status r) | None => false end).
    { intros H. apply sublist_cons, IH, H. }
    destruct (match TaskDefinition.depends_on t0 with
              | [] => inr true | deps => deps_met reports deps end) as [e|[|]].
    + discriminate.
    + destruct (eligible_tasks tasks reports) as [e|l0]; [discriminate|].
      intros [= <-]. apply sublist_skip, IH. reflexivity.
    + intros H. apply sublist_cons, IH, H.
Qed.

(** What a returned task satisfies. *)
Lemma select_next_task_sound tasks reporting t :
  _select_next_task tasks reporting = inr (Some t) ->
  In t tasks /\ ~ report_done (ReportingFile.tasks reporting) t
  /\ Forall (dep_completed (ReportingFile.tasks reporting)) (TaskDefinition.depends_on t).
Proof.
  unfold _select_next_task.
  destruct (eligible_tasks tasks (ReportingFile.tasks reporting)) as [e|l] eqn:He; [discriminate|].
  destruct l as [|x l]; [discriminate|]. intros [= H].
  apply (eligible_tasks_elem _ _ _ t He).
  apply (Permutation_in t (sort_by_perm sort_key (x :: l))).
  cbn [sort_by]. revert H.
  destruct (insert_by sort_key x (sort_by sort_key l)); cbn; [discriminate|].
  intros [= ->]. now left.
Qed.

(** C1 (the code departs from the claim).  With A = {id a, high} and
    B = {id b, critical, depends_on [a]}: while A has no report entry the
    selector raises [AttributeError] instead of returning A; once A has an
    entry that is not done it returns A, and once A's report is completed it
    returns B. *)
Theorem select_dependency_gating_raises :
  _select_next_task [task_a; task_b] (reporting_of ∅) = inl AttributeError
  /\ _select_next_task [task_a; task_b]
       (reporting_of {[ "a" := TaskReport.default ]}) = inr (Some task_a)
  /\ _select_next_task [task_a; task_b]
       (reporting_of {[ "a" := TaskReport.set_status "completed" TaskReport.default ]})
     = inr (Some task_b).
Proof. repeat split; vm_compute; reflexivity. Qed.

(** *** Unrecognised priorities *)

Lemma sort_key_unrecognized (t : TaskDefinition.t) :
  ~ recognized (TaskDefinition.priority t) -> sort_key t = 2.
Proof.
  unfold recognized, sort_key. rewrite dict_get_priority. cbn [In]. intros H.
  repeat match goal with
  | |- context [String.eqb ?a ?b] =>
      destruct (String.eqb_spec a b); [exfalso; apply H; auto 6|]
  end.
  reflexivity.
Qed.

Lemma sort_key_as_medium (t : TaskDefinition.t) : sort_key (as_medium t) = sort_key t.
Proof.
  unfold as_medium.
  destruct (existsb _ _) eqn:He; [reflexivity|].
  rewrite (sort_key_unrecognized t); [reflexivity|].
  intros Hr. unfold recognized in Hr.
  assert (existsb (String.eqb (TaskDefinition.priority t))
            ["critical"; "high"; "medium"; "low"] = true); [|congruence].
  apply existsb_exists. exists (TaskDefinition.priority t). split; [exact Hr|].
  apply String.eqb_refl.
Qed.

Lemma insert_by_map {A : Type} (key : A -> Z) (f : A -> A) (x : A) (l : list A) :
  (forall y, key (f y) = key y) ->
  insert_by key (f x) (List.map f l) = List.map f (insert_by key x l).
Proof.
  intros Hk. induction l as [|y l IH]; [reflexivity|].
  cbn [insert_by List.map]. rewrite !Hk.
  destruct (key x <=? key y); [reflexivity|]. cbn [List.map]. now rewrite IH.
Qed.

Lemma sort_by_map {A : Type} (key : A -> Z) (f : A -> A) (l : list A) :
  (forall y, key (f y) = key y) ->
  sort_by key (List.map f l) = List.map f (sort_by key l).
Proof.
  intros Hk. induction l as [|x l IH]; [reflexivity|].
  cbn [sort_by List.map]. rewrite IH. now apply insert_by_map.
Qed.

(** Eligibility reads a task's [id] and [depends_on] only. *)
Lemma eligible_tasks_map (f : TaskDefinition.t -> TaskDefinition.t) tasks reports :
  (forall t, TaskDefinition.id (f t) = TaskDefinition.id t) ->
  (forall t, TaskDefinition.depends_on (f t) = TaskDefinition.depends_on t) ->
  eligible_tasks (List.map f tasks) reports
  = match eligible_tasks tasks reports with
    | inl e => inl e
    | inr l => inr (List.map f l)
    end.
Proof.
  intros Hid Hdeps. induction tasks as [|t tasks IH]; [reflexivity|].
  cbn [List.map eligible_tasks]. rewrite Hid, Hdeps, IH.
  destruct (match reports !! TaskDefinition.id t with
            | Some r => is_done (TaskReport.status r) | None => false end); [reflexivity|].
  destruct (match TaskDefinition.depends_on t with
            | [] => inr true | deps => deps_met reports deps end) as [e|[|]];
    [reflexivity| |reflexivity].
  now destruct (eligible_tasks tasks reports).
Qed.

Lemma select_next_task_map (f : TaskDefinition.t -> TaskDefinition.t) tasks reporting :
  (forall t, TaskDefinition.id (f t) = TaskDefinition.id t) ->
  (forall t, TaskDefinition.depends_on (f t) = TaskDefinition.depends_on t) ->
  (forall t, sort_key (f t) = sort_key t) ->
  _select_next_task (List.map f tasks) reporting
  = match _select_next_task tasks reporting with
    | inl e => inl e
    | inr o => inr (option_map f o)
    end.
Proof.
  intros Hid Hdeps Hkey. unfold _select_next_task.
  rewrite (eligible_tasks_map f) by assumption.
  destruct (eligible_tasks tasks (ReportingFile.tasks reporting)) as [e|[|x l]];
    [reflexivity..|].
  change (List.map f (x :: l)) with (f x :: List.map f l) at 1.
  cbv iota. change (f x :: List.map f l) with (List.map f (x :: l)).
  rewrite sort_by_map by assumption.
  now destruct (sort_by sort_key (x :: l)).
Qed.

(** Without an exception, [eligible] is the list of the eligible tasks, in
    document order. *)
Lemma deps_met_forallb reports deps b :
  deps_met reports deps = inr b ->
  b = forallb (fun dep => match reports !! dep with
                          | Some r => String.eqb (TaskReport.status r) "completed"
                          | None => false
                          end) deps.
Proof.
  induction deps as [|d deps IH]; cbn [deps_met forallb]; [now intros [= <-]|].
  destruct (reports !! d) as [r|]; [|discriminate].
  destruct (String.eqb (TaskReport.status r) "completed"); [exact IH | now intros [= <-]].
Qed.

Lemma is_done_existsb (s : string) :
  is_done s = existsb (String.eqb s) ["completed"; "failed"; "blocked"].
Proof. unfold is_done. cbn [existsb]. now rewrite orb_false_r, orb_assoc. Qed.

Lemma eligible_tasks_filter tasks reports l :
  eligible_tasks tasks reports = inr l -> l = List.filter (is_eligible reports) tasks.
Proof.
  revert l. induction tasks as [|t tasks IH]; intros l; cbn [eligible_tasks List.filter].
  - now intros [= <-].
  - unfold is_eligible at 1.
    destruct (reports !! TaskDefinition.id t) as [r|].
    + rewrite <- is_done_existsb. destruct (is_done (TaskReport.status r)).
      { cbn [negb andb]. apply IH. }
      cbn [negb andb].
      assert (Hmet : (match TaskDefinition.depends_on t with
                      | [] => inr true | deps => deps_met reports deps end)
                     = deps_met reports (TaskDefinition.depends_on t))
        by now destruct (TaskDefinition.depends_on t).
      rewrite Hmet.
      destruct (deps_met reports (TaskDefinition.depends_on t)) as [e|b] eqn:Hm; [discriminate|].
      rewrite <- (deps_met_forallb _ _ _ Hm). destruct b; [|apply IH].
      destruct (eligible_tasks tasks reports) as [e|l0]; [discriminate|].
      intros [= <-]. now rewrite (IH l0 eq_refl).
    + cbn [negb andb].
      assert (Hmet : (match TaskDefinition.depends_on t with
                      | [] => inr true | deps => deps_met reports deps end)
                     = deps_met reports (TaskDefinition.depends_on t))
        by now destruct (TaskDefinition.depends_on t).
      rewrite Hmet.
      destruct (deps_met reports (TaskDefinition.depends_on t)) as [e|b] eqn:Hm; [discriminate|].
      rewrite <- (deps_met_forallb _ _ _ Hm). destruct b; [|apply IH].
      destruct (eligible_tasks tasks reports) as [e|l0]; [discriminate|].
      intros [= <-]. now rewrite (IH l0 eq_refl).
Qed.

(** The loop does not raise when every dependency has a report. *)
Lemma eligible_tasks_returns tasks reports :
  deps_reported reports tasks ->
  eligible_tasks tasks reports = inr (List.filter (is_eligible reports) tasks).
Proof.
  intros Hdeps.
  destruct (eligible_tasks tasks reports) as [e|l] eqn:He.
  - destruct (eligible_tasks_raises _ _ _ He) as (t & dep & Ht & Hdep & Hnone).
    unfold deps_reported in Hdeps. rewrite List.Forall_forall in Hdeps.
    specialize (Hdeps t Ht). rewrite List.Forall_forall in Hdeps.
    destruct (Hdeps dep Hdep) as [r Hr]. congruence.
  - now rewrite (eligible_tasks_filter _ _ _ He).
Qed.

(** The sort puts first the first element of least key. *)
Lemma sort_by_first_of_least {A : Type} (key : A -> Z) (l : list A) (t : A) :
  first_of_least key l t -> head (sort_by key l) = Some t.
Proof.
  intros (l1 & l2 & -> & H1 & H2).
  induction H1 as [|x l1 Hx _ IH]; cbn [app sort_by].
  - destruct (sort_by key l2) as [|h s] eqn:Hs; [reflexivity|].
    cbn [insert_by].
    assert (Hh : key t <= key h).
    { rewrite List.Forall_forall in H2. apply H2.
      apply (Permutation_in h (sort_by_perm key l2)). rewrite Hs. now left. }
    destruct (Z.leb_spec (key t) (key h)); [reflexivity | lia].
  - destruct (sort_by key (l1 ++ t :: l2)) as [|h s]; [discriminate IH|].
    cbn [head] in IH. injection IH as ->. cbn [insert_by].
    destruct (Z.leb_spec (key x) (key t)); [lia | reflexivity].
Qed.

Lemma first_of_least_exists {A : Type} (key : A -> Z) (l : list A) :
  l <> [] -> exists t, first_of_least key l t.
Proof.
  intros Hne. destruct (sort_by key l) as [|h s] eqn:Hs.
  - exfalso. apply Hne. apply Permutation_nil. rewrite <- Hs. apply sort_by_perm.
  - exists h. apply head_sort_by. now rewrite Hs.
Qed.

Lemma select_next_task_head tasks reporting l :
  eligible_tasks tasks (ReportingFile.tasks reporting) = inr l ->
  _select_next_task tasks reporting = inr (head (sort_by sort_key l)).
Proof.
  unfold _select_next_task. intros ->. now destruct l.
Qed.

(** C10.  A priority outside critical, high, medium, low has sort key 2, the
    key of medium, and selection over the tasks with such priorities read as
    medium picks the same task and raises in the same cases.  Selection
    never fails for a priority: it raises only at a dependency without a
    report, and when every dependency has a report it returns, whatever the
    priorities.  What it returns is stated outright: the head of the
    eligible tasks (those without a report that is completed, failed or
    blocked, and with every dependency completed) sorted by their key; that
    is, when some task is eligible, the first in document order of the
    eligible tasks of least key, so that tasks of equal key are taken in
    document order, and a task that is returned is that one; and no task
    when none is eligible. *)
Theorem select_unknown_priority_as_medium
    (tasks : list TaskDefinition.t) (reporting : ReportingFile.t) :
  (forall t, ~ recognized (TaskDefinition.priority t) ->
     sort_key t = 2 /\ sort_key t = sort_key (with_priority "medium" t))
  /\ _select_next_task (List.map as_medium tasks) reporting
     = match _select_next_task tasks reporting with
       | inl e => inl e
       | inr o => inr (option_map as_medium o)
       end
  /\ (forall e, _select_next_task tasks reporting = inl e ->
       exists t dep, In t tasks /\ In dep (TaskDefinition.depends_on t)
                     /\ ReportingFile.tasks reporting !! dep = None)
  /\ (deps_reported (ReportingFile.tasks reporting) tasks ->
       _select_next_task tasks reporting
       = inr (head (sort_by sort_key
                      (List.filter (is_eligible (ReportingFile.tasks reporting)) tasks))))
  /\ (forall o, _select_next_task tasks reporting = inr o ->
       o = head (sort_by sort_key
                   (List.filter (is_eligible (ReportingFile.tasks reporting)) tasks)))
  /\ (forall t,
       first_of_least sort_key
         (List.filter (is_eligible (ReportingFile.tasks reporting)) tasks) t ->
       (forall e, _select_next_task tasks reporting <> inl e) ->
       _select_next_task tasks reporting = inr (Some t))
  /\ (forall t, _select_next_task tasks reporting = inr (Some t) ->
       first_of_least sort_key
         (List.filter (is_eligible (ReportingFile.tasks reporting)) tasks) t)
  /\ (List.filter (is_eligible (ReportingFile.tasks reporting)) tasks <> [] ->
       exists t,
         first_of_least sort_key
           (List.filter (is_eligible (ReportingFile.tasks reporting)) tasks) t
         /\ head (sort_by sort_key
                    (List.filter (is_eligible (ReportingFile.tasks reporting)) tasks))
            = Some t)
  /\ (List.filter (is_eligible (ReportingFile.tasks reporting)) tasks = [] ->
       (forall e, _select_next_task tasks reporting <> inl e) ->
       _select_next_task tasks reporting = inr None).
Proof.
  assert (Hret : forall o, _select_next_task tasks reporting = inr o ->
            o = head (sort_by sort_key
                        (List.filter (is_eligible (ReportingFile.tasks reporting)) tasks))).
  { intros o Ho.
    destruct (eligible_tasks tasks (ReportingFile.tasks reporting)) as [e|l] eqn:He.
    - unfold _select_next_task in Ho. rewrite He in Ho. discriminate Ho.
    - rewrite (select_next_task_head _ _ _ He) in Ho.
      rewrite <- (eligible_tasks_filter _ _ _ He). congruence. }
  split; [|split; [|split; [|split; [|split; [|split; [|split; [|split]]]]]]].
  - intros t Ht. split; [now apply sort_key_unrecognized | ].
    now rewrite (sort_key_unrecognized t Ht).
  - apply select_next_task_map; intros t; [| |apply sort_key_as_medium];
      unfold as_medium; now destruct (existsb _ _).
  - unfold _select_next_task. intros e.
    destruct (eligible_tasks tasks (ReportingFile.tasks reporting)) as [e'|[|x l]] eqn:He;
      [|discriminate..].
    intros _. eapply eligible_tasks_raises, He.
  - intros Hdeps. apply select_next_task_head, eligible_tasks_returns, Hdeps.
  - exact Hret.
  - intros t Ht Hno.
    destruct (_select_next_task tasks reporting) as [e|o] eqn:Hsel;
      [now destruct (Hno e)|].
    rewrite (Hret o eq_refl). now rewrite (sort_by_first_of_least _ _ _ Ht).
  - intros t Ht. apply head_sort_by. symmetry. exact (Hret _ Ht).
  - intros Hne. destruct (first_of_least_exists sort_key _ Hne) as (t & Ht).
    exists t. split; [exact Ht | now apply sort_by_first_of_least].
  - intros Hnil Hno.
    destruct (_select_next_task tasks reporting) as [e|o] eqn:Hsel;
      [now destruct (Hno e)|].
    rewrite (Hret o eq_refl), Hnil. reflexivity.
Qed.

End Selection.

Lemma select_unknown_priority_witness :
  ~ recognized (TaskDefinition.priority task_urgent)
  /\ deps_reported (ReportingFile.tasks (reporting_of {[ "a" := TaskReport.default ]}))
       [task_low; task_urgent; task_medium; task_b]
  /\ AgentLoop.sort_key task_urgent = 2
  /\ List.filter (is_eligible (ReportingFile.tasks (reporting_of {[ "a" := TaskReport.default ]})))
       [task_low; task_urgent; task_medium; task_b]
     = [task_low; task_urgent; task_medium]
  /\ AgentLoop._select_next_task [task_low; task_urgent; task_medium; task_b]
       (reporting_of {[ "a" := TaskReport.default ]})
     = inr (Some task_urgent).
Proof.
  assert (H : ~ recognized (TaskDefinition.priority task_urgent)).
  { unfold recognized. cbn. intros [H|[H|[H|[H|[]]]]]; discriminate H. }
  assert (Hdeps : deps_reported
                    (ReportingFile.tasks (reporting_of {[ "a" := TaskReport.default ]}))
                    [task_low; task_urgent; task_medium; task_b]).
  { repeat constructor. exists TaskReport.default. reflexivity. }
  pose proof (select_unknown_priority_as_medium
                [task_low; task_urgent; task_medium; task_b]
                (reporting_of {[ "a" := TaskReport.default ]})) as (Hkey & _ & _ & Hsel & _).
  split; [exact H|]. split; [exact Hdeps|].
  split; [exact (proj1 (Hkey task_urgent H))|].
  split; [reflexivity|].
  exact (Hsel Hdeps).
Defined.

(** ** Handoff detection *)

Section Handoff.
Import Py BaseCLI.

Lemma startswith_spec (hay needle : str) :
  startswith hay needle = true <-> exists post, hay = needle ++ post.
Proof.
  revert hay. induction needle as [|a needle IH]; intros hay; cbn [startswith].
  - split; [intros _; now exists hay | reflexivity].
  - destruct hay as [|b hay].
    + split; [discriminate | intros (post & [=])].
    + rewrite andb_true_iff, IH. split.
      * intros (Hab & post & ->). apply Ascii.eqb_eq in Hab as ->. now exists post.
      * intros (post & [= -> ->]). split; [apply Ascii.eqb_refl | now exists post].
Qed.

Lemma contains_spec (needle hay : str) :
  contains needle hay = true <-> occurs_in needle hay.
Proof.
  unfold occurs_in. induction hay as [|b hay IH]; cbn [contains].
  - rewrite orb_false_r, startswith_spec. split.
    + intros (post & ->). now exists [], post.
    + intros (pre & post & H). destruct pre; [now exists post|discriminate].
  - rewrite orb_true_iff, startswith_spec, IH. split.
    + intros [(post & ->)|(pre & post & ->)]; [now exists [], post|].
      now exists (b :: pre), post.
    + intros ([|c pre] & post & H); [left; now exists post|].
      right. injection H as -> ->. now exists pre, post.
Qed.

Lemma check_needs_handoff_spec (output : string) (error : option string) :
  _check_needs_handoff output error = true
  <-> mentions_handoff (output +:+ or_empty error).
Proof.
  unfold _check_needs_handoff, mentions_handoff. rewrite existsb_exists.
  split; intros (ind & Hin & H); exists ind; (split; [exact Hin|]);
    now apply contains_spec.
Qed.

(** C5 (the claim fails as stated).  A run that ends with return code 0,
    an empty stdout and a stderr that says stuck: the combined output holds
    one of the phrases, and [needs_handoff] is false. *)
Lemma run_command_drops_stderr_on_success :
  CLIResult.needs_handoff
    (_run_command "claude-code" "claude" 3600 (Exited 0 "" "I am stuck")) = false
  /\ mentions_handoff ("" +:+ "I am stuck").
Proof.
  split; [reflexivity|].
  exists "stuck". split; [cbn; auto|].
  exists (of_string "i am "), []. reflexivity.
Qed.

(** C5, amended.  [needs_handoff] is true if and only if the command ended
    within the timeout and its stdout, followed by its stderr when the
    return code is not 0, holds one of the seven phrases, whatever the case
    of the letters.  The stderr of a run that returns 0 is not scanned, and
    a run that timed out or could not be started has [needs_handoff] false;
    so has, through [CLIRunner.run], a CLI that is not installed. *)
Theorem run_command_needs_handoff
    (name binary : string) (timeout : Z) (o : outcome) :
  (CLIResult.needs_handoff (_run_command name binary timeout o) = true
   <-> exists returncode stdout stderr,
         o = Exited returncode stdout stderr
         /\ mentions_handoff
              (stdout +:+ (if returncode =? 0 then "" else stderr)))
  /\ (forall cli_name available,
        match CLIRunner.run cli_name available timeout o with
        | inl _ => True
        | inr result =>
            CLIResult.needs_handoff result = true
            <-> available = true
                /\ exists returncode stdout stderr,
                     o = Exited returncode stdout stderr
                     /\ mentions_handoff
                          (stdout +:+ (if returncode =? 0 then "" else stderr))
        end).
Proof.
  assert (Hrun : forall n b,
            CLIResult.needs_handoff (_run_command n b timeout o) = true
            <-> exists returncode stdout stderr,
                  o = Exited returncode stdout stderr
                  /\ mentions_handoff
                       (stdout +:+ (if returncode =? 0 then "" else stderr))).
  { intros n b. destruct o as [rc out err| | |msg]; cbn [_run_command CLIResult.make
      CLIResult.needs_handoff].
    - rewrite check_needs_handoff_spec.
      assert (Herr : or_empty (if negb (String.eqb err "") && negb (rc =? 0)
                               then Some err else None)
                     = if rc =? 0 then "" else err).
      { destruct (rc =? 0); [now rewrite andb_false_r|].
        destruct (String.eqb_spec err "") as [->|]; reflexivity. }
      rewrite Herr. split.
      + intros H. now exists rc, out, err.
      + intros (rc' & out' & err' & [= -> -> ->] & H). exact H.
    - split; [discriminate | intros (? & ? & ? & [=] & _)].
    - split; [discriminate | intros (? & ? & ? & [=] & _)].
    - split; [discriminate | intros (? & ? & ? & [=] & _)]. }
  split; [apply Hrun|].
  intros cli_name available. unfold CLIRunner.run.
  destruct (CLIRunner.lookup_cli _ cli_name) as [[n b]|]; [|exact I].
  destruct available; cbn [negb].
  - rewrite Hrun. split; [intros H; split; [reflexivity|exact H] | intros [_ H]; exact H].
  - cbn. split; [discriminate | intros [[=] _]].
Qed.

End Handoff.


Lemma data_codec_laws : CodecLaws data_codec.
Proof.
  split; [reflexivity|]. intros d. cbn.
  rewrite NilEmpty.isi. cbn. now rewrite DecimalZ.of_to.
Qed.

(** ** Documents: what is written is what is read *)

Section Roundtrip.
Context {C : Codec} {L : CodecLaws C}.

Lemma mapM_io_fmap {A B : Type} (f : A -> M B) (g : B -> A) (l : list B) (w : World) :
  (forall x w', f (g x) w' = (inr x, w')) ->
  mapM_io f (g <$> l) w = (inr l, w).
Proof.
  intros Hfg. induction l as [|x l IH]; [reflexivity|].
  cbn [fmap list_fmap mapM_io]. unfold bind at 1. rewrite Hfg.
  unfold bind at 1. rewrite IH. reflexivity.
Qed.

Lemma str_dump (s : string) (w : World) : Pydantic.str_ (JStr s) w = (inr s, w).
Proof. reflexivity. Qed.

Lemma datetime_dump (d : datetime) (w : World) :
  Pydantic.datetime_ (JStr (isoformat d)) w = (inr d, w).
Proof. cbn. now rewrite datetime_roundtrip. Qed.

Lemma optional_str_dump (o : option string) (w : World) :
  Pydantic.optional Pydantic.str_ (dump_optional_str o) w = (inr o, w).
Proof. now destruct o. Qed.

Lemma list_str_dump (l : list string) (w : World) :
  Pydantic.list_ Pydantic.str_ (JList (JStr <$> l)) w = (inr l, w).
Proof. cbn. apply mapM_io_fmap. reflexivity. Qed.

Lemma bind_inr {A B : Type} (m : M A) (f : A -> M B) (w w' : World) (a : A) :
  m w = (inr a, w') -> bind m f w = f a w'.
Proof. unfold bind. now intros ->. Qed.

Lemma bind_inl {A B : Type} (m : M A) (f : A -> M B) (w w' : World) (e : exn) :
  m w = (inl e, w') -> bind m f w = (inl e, w').
Proof. unfold bind. now intros ->. Qed.

Lemma list_dump {B : Type} (f : json -> M B) (g : B -> json) (l : list B) (w : World) :
  (forall x w', f (g x) w' = (inr x, w')) ->
  Pydantic.list_ f (JList (g <$> l)) w = (inr l, w).
Proof. intros Hfg. cbn. now apply mapM_io_fmap. Qed.

Create HintDb io discriminated.
#[local] Hint Resolve str_dump datetime_dump optional_str_dump list_str_dump
  mapM_io_fmap list_dump : io.

(** Run the validation of a dump field by field. *)
Ltac io_steps :=
  cbn;
  repeat (erewrite bind_inr by (eauto with io); cbn);
  try reflexivity.

Lemma TaskContext_roundtrip (x : TaskContext.t) (w : World) :
  TaskContext.validate (TaskContext.model_dump x) w = (inr x, w).
Proof. destruct x. unfold TaskContext.validate, TaskContext.model_dump. io_steps. Qed.
#[local] Hint Resolve TaskContext_roundtrip : io.

Lemma TaskDefinition_roundtrip (x : TaskDefinition.t) (w : World) :
  TaskDefinition.validate (TaskDefinition.model_dump x) w = (inr x, w).
Proof.
  destruct x. unfold TaskDefinition.validate, TaskDefinition.model_dump. io_steps.
Qed.
#[local] Hint Resolve TaskDefinition_roundtrip : io.

Lemma ProgressEntry_roundtrip (x : ProgressEntry.t) (w : World) :
  ProgressEntry.validate (ProgressEntry.model_dump x) w = (inr x, w).
Proof.
  destruct x. unfold ProgressEntry.validate, ProgressEntry.model_dump. io_steps.
Qed.

Lemma FileChange_roundtrip (x : FileChange.t) (w : World) :
  FileChange.validate (FileChange.model_dump x) w = (inr x, w).
Proof. destruct x. unfold FileChange.validate, FileChange.model_dump. io_steps. Qed.

Lemma CommitRecord_roundtrip (x : CommitRecord.t) (w : World) :
  CommitRecord.validate (CommitRecord.model_dump x) w = (inr x, w).
Proof. destruct x. unfold CommitRecord.validate, CommitRecord.model_dump. io_steps. Qed.

Lemma AcceptanceCriterionStatus_roundtrip (x : AcceptanceCriterionStatus.t) (w : World) :
  AcceptanceCriterionStatus.validate (AcceptanceCriterionStatus.model_dump x) w = (inr x, w).
Proof.
  destruct x.
  unfold AcceptanceCriterionStatus.validate, AcceptanceCriterionStatus.model_dump. io_steps.
Qed.

Lemma CredentialRequestRecord_roundtrip (x : CredentialRequestRecord.t) (w : World) :
  CredentialRequestRecord.validate (CredentialRequestRecord.model_dump x) w = (inr x, w).
Proof.
  destruct x.
  unfold CredentialRequestRecord.validate, CredentialRequestRecord.model_dump. io_steps.
Qed.
#[local] Hint Resolve ProgressEntry_roundtrip FileChange_roundtrip CommitRecord_roundtrip
  AcceptanceCriterionStatus_roundtrip CredentialRequestRecord_roundtrip : io.

Lemma optional_datetime_dump (o : option datetime) (w : World) :
  Pydantic.optional Pydantic.datetime_
    (match o with Some d => JStr (isoformat d) | None => JNull end) w = (inr o, w).
Proof.
  destruct o as [d|]; [|reflexivity]. cbn.
  erewrite bind_inr by apply datetime_dump. reflexivity.
Qed.
#[local] Hint Resolve optional_datetime_dump : io.

Lemma TaskReport_roundtrip (x : TaskReport.t) (w : World) :
  TaskReport.validate (TaskReport.model_dump x) w = (inr x, w).
Proof.
  destruct x. unfold TaskReport.validate, TaskReport.model_dump. io_steps.
Qed.
#[local] Hint Resolve TaskReport_roundtrip : io.

Lemma reports_dump (m : gmap string TaskReport.t) (w : World) :
  ReportingFile.reports_
    (JDict (prod_map id TaskReport.model_dump <$> map_to_list m)) w = (inr m, w).
Proof.
  cbn. erewrite bind_inr.
  2:{ apply (mapM_io_fmap
               (fun kv => r <- TaskReport.validate kv.2 ;; ret (kv.1, r))
               (prod_map id TaskReport.model_dump)).
      intros [k r] w'. cbn. erewrite bind_inr by apply TaskReport_roundtrip.
      reflexivity. }
  cbn. unfold ret. now rewrite list_to_map_to_list.
Qed.
#[local] Hint Resolve reports_dump : io.

Lemma TaskingFile_of_kwargs_dump (x : TaskingFile.t) (w : World) :
  match TaskingFile.model_dump x with
  | JDict d => TaskingFile.of_kwargs d w = (inr x, w)
  | _ => False
  end.
Proof.
  destruct x. unfold TaskingFile.of_kwargs, TaskingFile.model_dump. io_steps.
Qed.

Lemma ReportingFile_of_kwargs_dump (x : ReportingFile.t) (w : World) :
  match ReportingFile.model_dump x with
  | JDict d => ReportingFile.of_kwargs d w = (inr x, w)
  | _ => False
  end.
Proof.
  destruct x. unfold ReportingFile.of_kwargs, ReportingFile.model_dump. io_steps.
Qed.

End Roundtrip.

(** ** Saving and loading *)

Section SaveLoad.
Context {C : Codec}.

Lemma name_joinpath (p : Path.t) (c : string) : Path.name (Path.joinpath p c) = c.
Proof. unfold Path.name, Path.joinpath. apply last_last. Qed.

Lemma parent_joinpath (p : Path.t) (c : string) : Path.parent (Path.joinpath p c) = p.
Proof. unfold Path.parent, Path.joinpath. apply removelast_last. Qed.

(** [d / "reporting.yaml"] and [d / "tasking.yaml"] get the suffix [".tmp"]
    in place of [".yaml"]. *)
Lemma with_suffix_reporting (d : Path.t) :
  Path.with_suffix (Path.joinpath d "reporting.yaml") ".tmp"
  = Some (Path.joinpath d "reporting.tmp").
Proof.
  unfold Path.with_suffix, Path.suffix.
  rewrite name_joinpath, parent_joinpath. reflexivity.
Qed.

Lemma with_suffix_tasking (d : Path.t) :
  Path.with_suffix (Path.joinpath d "tasking.yaml") ".tmp"
  = Some (Path.joinpath d "tasking.tmp").
Proof.
  unfold Path.with_suffix, Path.suffix.
  rewrite name_joinpath, parent_joinpath. reflexivity.
Qed.

Lemma joinpath_inj (d : Path.t) (a b : string) :
  Path.joinpath d a = Path.joinpath d b -> a = b.
Proof. unfold Path.joinpath. intros H. apply app_inv_head in H. congruence. Qed.

Lemma ReportingFile_save_run (self : ReportingFile.t) (path tmp : Path.t) (w : World) :
  Path.with_suffix path ".tmp" = Some tmp ->
  let self' := ReportingFile.set_updated_at (clock w (ticks w)) self in
  ReportingFile.save self path w
  = (inr self',
     after_save w (save_ops path tmp (yaml_dump (ReportingFile.model_dump self')))).
Proof.
  intros Htmp. unfold ReportingFile.save, bind, mkdir, utcnow, lift. rewrite Htmp.
  unfold ret, write_text, rename, exec. cbn [files syscalls ticks clock apply_op].
  repeat (rewrite lookup_insert_eq; cbn [files syscalls ticks clock apply_op]).
  unfold after_save, save_ops. cbn [foldl apply_op].
  rewrite lookup_insert_eq. rewrite <- !app_assoc. reflexivity.
Qed.

Lemma TaskingFile_save_run (self : TaskingFile.t) (path tmp : Path.t) (w : World) :
  Path.with_suffix path ".tmp" = Some tmp ->
  let self' := TaskingFile.set_updated_at (clock w (ticks w)) self in
  TaskingFile.save self path w
  = (inr self',
     after_save w (save_ops path tmp (yaml_dump (TaskingFile.model_dump self')))).
Proof.
  intros Htmp. unfold TaskingFile.save, bind, mkdir, utcnow, lift. rewrite Htmp.
  unfold ret, write_text, rename, exec. cbn [files syscalls ticks clock apply_op].
  repeat (rewrite lookup_insert_eq; cbn [files syscalls ticks clock apply_op]).
  unfold after_save, save_ops. cbn [foldl apply_op].
  rewrite lookup_insert_eq. rewrite <- !app_assoc. reflexivity.
Qed.

(** After the calls of a save the target holds what was written. *)
Lemma after_save_target (w : World) (path tmp : Path.t) (c : content) :
  files (after_save w (save_ops path tmp c)) !! path = Some c.
Proof.
  unfold after_save, save_ops. cbn [files foldl apply_op].
  rewrite lookup_insert_eq. apply lookup_insert_eq.
Qed.

Lemma after_save_other (w : World) (path tmp p : Path.t) (c : content) :
  p <> path -> p <> tmp ->
  files (after_save w (save_ops path tmp c)) !! p = files w !! p.
Proof.
  intros H1 H2. unfold after_save, save_ops. cbn [files foldl apply_op].
  rewrite lookup_insert_eq. rewrite lookup_insert_ne by congruence.
  rewrite lookup_delete_ne by congruence. now rewrite lookup_insert_ne by congruence.
Qed.

Context {L : CodecLaws C}.

(** A file that holds the dump of a document loads as that document, and
    the load reads neither the clock nor changes a file. *)
Lemma ReportingFile_load_dump (path : Path.t) (d : ReportingFile.t) (w : World) :
  files w !! path = Some (yaml_dump (ReportingFile.model_dump d)) ->
  ReportingFile.load path w = (inr d, w).
Proof.
  intros Hf. unfold ReportingFile.load, bind, path_exists, read_text. rewrite Hf.
  rewrite bool_decide_eq_true_2 by eauto. cbn [negb]. rewrite ?Hf.
  rewrite yaml_roundtrip. cbn [lift ret].
  pose proof (ReportingFile_of_kwargs_dump d w) as Hd.
  destruct (ReportingFile.model_dump d) as [| | | | |kw] eqn:Hdump; try contradiction.
  assert (kw <> []) by (intros ->; discriminate Hdump).
  destruct kw; [congruence|]. cbn. exact Hd.
Qed.

Lemma TaskingFile_load_dump (path : Path.t) (d : TaskingFile.t) (w : World) :
  files w !! path = Some (yaml_dump (TaskingFile.model_dump d)) ->
  TaskingFile.load path w = (inr d, w).
Proof.
  intros Hf. unfold TaskingFile.load, bind, path_exists, read_text. rewrite Hf.
  rewrite bool_decide_eq_true_2 by eauto. cbn [negb]. rewrite ?Hf.
  rewrite yaml_roundtrip. cbn [lift ret].
  pose proof (TaskingFile_of_kwargs_dump d w) as Hd.
  destruct (TaskingFile.model_dump d) as [| | | | |kw] eqn:Hdump; try contradiction.
  assert (kw <> []) by (intros ->; discriminate Hdump).
  destruct kw; [congruence|]. cbn. exact Hd.
Qed.

(** A missing file loads as an initial document, stamped by the clock. *)
Lemma ReportingFile_load_missing (path : Path.t) (w : World) :
  files w !! path = None ->
  ReportingFile.load path w
  = (inr (ReportingFile.mk 1 "unknown" "unknown" (clock w (ticks w)) "idle" ∅),
     mkWorld (files w) (syscalls w) (S (ticks w)) (clock w)).
Proof.
  intros Hf. unfold ReportingFile.load, bind, path_exists. rewrite Hf.
  rewrite bool_decide_eq_false_2 by (intros [? [=]]). reflexivity.
Qed.

Lemma TaskingFile_load_missing (path : Path.t) (w : World) :
  files w !! path = None ->
  TaskingFile.load path w
  = (inr (TaskingFile.mk 1 (clock w (ticks w)) None []),
     mkWorld (files w) (syscalls w) (S (ticks w)) (clock w)).
Proof.
  intros Hf. unfold TaskingFile.load, bind, path_exists. rewrite Hf.
  rewrite bool_decide_eq_false_2 by (intros [? [=]]). reflexivity.
Qed.

End SaveLoad.

(** ** C6: loading after saving *)

Section LoadAfterSave.

(** C6 (the claim fails as stated).  A tasking document and a reporting
    document with [updated_at = 3], each saved when the clock reads 7 and
    loaded back: the loaded documents have [updated_at = 7], and so differ
    from the documents that were saved. *)
Lemma load_after_save_changes_updated_at :
  ((TaskingFile.save tasking3 (TaskInterface.tasking_path ws_example) ;;
    TaskingFile.load (TaskInterface.tasking_path ws_example)) world7).1
  = inr (TaskingFile.set_updated_at 7 tasking3)
  /\ TaskingFile.set_updated_at 7 tasking3 <> tasking3
  /\ ((ReportingFile.save reporting3 (TaskInterface.reporting_path ws_example) ;;
       ReportingFile.load (TaskInterface.reporting_path ws_example)) world7).1
     = inr (ReportingFile.set_updated_at 7 reporting3)
  /\ ReportingFile.set_updated_at 7 reporting3 <> reporting3.
Proof.
  split; [|split; [|split]].
  - vm_compute. reflexivity.
  - discriminate.
  - vm_compute. reflexivity.
  - discriminate.
Qed.

Context {C : Codec} {L : CodecLaws C}.

(** C6, amended.  For both kinds of document: saving [doc] stamps it with
    the clock's reading, and loading the file right after yields the
    document as the save left it, that is [doc] with that [updated_at] and
    every other field as it was. *)
Theorem load_after_save_roundtrip
    (path tmp : Path.t) (w : World) (t : TaskingFile.t) (r : ReportingFile.t) :
  Path.with_suffix path ".tmp" = Some tmp ->
  (exists w',
     TaskingFile.save t path w
     = (inr (TaskingFile.set_updated_at (clock w (ticks w)) t), w')
     /\ TaskingFile.load path w'
        = (inr (TaskingFile.set_updated_at (clock w (ticks w)) t), w'))
  /\ (exists w',
     ReportingFile.save r path w
     = (inr (ReportingFile.set_updated_at (clock w (ticks w)) r), w')
     /\ ReportingFile.load path w'
        = (inr (ReportingFile.set_updated_at (clock w (ticks w)) r), w')).
Proof.
  intros Htmp. split; eexists; (split; [|]).
  - apply TaskingFile_save_run, Htmp.
  - apply TaskingFile_load_dump, after_save_target.
  - apply ReportingFile_save_run, Htmp.
  - apply ReportingFile_load_dump, after_save_target.
Qed.

End LoadAfterSave.

Lemma load_after_save_roundtrip_witness :
  Path.with_suffix (TaskInterface.tasking_path ws_example) ".tmp"
  = Some ["ws"; ".cloud-code"; "tasking.tmp"]
  /\ (exists w',
     TaskingFile.save tasking3 (TaskInterface.tasking_path ws_example) world7
     = (inr (TaskingFile.set_updated_at (clock world7 (ticks world7)) tasking3), w')
     /\ TaskingFile.load (TaskInterface.tasking_path ws_example) w'
        = (inr (TaskingFile.set_updated_at (clock world7 (ticks world7)) tasking3), w'))
  /\ (exists w',
     ReportingFile.save reporting3 (TaskInterface.tasking_path ws_example) world7
     = (inr (ReportingFile.set_updated_at (clock world7 (ticks world7)) reporting3), w')
     /\ ReportingFile.load (TaskInterface.tasking_path ws_example) w'
        = (inr (ReportingFile.set_updated_at (clock world7 (ticks world7)) reporting3),
           w')).
Proof.
  split; [reflexivity|].
  apply (load_after_save_roundtrip (C := data_codec) (L := data_codec_laws)
           (TaskInterface.tasking_path ws_example) ["ws"; ".cloud-code"; "tasking.tmp"]
           world7 tasking3 reporting3).
  reflexivity.
Defined.

(** ** C2: the atomic replace *)

Section AtomicReplace.

(** C2 (the claim fails as stated).  The calls of a save are a [mkdir], the
    write of the temp file and the rename: there is no [fsync] between the
    write and the rename, nor anywhere else. *)
Lemma save_makes_no_fsync :
  (exists c,
    syscalls (ReportingFile.save reporting3
                (TaskInterface.reporting_path ws_example) world7).2
    = [ OpMkdir ["ws"; ".cloud-code"];
        OpWriteText ["ws"; ".cloud-code"; "reporting.tmp"] c;
        OpRename ["ws"; ".cloud-code"; "reporting.tmp"]
                 ["ws"; ".cloud-code"; "reporting.yaml"] ])
  /\ existsb is_fsync
       (syscalls (ReportingFile.save reporting3
                    (TaskInterface.reporting_path ws_example) world7).2) = false.
Proof.
  split; [eexists; vm_compute; reflexivity|]. vm_compute. reflexivity.
Qed.

Context {C : Codec}.

(** C2, amended.  Every save of the reporting or the tasking document of a
    workspace succeeds and makes three calls: [mkdir] of [.cloud-code], the
    write of the serialized document into the sibling temp file
    ([reporting.tmp], [tasking.tmp]), and the rename of the temp file over
    the target.  The temp file is not the target, so the target is never
    written in place: up to the rename it holds what it held before, and
    after it the whole new content.  No [fsync] is made. *)
Theorem save_writes_temp_then_renames
    (self : TaskInterface.t) (r : ReportingFile.t) (t : TaskingFile.t) (w : World) :
  (exists c w',
     ReportingFile.save r (TaskInterface.reporting_path self) w
     = (inr (ReportingFile.set_updated_at (clock w (ticks w)) r), w')
     /\ c = yaml_dump (ReportingFile.model_dump
                         (ReportingFile.set_updated_at (clock w (ticks w)) r))
     /\ syscalls w'
        = syscalls w
          ++ [ OpMkdir (TaskInterface.cloud_code_dir self);
               OpWriteText (Path.joinpath (TaskInterface.cloud_code_dir self)
                              "reporting.tmp") c;
               OpRename (Path.joinpath (TaskInterface.cloud_code_dir self)
                           "reporting.tmp") (TaskInterface.reporting_path self) ]
     /\ Path.joinpath (TaskInterface.cloud_code_dir self) "reporting.tmp"
        <> TaskInterface.reporting_path self
     /\ apply_op (apply_op (files w) (OpMkdir (TaskInterface.cloud_code_dir self)))
          (OpWriteText (Path.joinpath (TaskInterface.cloud_code_dir self)
                          "reporting.tmp") c)
        !! TaskInterface.reporting_path self
        = files w !! TaskInterface.reporting_path self
     /\ files w' !! TaskInterface.reporting_path self = Some c)
  /\ (exists c w',
     TaskingFile.save t (TaskInterface.tasking_path self) w
     = (inr (TaskingFile.set_updated_at (clock w (ticks w)) t), w')
     /\ c = yaml_dump (TaskingFile.model_dump
                         (TaskingFile.set_updated_at (clock w (ticks w)) t))
     /\ syscalls w'
        = syscalls w
          ++ [ OpMkdir (TaskInterface.cloud_code_dir self);
               OpWriteText (Path.joinpath (TaskInterface.cloud_code_dir self)
                              "tasking.tmp") c;
               OpRename (Path.joinpath (TaskInterface.cloud_code_dir self)
                           "tasking.tmp") (TaskInterface.tasking_path self) ]
     /\ Path.joinpath (TaskInterface.cloud_code_dir self) "tasking.tmp"
        <> TaskInterface.tasking_path self
     /\ apply_op (apply_op (files w) (OpMkdir (TaskInterface.cloud_code_dir self)))
          (OpWriteText (Path.joinpath (TaskInterface.cloud_code_dir self)
                          "tasking.tmp") c)
        !! TaskInterface.tasking_path self
        = files w !! TaskInterface.tasking_path self
     /\ files w' !! TaskInterface.tasking_path self = Some c).
Proof.
  split.
  - assert (Hne : Path.joinpath (TaskInterface.cloud_code_dir self) "reporting.tmp"
                  <> TaskInterface.reporting_path self).
    { intros H. apply joinpath_inj in H. discriminate H. }
    eexists _, _. split; [apply ReportingFile_save_run, with_suffix_reporting|].
    split; [reflexivity|]. split.
    { unfold after_save, save_ops, TaskInterface.reporting_path.
      cbn [syscalls]. now rewrite parent_joinpath. }
    split; [exact Hne|]. split.
    { cbn [apply_op]. now rewrite lookup_insert_ne. }
    apply after_save_target.
  - assert (Hne : Path.joinpath (TaskInterface.cloud_code_dir self) "tasking.tmp"
                  <> TaskInterface.tasking_path self).
    { intros H. apply joinpath_inj in H. discriminate H. }
    eexists _, _. split; [apply TaskingFile_save_run, with_suffix_tasking|].
    split; [reflexivity|]. split.
    { unfold after_save, save_ops, TaskInterface.tasking_path.
      cbn [syscalls]. now rewrite parent_joinpath. }
    split; [exact Hne|]. split.
    { cbn [apply_op]. now rewrite lookup_insert_ne. }
    apply after_save_target.
Qed.

End AtomicReplace.

(** ** The agent's reporting operations *)

Section Reporting.
Context {C : Codec}.

(** Every operation is: load, [op_body], save. *)
Lemma run_op_body (self : TaskInterface.t) (op : report_op) (w : World) :
  run_op self op w
  = (report <- ReportingFile.load (TaskInterface.reporting_path self) ;;
     report <- op_body op report ;;
     ReportingFile.save report (TaskInterface.reporting_path self) ;;
     ret tt) w.
Proof.
  destruct op; cbn [run_op op_body];
    unfold TaskInterface.update_status, TaskInterface.set_task_completed,
      TaskInterface.set_task_failed, TaskInterface.set_task_blocked,
      TaskInterface.request_credential;
    try reflexivity; unfold bind;
    destruct (ReportingFile.load (TaskInterface.reporting_path self) w) as [[e|d] w0];
    try reflexivity.
  - destruct (ReportingFile.get_task_report _ task_id). reflexivity.
  - destruct (ReportingFile.get_task_report _ task_id). reflexivity.
  - destruct (ReportingFile.get_task_report _ task_id). reflexivity.
  - destruct (ReportingFile.add_credential_request d task_id _ cred_type scope reason w0)
      as [[e|d'] w1]; [reflexivity|].
    destruct (ReportingFile.save d' (TaskInterface.reporting_path self) w1) as [[e|d''] w2];
      reflexivity.
Qed.

(** [op_body] never raises and only reads the clock. *)
Lemma op_body_runs (op : report_op) (d : ReportingFile.t) (w : World) :
  exists d' k, op_body op d w = (inr d', advance k w).
Proof.
  destruct w as [fs sc tk ck]. destruct op; cbn [op_body].
  - unfold ReportingFile.update_task_status.
    destruct (ReportingFile.get_task_report _ task_id) as [d1 r].
    unfold bind, utcnow, ProgressEntry.make, ret.
    destruct (String.eqb status "received" && _);
      destruct message as [[|a m]|]; cbn; eexists;
      first [ exists 0%nat; reflexivity
            | exists 1%nat; reflexivity
            | exists 2%nat; reflexivity ].
  - destruct (ReportingFile.get_task_report _ task_id) as [d1 r].
    eexists _, 1%nat. reflexivity.
  - destruct (ReportingFile.get_task_report _ task_id) as [d1 r].
    eexists _, 1%nat. reflexivity.
  - destruct (ReportingFile.get_task_report _ task_id) as [d1 r].
    eexists _, 1%nat. reflexivity.
  - unfold ReportingFile.add_credential_request.
    destruct (ReportingFile.get_task_report _ task_id) as [d1 r].
    eexists _, 1%nat. reflexivity.
Qed.

Lemma get_task_report_spec (d : ReportingFile.t) (task_id : string) :
  exists d1,
    ReportingFile.get_task_report d task_id = (d1, report_of d task_id)
    /\ (forall r t, report_of (ReportingFile.put_task_report d1 task_id r) t
                    = if String.eqb t task_id then r else report_of d t)
    /\ (forall r t, t <> task_id ->
          ReportingFile.tasks (ReportingFile.put_task_report d1 task_id r) !! t
          = ReportingFile.tasks d !! t)
    /\ (forall r, ReportingFile.status (ReportingFile.put_task_report d1 task_id r)
                  = ReportingFile.status d).
Proof.
  unfold ReportingFile.get_task_report, report_of.
  destruct (ReportingFile.tasks d !! task_id) as [r0|] eqn:Hr; eexists;
    (split; [reflexivity|]); (split; [|split]); intros; cbn;
    try reflexivity.
  - destruct (String.eqb_spec t task_id) as [->|Hne].
    + now rewrite lookup_insert_eq.
    + now rewrite lookup_insert_ne by congruence.
  - now rewrite lookup_insert_ne by congruence.
  - destruct (String.eqb_spec t task_id) as [->|Hne].
    + now rewrite lookup_insert_eq.
    + now rewrite !lookup_insert_ne by congruence.
  - now rewrite !lookup_insert_ne by congruence.
Qed.

(** Unfold one operation's body down to the report it stores. *)
Ltac op_body_cases d task_id :=
  let d1 := fresh "d1" in
  let Hg := fresh "Hg" in
  let Hput := fresh "Hput" in
  let Hoth := fresh "Hoth" in
  let Htop := fresh "Htop" in
  match goal with
  | |- context [ReportingFile.get_task_report ?x task_id] =>
      destruct (get_task_report_spec x task_id) as (d1 & Hg & Hput & Hoth & Htop);
      rewrite Hg
  end.

Lemma op_body_status (op : report_op) (d d' : ReportingFile.t) (w w' : World) (t : string) :
  op_body op d w = (inr d', w') ->
  status_of d' t
  = if String.eqb t (op_task op) then default (status_of d t) (op_status op)
    else status_of d t.
Proof.
  unfold status_of.
  destruct op; cbn [op_body op_task op_status default];
    unfold ReportingFile.update_task_status, ReportingFile.add_credential_request;
    op_body_cases d task_id;
    unfold bind, utcnow, ProgressEntry.make, CredentialRequestRecord.make, ret.
  - destruct (String.eqb status "received" && _); destruct message as [[|a m]|]; cbn;
      intros [= <- <-]; rewrite Hput; now destruct (String.eqb t task_id).
  - intros [= <- <-]; rewrite Hput; now destruct (String.eqb t task_id).
  - intros [= <- <-]; rewrite Hput; now destruct (String.eqb t task_id).
  - intros [= <- <-]; rewrite Hput; now destruct (String.eqb t task_id).
  - intros [= <- <-]; rewrite Hput. destruct (String.eqb_spec t task_id) as [->|]; reflexivity.
Qed.

Lemma op_body_other (op : report_op) (d d' : ReportingFile.t) (w w' : World) (t : string) :
  op_body op d w = (inr d', w') ->
  t <> op_task op ->
  ReportingFile.tasks d' !! t = ReportingFile.tasks d !! t.
Proof.
  destruct op; cbn [op_body op_task];
    unfold ReportingFile.update_task_status, ReportingFile.add_credential_request;
    op_body_cases d task_id;
    unfold bind, utcnow, ProgressEntry.make, CredentialRequestRecord.make, ret.
  - destruct (String.eqb status "received" && _); destruct message as [[|a m]|]; cbn;
      intros [= <- <-] Hne; now rewrite Hoth.
  - intros [= <- <-] Hne; now rewrite Hoth.
  - intros [= <- <-] Hne; now rewrite Hoth.
  - intros [= <- <-] Hne; now rewrite Hoth.
  - intros [= <- <-] Hne; now rewrite Hoth.
Qed.

Lemma op_body_started_at (op : report_op) (d d' : ReportingFile.t) (w w' : World) (t : string) :
  op_body op d w = (inr d', w') ->
  started_at_of d' t
  = if sets_started_at op d t then Some (clock w (ticks w)) else started_at_of d t.
Proof.
  unfold started_at_of.
  destruct op; cbn [op_body sets_started_at];
    unfold ReportingFile.update_task_status, ReportingFile.add_credential_request;
    op_body_cases d task_id;
    unfold bind, utcnow, ProgressEntry.make, CredentialRequestRecord.make, ret.
  - unfold started_at_of.
    assert (Hsame : forall t0, report_of
               (ReportingFile.set_status
                  (if String.eqb status "in_progress" then "working" else "idle") d) t0
             = report_of d t0) by reflexivity.
    rewrite Hsame in *. cbn [TaskReport.started_at TaskReport.set_status].
    destruct (String.eqb_spec t task_id) as [->|Hne]; cbn [andb].
    + destruct (String.eqb status "received"); cbn [andb];
        [destruct (bool_decide _) eqn:Hb|];
        destruct message as [[|a m]|]; cbn;
        intros [= <- <-]; rewrite Hput, String.eqb_refl; cbn; try reflexivity;
        apply bool_decide_eq_false in Hb;
        destruct (TaskReport.started_at (report_of d task_id)); congruence.
    + destruct (String.eqb status "received" && _); destruct message as [[|a m]|]; cbn;
        intros [= <- <-]; rewrite Hput; destruct (String.eqb_spec t task_id);
        congruence.
  - intros [= <- <-]; rewrite Hput; now destruct (String.eqb_spec t task_id) as [->|].
  - intros [= <- <-]; rewrite Hput; now destruct (String.eqb_spec t task_id) as [->|].
  - intros [= <- <-]; rewrite Hput; now destruct (String.eqb_spec t task_id) as [->|].
  - intros [= <- <-]; rewrite Hput; now destruct (String.eqb_spec t task_id) as [->|].
Qed.

(** What [update_status] does to the document it loaded. *)
Lemma update_status_body (task_id status : string) (message : option string)
    (details : option (list (string * json))) (d d' : ReportingFile.t) (w w' : World) :
  op_body (UpdateStatus task_id status message details) d w = (inr d', w') ->
  ReportingFile.status d'
  = (if String.eqb status "in_progress" then "working" else "idle")
  /\ match message with
     | Some (String a m) =>
         (exists ts,
            TaskReport.progress (report_of d' task_id)
            = TaskReport.progress (report_of d task_id)
              ++ [ProgressEntry.mk ts status (String a m) (default [] details)])
         /\ TaskReport.current_step (report_of d' task_id) = Some (String a m)
     | _ =>
         TaskReport.progress (report_of d' task_id)
         = TaskReport.progress (report_of d task_id)
         /\ TaskReport.current_step (report_of d' task_id)
            = TaskReport.current_step (report_of d task_id)
     end.
Proof.
  cbn [op_body]. unfold ReportingFile.update_task_status.
  op_body_cases d task_id.
  assert (Hsame : report_of
             (ReportingFile.set_status
                (if String.eqb status "in_progress" then "working" else "idle") d) task_id
           = report_of d task_id) by reflexivity.
  rewrite Hsame.
  unfold bind, utcnow, ProgressEntry.make, ret.
  destruct (String.eqb status "received" && _); destruct message as [[|a m]|]; cbn;
    intros [= <- <-]; rewrite Htop, Hput, String.eqb_refl; cbn;
    (split; [reflexivity|]); split; try reflexivity; eexists; reflexivity.
Qed.

Context {L : CodecLaws C}.

(** An operation on a reporting file that loads: it does not raise, and the
    file then holds the document that [op_body] made of the one loaded,
    stamped by the save. *)
Lemma run_op_run (self : TaskInterface.t) (op : report_op)
    (w w0 : World) (d0 : ReportingFile.t) :
  ReportingFile.load (TaskInterface.reporting_path self) w = (inr d0, w0) ->
  exists d' k w1,
    op_body op d0 w0 = (inr d', advance k w0)
    /\ run_op self op w = (inr tt, w1)
    /\ ReportingFile.load (TaskInterface.reporting_path self) w1
       = (inr (ReportingFile.set_updated_at (clock w0 (k + ticks w0)%nat) d'), w1).
Proof.
  intros Hload. destruct (op_body_runs op d0 w0) as (d' & k & Hbody).
  exists d', k. eexists. split; [exact Hbody|].
  rewrite run_op_body. unfold bind at 1. rewrite Hload.
  unfold bind at 1. rewrite Hbody.
  unfold bind at 1.
  rewrite (ReportingFile_save_run d' _ _ _
             (with_suffix_reporting (TaskInterface.cloud_code_dir self))).
  cbn [advance ticks clock]. unfold bind, ret. split; [reflexivity|].
  apply ReportingFile_load_dump, after_save_target.
Qed.

Lemma load_after_run_op (self : TaskInterface.t) (op : report_op)
    (w w0 : World) (d0 : ReportingFile.t) :
  ReportingFile.load (TaskInterface.reporting_path self) w = (inr d0, w0) ->
  exists d1,
    ReportingFile.load (TaskInterface.reporting_path self) (run_op self op w).2
    = (inr d1, (run_op self op w).2).
Proof.
  intros Hload.
  destruct (run_op_run self op _ _ _ Hload) as (d' & k & w1 & _ & Hrun & Hload1).
  rewrite Hrun. eexists. exact Hload1.
Qed.

End Reporting.

(** ** C4: [update_status] *)

(** C4 (the claim fails as stated).  [update_status("t1", "received")]
    without a message, on a fresh workspace: the task's progress log stays
    empty and [current_step] stays [None]. *)
Lemma update_status_without_message_appends_nothing :
  ((TaskInterface.update_status ws_example "t1" "received" None None ;;
    TaskInterface.get_task_status ws_example "t1")
     (empty_world (C := data_codec))).1
  = inr (Some (TaskReport.mk "received" (Some 1) None None [] [] [] [] [] None None [])).
Proof. vm_compute. reflexivity. Qed.

Section UpdateStatus.
Context {C : Codec} {L : CodecLaws C}.

(** C4, amended.  [update_status(id, status, msg, details)] on a reporting
    file that loads: the top-level status becomes working if the new status
    is in_progress and idle otherwise, and the task's status becomes
    [status].  With a message that is not empty, exactly one progress entry
    with that status and message, and with the details ([{}] for none), is
    appended, and [current_step] becomes the message; with no message or an
    empty one, nothing is appended and [current_step] keeps its value. *)
Theorem update_status_effect
    (self : TaskInterface.t) (task_id status : string) (message : option string)
    (details : option (list (string * json))) (w w0 : World) (d0 : ReportingFile.t) :
  ReportingFile.load (TaskInterface.reporting_path self) w = (inr d0, w0) ->
  exists w1 d1,
    TaskInterface.update_status self task_id status message details w = (inr tt, w1)
    /\ ReportingFile.load (TaskInterface.reporting_path self) w1 = (inr d1, w1)
    /\ ReportingFile.status d1
       = (if String.eqb status "in_progress" then "working" else "idle")
    /\ status_of d1 task_id = status
    /\ match message with
       | Some (String a m) =>
           (exists ts,
              TaskReport.progress (report_of d1 task_id)
              = TaskReport.progress (report_of d0 task_id)
                ++ [ProgressEntry.mk ts status (String a m) (default [] details)])
           /\ TaskReport.current_step (report_of d1 task_id) = Some (String a m)
       | _ =>
           TaskReport.progress (report_of d1 task_id)
           = TaskReport.progress (report_of d0 task_id)
           /\ TaskReport.current_step (report_of d1 task_id)
              = TaskReport.current_step (report_of d0 task_id)
       end.
Proof.
  intros Hload.
  destruct (run_op_run self (UpdateStatus task_id status message details) _ _ _ Hload)
    as (d' & k & w1 & Hbody & Hrun & Hload1).
  exists w1. eexists. split; [exact Hrun|]. split; [exact Hload1|].
  destruct (update_status_body _ _ _ _ _ _ _ _ Hbody) as [Htop Hmsg].
  split; [exact Htop|]. split.
  - change (status_of d' task_id = status).
    rewrite (op_body_status _ _ _ _ _ task_id Hbody). cbn. now rewrite String.eqb_refl.
  - exact Hmsg.
Qed.

End UpdateStatus.

Lemma update_status_effect_witness :
  ReportingFile.load (TaskInterface.reporting_path ws_example) empty_world
  = (inr report0, world1)
  /\ exists (w1 : World (C := data_codec)) d1,
    TaskInterface.update_status ws_example "t1" "received" (Some "Task acknowledged")
      None empty_world = (inr tt, w1)
    /\ ReportingFile.load (TaskInterface.reporting_path ws_example) w1 = (inr d1, w1)
    /\ ReportingFile.status d1 = "idle"
    /\ status_of d1 "t1" = "received"
    /\ (exists ts,
          TaskReport.progress (report_of d1 "t1")
          = TaskReport.progress (report_of report0 "t1")
            ++ [ProgressEntry.mk ts "received" "Task acknowledged" []])
       /\ TaskReport.current_step (report_of d1 "t1") = Some "Task acknowledged".
Proof.
  split; [reflexivity|].
  apply (update_status_effect (L := data_codec_laws) ws_example "t1" "received"
           (Some "Task acknowledged") None empty_world world1 report0).
  reflexivity.
Defined.

(** ** C3: the statuses of a report *)

(** C3 (the claim fails as stated).  A task is completed, and then updated
    to ["received"]: its report has the status completed after the first
    operation and received after the second. *)
Lemma update_status_leaves_terminal_status :
  ((TaskInterface.set_task_completed ws_example "t1" "done" [] [] [] ;;
    r <- TaskInterface.get_task_status ws_example "t1" ;;
    ret (TaskReport.status <$> r))
     (empty_world (C := data_codec))).1
  = inr (Some "completed")
  /\ ((TaskInterface.set_task_completed ws_example "t1" "done" [] [] [] ;;
       TaskInterface.update_status ws_example "t1" "received"
         (Some "Task acknowledged") None ;;
       r <- TaskInterface.get_task_status ws_example "t1" ;;
       ret (TaskReport.status <$> r))
        (empty_world (C := data_codec))).1
     = inr (Some "received").
Proof. split; vm_compute; reflexivity. Qed.

Section Statuses.
Context {C : Codec} {L : CodecLaws C}.

Lemma guarded_keeps_done_status (self : TaskInterface.t) (ops : list report_op)
    (t : string) (w w0 : World) (d0 : ReportingFile.t) :
  ReportingFile.load (TaskInterface.reporting_path self) w = (inr d0, w0) ->
  guarded self ops w ->
  AgentLoop.is_done (status_of d0 t) = true ->
  exists w1 w1' d1,
    run_ops self ops w = (inr tt, w1)
    /\ ReportingFile.load (TaskInterface.reporting_path self) w1 = (inr d1, w1')
    /\ status_of d1 t = status_of d0 t.
Proof.
  revert w w0 d0. induction ops as [|op ops IH]; intros w w0 d0 Hload Hg Hdone.
  - exists w, w0, d0. auto.
  - destruct Hg as [Hop Hg]. rewrite Hload in Hop. cbn [fst] in Hop.
    destruct (run_op_run self op _ _ _ Hload) as (d' & k & w1 & Hbody & Hrun & Hload1).
    rewrite Hrun in Hg. cbn [snd] in Hg.
    assert (Hst : status_of
                    (ReportingFile.set_updated_at (clock w0 (k + ticks w0)%nat) d') t
                  = status_of d0 t).
    { change (status_of d' t = status_of d0 t).
      rewrite (op_body_status _ _ _ _ _ t Hbody).
      destruct (String.eqb_spec t (op_task op)) as [->|]; [|reflexivity].
      destruct Hop as [->|Hnd]; [reflexivity | congruence]. }
    rewrite <- Hst in Hdone.
    destruct (IH _ _ _ Hload1 Hg Hdone) as (w2 & w2' & d2 & Hrun2 & Hload2 & Hst2).
    exists w2, w2', d2. split; [|split; [exact Hload2 | congruence]].
    cbn [run_ops]. unfold bind. rewrite Hrun. exact Hrun2.
Qed.

(** The task that the selector returns is not done in the document it was
    selected from. *)
Lemma selected_task_not_done (tasks : list TaskDefinition.t)
    (reporting : ReportingFile.t) (task : TaskDefinition.t) :
  AgentLoop._select_next_task tasks reporting = inr (Some task) ->
  AgentLoop.is_done (status_of reporting (TaskDefinition.id task)) = false.
Proof.
  intros Hsel. destruct (select_next_task_sound _ _ _ Hsel) as (_ & Hnd & _).
  unfold status_of, report_of.
  destruct (ReportingFile.tasks reporting !! TaskDefinition.id task) as [r|] eqn:Hr;
    [|reflexivity].
  change (default TaskReport.default (Some r)) with r.
  destruct (AgentLoop.is_done (TaskReport.status r)) eqn:Hd; [|reflexivity].
  exfalso. apply Hnd. exists r. split; [exact Hr|]. now apply is_done_spec.
Qed.

Lemma final_op_task (self : AgentLoop.t) (task : TaskDefinition.t)
    (cli : exn + CLIResult.t) (files_changed : list FileChange.t)
    (commits : list CommitRecord.t) :
  op_task (final_op self task cli files_changed commits) = TaskDefinition.id task
  /\ exists s, op_status (final_op self task cli files_changed commits) = Some s
               /\ AgentLoop.is_done s = true.
Proof.
  unfold final_op. destruct cli as [e|result]; [cbn; eauto|].
  destruct (CLIResult.success result); [cbn; eauto|].
  destruct (CLIResult.needs_handoff result); cbn; eauto.
Qed.

(** On a reporting file that loads, [_execute_task] is the sequence of its
    four reporting operations: none of them raises, so the handler of the
    [try] runs only for an exception of the CLI runner. *)
Lemma execute_task_run_ops (self : AgentLoop.t) (task : TaskDefinition.t)
    (cli : exn + CLIResult.t) (files_changed : list FileChange.t)
    (commits : list CommitRecord.t) (w w0 : World) (d0 : ReportingFile.t) :
  ReportingFile.load (TaskInterface.reporting_path (AgentLoop.task_interface self)) w
  = (inr d0, w0) ->
  AgentLoop._execute_task self task cli files_changed commits w
  = run_ops (AgentLoop.task_interface self)
      (execute_ops self task cli files_changed commits) w.
Proof.
  intros Hload. set (ti := AgentLoop.task_interface self) in *.
  set (task_id := TaskDefinition.id task).
  destruct (run_op_run ti
              (UpdateStatus task_id "received" (Some "Task acknowledged") None)
              _ _ _ Hload) as (d1 & k1 & w1 & _ & Hrun1 & Hload1).
  destruct (run_op_run ti
              (UpdateStatus task_id "planning" (Some "Analyzing task requirements") None)
              _ _ _ Hload1) as (d2 & k2 & w2 & _ & Hrun2 & Hload2).
  destruct (run_op_run ti
              (UpdateStatus task_id "in_progress" (Some "Starting implementation") None)
              _ _ _ Hload2) as (d3 & k3 & w3 & _ & Hrun3 & Hload3).
  destruct (run_op_run ti (final_op self task cli files_changed commits)
              _ _ _ Hload3) as (d4 & k4 & w4 & _ & Hrun4 & _).
  cbn [run_op] in Hrun1, Hrun2, Hrun3.
  unfold execute_ops. cbn [run_ops run_op]. fold ti task_id.
  unfold AgentLoop._execute_task, try_except. fold ti task_id.
  unfold bind at 5. unfold bind at 1. rewrite Hrun1.
  unfold bind at 4. unfold bind at 1. rewrite Hrun2.
  unfold bind at 3. unfold bind at 1. rewrite Hrun3.
  unfold bind at 2. unfold bind at 1.
  rewrite Hrun4. unfold ret.
  revert Hrun4. unfold final_op. fold task_id.
  destruct cli as [e|result]; cbn [run_op raise ret].
  - intros Hrun4. rewrite Hrun4. reflexivity.
  - unfold AgentLoop._handle_success, AgentLoop._handle_handoff,
      AgentLoop._handle_failure. fold ti task_id.
    destruct (CLIResult.success result); [|destruct (CLIResult.needs_handoff result)];
      cbn [run_op]; intros Hrun4; rewrite Hrun4; reflexivity.
Qed.

(** The operations of one execution of a task that is not done are guarded:
    the statuses written are received, planning, in_progress, and then the
    one that is completed, failed or blocked. *)
Lemma execute_ops_guarded (self : AgentLoop.t) (task : TaskDefinition.t)
    (cli : exn + CLIResult.t) (files_changed : list FileChange.t)
    (commits : list CommitRecord.t) (w w0 : World) (d0 : ReportingFile.t) :
  ReportingFile.load (TaskInterface.reporting_path (AgentLoop.task_interface self)) w
  = (inr d0, w0) ->
  AgentLoop.is_done (status_of d0 (TaskDefinition.id task)) = false ->
  guarded (AgentLoop.task_interface self)
    (execute_ops self task cli files_changed commits) w.
Proof.
  intros Hload Hnd. set (ti := AgentLoop.task_interface self) in *.
  set (task_id := TaskDefinition.id task) in *.
  destruct (final_op_task self task cli files_changed commits) as [Hfinal _].
  fold task_id in Hfinal.
  assert (Hstep : forall (w w0 : World) d0 status message,
            ReportingFile.load (TaskInterface.reporting_path ti) w = (inr d0, w0) ->
            exists w1 d1,
              (run_op ti (UpdateStatus task_id status message None) w).2 = w1
              /\ ReportingFile.load (TaskInterface.reporting_path ti) w1 = (inr d1, w1)
              /\ status_of d1 task_id = status).
  { intros w' w0' d0' status message Hl.
    destruct (run_op_run ti (UpdateStatus task_id status message None) _ _ _ Hl)
      as (d' & k & w1 & Hbody & Hrun & Hload1).
    exists w1. eexists. rewrite Hrun. split; [reflexivity|]. split; [exact Hload1|].
    change (status_of d' task_id = status).
    rewrite (op_body_status _ _ _ _ _ task_id Hbody). cbn. now rewrite String.eqb_refl. }
  destruct (Hstep _ _ _ "received" (Some "Task acknowledged") Hload)
    as (w1 & d1 & Hw1 & Hl1 & Hs1).
  destruct (Hstep _ _ _ "planning" (Some "Analyzing task requirements") Hl1)
    as (w2 & d2 & Hw2 & Hl2 & Hs2).
  destruct (Hstep _ _ _ "in_progress" (Some "Starting implementation") Hl2)
    as (w3 & d3 & Hw3 & Hl3 & Hs3).
  unfold execute_ops. fold task_id. cbn [guarded].
  rewrite Hload, Hw1, Hl1, Hw2, Hl2, Hw3, Hl3. cbn [fst op_task].
  rewrite Hfinal, Hs1, Hs2, Hs3.
  repeat split; try (right; assumption); right; reflexivity.
Qed.

(** C3, amended.  Every agent-side reporting operation, on a reporting file
    that loads, sets the status of the task it is called for to the status
    it carries, whatever the status was: [update_status] the status given,
    [set_task_completed], [set_task_failed] and [set_task_blocked] the
    statuses completed, failed and blocked ([request_credential] carries
    none and keeps the status); the report of every other task is left as
    it was.  So the operations do not keep a status that is completed,
    failed or blocked by themselves; such a status stays through every
    sequence of operations none of which writes a status for a task that is
    then completed, failed or blocked, which are the tasks the selector
    skips. *)
Theorem reporting_op_overwrites_status
    (self : TaskInterface.t) (op : report_op) (w w0 : World) (d0 : ReportingFile.t)
    (t : string) :
  ReportingFile.load (TaskInterface.reporting_path self) w = (inr d0, w0) ->
  (exists w1 d1,
     run_op self op w = (inr tt, w1)
     /\ ReportingFile.load (TaskInterface.reporting_path self) w1 = (inr d1, w1)
     /\ status_of d1 t
        = (if String.eqb t (op_task op) then default (status_of d0 t) (op_status op)
           else status_of d0 t)
     /\ (t <> op_task op -> ReportingFile.tasks d1 !! t = ReportingFile.tasks d0 !! t))
  /\ (forall ops,
        guarded self ops w ->
        AgentLoop.is_done (status_of d0 t) = true ->
        exists w1 w1' d1,
          run_ops self ops w = (inr tt, w1)
          /\ ReportingFile.load (TaskInterface.reporting_path self) w1 = (inr d1, w1')
          /\ status_of d1 t = status_of d0 t).
Proof.
  intros Hload. split.
  - destruct (run_op_run self op _ _ _ Hload) as (d' & k & w1 & Hbody & Hrun & Hload1).
    exists w1. eexists. split; [exact Hrun|]. split; [exact Hload1|]. split.
    + change (status_of d' t = if String.eqb t (op_task op)
                               then default (status_of d0 t) (op_status op)
                               else status_of d0 t).
      exact (op_body_status _ _ _ _ _ t Hbody).
    + intros Hne. cbn. exact (op_body_other _ _ _ _ _ t Hbody Hne).
  - intros ops Hg Hdone. exact (guarded_keeps_done_status self ops t _ _ _ Hload Hg Hdone).
Qed.

End Statuses.

Lemma reporting_op_overwrites_status_witness :
  ReportingFile.load (TaskInterface.reporting_path ws_example) world_failed
  = (inr report_failed, world_failed)
  /\ (exists (w1 : World (C := data_codec)) d1,
     run_op ws_example (UpdateStatus "t1" "received" (Some "Task acknowledged") None)
       world_failed = (inr tt, w1)
     /\ ReportingFile.load (TaskInterface.reporting_path ws_example) w1 = (inr d1, w1)
     /\ status_of d1 "t1"
        = (if String.eqb "t1" "t1" then default (status_of report_failed "t1") (Some "received")
           else status_of report_failed "t1")
     /\ ("t1" <> "t1" ->
         ReportingFile.tasks d1 !! "t1" = ReportingFile.tasks report_failed !! "t1"))
  /\ (forall ops,
        guarded ws_example ops world_failed ->
        AgentLoop.is_done (status_of report_failed "t1") = true ->
        exists (w1 w1' : World (C := data_codec)) d1,
          run_ops ws_example ops world_failed = (inr tt, w1)
          /\ ReportingFile.load (TaskInterface.reporting_path ws_example) w1 = (inr d1, w1')
          /\ status_of d1 "t1" = status_of report_failed "t1").
Proof.
  assert (Hload : ReportingFile.load (TaskInterface.reporting_path ws_example) world_failed
                  = (inr report_failed, world_failed)).
  { destruct (load_after_run_op (L := data_codec_laws) ws_example
                (SetTaskFailed "t1" "boom") empty_world world1 report0 eq_refl)
      as (d1 & Hd1).
    change (run_op ws_example (SetTaskFailed "t1" "boom") empty_world).2
      with world_failed in Hd1.
    assert (Hdoc : (ReportingFile.load (TaskInterface.reporting_path ws_example)
                      world_failed).1 = inr report_failed)
      by (vm_compute; reflexivity).
    rewrite Hd1 in Hdoc. cbn [fst] in Hdoc. injection Hdoc as ->. exact Hd1. }
  split; [exact Hload|].
  exact (reporting_op_overwrites_status (L := data_codec_laws) ws_example
           (UpdateStatus "t1" "received" (Some "Task acknowledged") None)
           world_failed world_failed report_failed "t1" Hload).
Defined.

(** ** C9: [started_at] *)

Section StartedAt.
Context {C : Codec} {L : CodecLaws C}.

Lemma run_ops_keep_started_at (self : TaskInterface.t) (ops : list report_op)
    (t : string) (ts : datetime) (w w0 : World) (d0 : ReportingFile.t) :
  ReportingFile.load (TaskInterface.reporting_path self) w = (inr d0, w0) ->
  started_at_of d0 t = Some ts ->
  exists w1 w1' d1,
    run_ops self ops w = (inr tt, w1)
    /\ ReportingFile.load (TaskInterface.reporting_path self) w1 = (inr d1, w1')
    /\ started_at_of d1 t = Some ts.
Proof.
  revert w w0 d0. induction ops as [|op ops IH]; intros w w0 d0 Hload Hts.
  - exists w, w0, d0. auto.
  - destruct (run_op_run self op _ _ _ Hload) as (d' & k & w1 & Hbody & Hrun & Hload1).
    assert (Hts' : started_at_of
                     (ReportingFile.set_updated_at (clock w0 (k + ticks w0)%nat) d') t
                   = Some ts).
    { change (started_at_of d' t = Some ts).
      rewrite (op_body_started_at _ _ _ _ _ t Hbody).
      destruct (sets_started_at op d0 t) eqn:Hs; [|exact Hts].
      destruct op; try discriminate Hs. cbn in Hs.
      apply andb_true_iff in Hs as [_ Hs]. apply bool_decide_eq_true in Hs. congruence. }
    destruct (IH _ _ _ Hload1 Hts') as (w2 & w2' & d2 & Hrun2 & Hload2 & Hts2).
    exists w2, w2', d2. split; [|auto].
    cbn [run_ops]. unfold bind. rewrite Hrun. exact Hrun2.
Qed.

(** C9.  On a reporting file that loads, an agent-side reporting operation
    assigns a task's [started_at] in one case only: [update_status] of that
    task to ["received"] while its [started_at] is [None], and then to the
    clock's reading at the update; in every other case [started_at] keeps
    its value.  Hence, once [started_at] is set, no sequence of these
    operations, on this or any other task, changes it. *)
Theorem started_at_write_once
    (self : TaskInterface.t) (t : string) (w w0 : World) (d0 : ReportingFile.t) :
  ReportingFile.load (TaskInterface.reporting_path self) w = (inr d0, w0) ->
  (forall op, exists w1 d1,
     run_op self op w = (inr tt, w1)
     /\ ReportingFile.load (TaskInterface.reporting_path self) w1 = (inr d1, w1)
     /\ started_at_of d1 t
        = if sets_started_at op d0 t then Some (clock w0 (ticks w0))
          else started_at_of d0 t)
  /\ (forall ops ts,
       started_at_of d0 t = Some ts ->
       exists w1 w1' d1,
         run_ops self ops w = (inr tt, w1)
         /\ ReportingFile.load (TaskInterface.reporting_path self) w1 = (inr d1, w1')
         /\ started_at_of d1 t = Some ts).
Proof.
  intros Hload. split.
  - intros op.
    destruct (run_op_run self op _ _ _ Hload) as (d' & k & w1 & Hbody & Hrun & Hload1).
    exists w1. eexists. split; [exact Hrun|]. split; [exact Hload1|].
    change (started_at_of d' t
            = if sets_started_at op d0 t then Some (clock w0 (ticks w0))
              else started_at_of d0 t).
    exact (op_body_started_at _ _ _ _ _ t Hbody).
  - intros ops ts Hts. exact (run_ops_keep_started_at self ops t ts _ _ _ Hload Hts).
Qed.

End StartedAt.

Lemma started_at_write_once_witness :
  ReportingFile.load (TaskInterface.reporting_path ws_example) world_started
  = (inr report_started, world_started)
  /\ (forall op, exists (w1 : World (C := data_codec)) d1,
     run_op ws_example op world_started = (inr tt, w1)
     /\ ReportingFile.load (TaskInterface.reporting_path ws_example) w1 = (inr d1, w1)
     /\ started_at_of d1 "t1"
        = if sets_started_at op report_started "t1"
          then Some (clock world_started (ticks world_started))
          else started_at_of report_started "t1")
  /\ (forall ops ts,
       started_at_of report_started "t1" = Some ts ->
       exists (w1 w1' : World (C := data_codec)) d1,
         run_ops ws_example ops world_started = (inr tt, w1)
         /\ ReportingFile.load (TaskInterface.reporting_path ws_example) w1 = (inr d1, w1')
         /\ started_at_of d1 "t1" = Some ts).
Proof.
  assert (Hload : ReportingFile.load (TaskInterface.reporting_path ws_example) world_started
                  = (inr report_started, world_started)).
  { destruct (load_after_run_op (L := data_codec_laws) ws_example
                (UpdateStatus "t1" "received" (Some "Task acknowledged") None)
                empty_world world1 report0 eq_refl) as (d1 & Hd1).
    change (run_op ws_example
              (UpdateStatus "t1" "received" (Some "Task acknowledged") None)
              empty_world).2 with world_started in Hd1.
    assert (Hdoc : (ReportingFile.load (TaskInterface.reporting_path ws_example)
                      world_started).1 = inr report_started)
      by (vm_compute; reflexivity).
    rewrite Hd1 in Hdoc. cbn [fst] in Hdoc. injection Hdoc as ->. exact Hd1. }
  split; [exact Hload|].
  exact (started_at_write_once (L := data_codec_laws) ws_example "t1"
           world_started world_started report_started Hload).
Defined.

(** ** C7: cancelling twice *)

Section Cancel.

Lemma cancel_first_idempotent (task_id : string) (l : list TaskDefinition.t) :
  TaskingFile.cancel_first task_id (TaskingFile.cancel_first task_id l)
  = TaskingFile.cancel_first task_id l.
Proof.
  induction l as [|task l IH]; [reflexivity|]. cbn [TaskingFile.cancel_first].
  destruct (String.eqb (TaskDefinition.id task) task_id) eqn:He;
    cbn [TaskingFile.cancel_first TaskDefinition.id TaskDefinition.set_status];
    rewrite He; [reflexivity | now rewrite IH].
Qed.

Lemma cancel_task_idempotent (d : TaskingFile.t) (task_id : string) :
  TaskingFile.cancel_task (TaskingFile.cancel_task d task_id) task_id
  = TaskingFile.cancel_task d task_id.
Proof.
  unfold TaskingFile.cancel_task, TaskingFile.set_tasks. cbn.
  now rewrite cancel_first_idempotent.
Qed.

(** C7 (the claim fails as stated).  Task a is written, and cancelled
    twice: after the first cancel the tasking file holds a document with
    [updated_at = 2], after the second one with [updated_at = 3]. *)
Lemma cancel_task_twice_changes_updated_at :
  ((TaskInterface.write_task ws_example task_a ;;
    TaskInterface.cancel_task ws_example "a" ;;
    TaskInterface.read_tasks ws_example)
     (empty_world (C := data_codec))).1
  = inr (TaskingFile.mk 1 2 (Some "ws") [task_a_cancelled])
  /\ ((TaskInterface.write_task ws_example task_a ;;
       TaskInterface.cancel_task ws_example "a" ;;
       TaskInterface.cancel_task ws_example "a" ;;
       TaskInterface.read_tasks ws_example)
        (empty_world (C := data_codec))).1
     = inr (TaskingFile.mk 1 3 (Some "ws") [task_a_cancelled])
  /\ TaskingFile.mk 1 2 (Some "ws") [task_a_cancelled]
     <> TaskingFile.mk 1 3 (Some "ws") [task_a_cancelled].
Proof. repeat split; [vm_compute; reflexivity..|discriminate]. Qed.

Context {C : Codec} {L : CodecLaws C}.

Lemma cancel_task_run (self : TaskInterface.t) (task_id : string)
    (w w0 : World) (d0 : TaskingFile.t) :
  TaskingFile.load (TaskInterface.tasking_path self) w = (inr d0, w0) ->
  exists w1,
    TaskInterface.cancel_task self task_id w = (inr tt, w1)
    /\ TaskingFile.load (TaskInterface.tasking_path self) w1
       = (inr (TaskingFile.set_updated_at (clock w0 (ticks w0))
                 (TaskingFile.cancel_task d0 task_id)), w1)
    /\ clock w1 = clock w0 /\ ticks w1 = S (ticks w0).
Proof.
  intros Hload. eexists. unfold TaskInterface.cancel_task.
  unfold bind at 1. rewrite Hload. unfold bind at 1.
  rewrite (TaskingFile_save_run _ _ _ _
             (with_suffix_tasking (TaskInterface.cloud_code_dir self))).
  unfold ret. split; [reflexivity|]. split; [|split; reflexivity].
  apply TaskingFile_load_dump, after_save_target.
Qed.

Lemma load_after_write_task (self : TaskInterface.t) (task : TaskDefinition.t)
    (w w0 : World) (d0 : TaskingFile.t) :
  TaskingFile.load (TaskInterface.tasking_path self) w = (inr d0, w0) ->
  exists d1,
    TaskingFile.load (TaskInterface.tasking_path self)
      (TaskInterface.write_task self task w).2
    = (inr d1, (TaskInterface.write_task self task w).2).
Proof.
  intros Hload. unfold TaskInterface.write_task.
  unfold bind at 1 3. rewrite Hload. unfold bind at 1 2.
  rewrite (TaskingFile_save_run _ _ _ _
             (with_suffix_tasking (TaskInterface.cloud_code_dir self))).
  unfold ret. cbn [snd]. eexists.
  apply TaskingFile_load_dump, after_save_target.
Qed.

(** C7, amended.  On a tasking file that loads, [cancel_task(id)] called a
    second time succeeds and leaves in the file the document that the first
    call left, but for [updated_at], which the second save sets to the
    clock's reading: the tasks, the cancelled status among them, the version
    and the workspace are the same. *)
Theorem cancel_task_twice
    (self : TaskInterface.t) (task_id : string) (w w0 : World) (d0 : TaskingFile.t) :
  TaskingFile.load (TaskInterface.tasking_path self) w = (inr d0, w0) ->
  exists w1 w2 d1,
    TaskInterface.cancel_task self task_id w = (inr tt, w1)
    /\ TaskingFile.load (TaskInterface.tasking_path self) w1 = (inr d1, w1)
    /\ TaskingFile.tasks d1 = TaskingFile.cancel_first task_id (TaskingFile.tasks d0)
    /\ TaskInterface.cancel_task self task_id w1 = (inr tt, w2)
    /\ TaskingFile.load (TaskInterface.tasking_path self) w2
       = (inr (TaskingFile.set_updated_at (clock w1 (ticks w1)) d1), w2).
Proof.
  intros Hload.
  destruct (cancel_task_run self task_id _ _ _ Hload) as (w1 & Hrun1 & Hload1 & _).
  destruct (cancel_task_run self task_id _ _ _ Hload1) as (w2 & Hrun2 & Hload2 & _).
  exists w1, w2. eexists. split; [exact Hrun1|]. split; [exact Hload1|].
  split; [reflexivity|]. split; [exact Hrun2|].
  rewrite Hload2. f_equal. f_equal.
  unfold TaskingFile.set_updated_at, TaskingFile.cancel_task, TaskingFile.set_tasks. cbn.
  now rewrite cancel_first_idempotent.
Qed.

End Cancel.

Lemma cancel_task_twice_witness :
  TaskingFile.load (TaskInterface.tasking_path ws_example) world_tasked
  = (inr tasking_a, world_tasked)
  /\ exists (w1 w2 : World (C := data_codec)) d1,
    TaskInterface.cancel_task ws_example "a" world_tasked = (inr tt, w1)
    /\ TaskingFile.load (TaskInterface.tasking_path ws_example) w1 = (inr d1, w1)
    /\ TaskingFile.tasks d1 = TaskingFile.cancel_first "a" (TaskingFile.tasks tasking_a)
    /\ TaskInterface.cancel_task ws_example "a" w1 = (inr tt, w2)
    /\ TaskingFile.load (TaskInterface.tasking_path ws_example) w2
       = (inr (TaskingFile.set_updated_at (clock w1 (ticks w1)) d1), w2).
Proof.
  assert (Hload : TaskingFile.load (TaskInterface.tasking_path ws_example) world_tasked
                  = (inr tasking_a, world_tasked)).
  { destruct (load_after_write_task (L := data_codec_laws) ws_example task_a
                empty_world world1 (TaskingFile.mk 1 0 None []) eq_refl) as (d1 & Hd1).
    change (TaskInterface.write_task ws_example task_a empty_world).2
      with world_tasked in Hd1.
    assert (Hdoc : (TaskingFile.load (TaskInterface.tasking_path ws_example)
                      world_tasked).1 = inr tasking_a)
      by (vm_compute; reflexivity).
    rewrite Hd1 in Hdoc. cbn [fst] in Hdoc. injection Hdoc as ->. exact Hd1. }
  split; [exact Hload|].
  exact (cancel_task_twice (L := data_codec_laws) ws_example "a"
           world_tasked world_tasked tasking_a Hload).
Defined.

(** ** C8: the comment commands *)

Section Parser.
Import Py Re comment_parser.

Lemma rmatch_lit_prefix {R : Type} (fl : flags) (l : str) (r : regex) (g : groups)
    (prev : option ascii) (s : str)
    (k : groups -> option ascii -> str -> option R) (x : R) :
  ignorecase fl = true ->
  rmatch fl (lit l r) g prev s k = Some x ->
  startswith (lower s) (lower l) = true.
Proof.
  intros Hic. revert prev s. induction l as [|c l IH]; intros prev s; [reflexivity|].
  cbn [lit rmatch]. destruct s as [|c' s]; [discriminate|].
  cbn [atom_matches lower List.map startswith]. rewrite Hic.
  destruct (Ascii.eqb (lower_char c) (lower_char c')); [|discriminate].
  intros H. cbn [andb]. exact (IH _ _ H).
Qed.

(** A match of [COMMAND_PATTERN] starts at the start of a line, with the
    prefix [/cloud-code] in any case. *)
Lemma command_pattern_prefix {R : Type} (g : groups) (prev : option ascii) (s : str)
    (k : groups -> option ascii -> str -> option R) (x : R) :
  rmatch COMMAND_FLAGS COMMAND_PATTERN g prev s k = Some x ->
  at_bol COMMAND_FLAGS prev = true
  /\ startswith (lower s) (of_string "/cloud-code") = true.
Proof.
  unfold COMMAND_PATTERN. cbn [rmatch].
  destruct (at_bol COMMAND_FLAGS prev); [|discriminate].
  intros H. split; [reflexivity|].
  exact (rmatch_lit_prefix COMMAND_FLAGS _ _ _ _ _ _ _ eq_refl H).
Qed.

Lemma search_from_no_command (prev : option ascii) (s : str) :
  no_command prev s -> search_from COMMAND_FLAGS COMMAND_PATTERN prev s = None.
Proof.
  revert prev. induction s as [|c s IH]; intros prev [Hhere Hrest]; cbn [search_from].
  - destruct (rmatch _ _ _ _ _ _) as [x|] eqn:Hm; [|reflexivity].
    destruct (command_pattern_prefix _ _ _ _ _ Hm) as [Hb Hp].
    rewrite (Hhere Hb) in Hp. discriminate.
  - destruct (rmatch _ _ _ _ _ _) as [x|] eqn:Hm.
    + destruct (command_pattern_prefix _ _ _ _ _ Hm) as [Hb Hp].
      rewrite (Hhere Hb) in Hp. discriminate.
    + apply IH, Hrest.
Qed.

Lemma split_nl_nonempty (s : str) : split_nl s <> [].
Proof.
  destruct s as [|c s]; cbn [split_nl]; [discriminate|].
  destruct (Ascii.eqb c nl); [discriminate|]. now destruct (split_nl s).
Qed.

Lemma lower_char_nl (c : ascii) : c <> nl -> lower_char c <> nl.
Proof.
  intros Hc. unfold lower_char.
  destruct ((65 <=? code c) && (code c <=? 90))%N eqn:Hup; [|exact Hc].
  apply andb_true_iff in Hup as [H1 H2].
  apply N.leb_le in H1. apply N.leb_le in H2.
  intros H. apply (f_equal N_of_ascii) in H.
  rewrite N_ascii_embedding in H by lia. cbn in H. lia.
Qed.

(** Whether a text starts with a prefix that has no newline is decided on
    its first line. *)
Lemma startswith_first_line (p s : str) :
  Forall (fun a => a <> nl) p ->
  startswith (lower s) p = startswith (lower (hd [] (split_nl s))) p.
Proof.
  intros Hp. revert s. induction Hp as [|a p Ha Hp IH]; intros s; [reflexivity|].
  destruct s as [|c s]; [reflexivity|]. cbn [split_nl].
  destruct (Ascii.eqb_spec c nl) as [->|Hc].
  - cbn [hd lower List.map startswith].
    change (lower_char nl) with nl.
    destruct (Ascii.eqb_spec a nl) as [->|]; [contradiction|reflexivity].
  - pose proof (split_nl_nonempty s) as Hne.
    specialize (IH s). destruct (split_nl s) as [|l ls]; [contradiction|].
    unfold lower in *. cbn [hd List.map startswith] in *. now rewrite IH.
Qed.

Lemma no_command_lines (prev : option ascii) (s : str) :
  Forall (fun line => startswith (lower line) (of_string "/cloud-code") = false)
    (if at_bol COMMAND_FLAGS prev then split_nl s else tl (split_nl s)) ->
  no_command prev s.
Proof.
  assert (Hp : Forall (fun a => a <> nl) (of_string "/cloud-code")).
  { repeat constructor; discriminate. }
  revert prev. induction s as [|c s IH]; intros prev Hl.
  - split; [|exact I]. intros Hb. rewrite Hb in Hl. now inversion Hl.
  - split.
    + intros Hb. rewrite Hb in Hl. rewrite (startswith_first_line _ _ Hp).
      pose proof (split_nl_nonempty (c :: s)) as Hne.
      destruct (split_nl (c :: s)); [contradiction|]. now inversion Hl.
    + apply IH. cbn [at_bol COMMAND_FLAGS multiline andb].
      cbn [split_nl] in Hl. pose proof (split_nl_nonempty s) as Hne.
      destruct (Ascii.eqb c nl).
      * destruct (at_bol COMMAND_FLAGS prev); [now inversion Hl | exact Hl].
      * destruct (split_nl s) as [|l ls]; [contradiction|]. cbn [tl] in *.
        destruct (at_bol COMMAND_FLAGS prev); [now inversion Hl | exact Hl].
Qed.

(** *** The pattern, read without going back *)

Lemma span_eq (p : ascii -> bool) (s : str) :
  s = (span p s).1 ++ (span p s).2.
Proof.
  induction s as [|c s IH]; [reflexivity|]. cbn [span].
  destruct (p c); [|reflexivity]. destruct (span p s) as [a b]. cbn in *. now f_equal.
Qed.

Lemma span_run (p : ascii -> bool) (s : str) :
  Forall (fun c => p c = true) (span p s).1.
Proof.
  induction s as [|c s IH]; [constructor|]. cbn [span].
  destruct (p c) eqn:Hc; [|constructor]. destruct (span p s) as [a b].
  cbn in *. now constructor.
Qed.

Lemma span_rest (p : ascii -> bool) (s : str) :
  match (span p s).2 with
  | [] => True
  | c :: _ => p c = false
  end.
Proof.
  induction s as [|c s IH]; [exact I|]. cbn [span].
  destruct (p c) eqn:Hc; [|exact Hc]. now destruct (span p s) as [a b].
Qed.

Lemma span_take (p : ascii -> bool) (s : str) :
  take (length s - length (span p s).2)%nat s = (span p s).1.
Proof.
  pose proof (span_eq p s) as He. destruct (span p s) as [a b]. cbn [fst snd] in *.
  subst s. rewrite length_app.
  replace (length a + length b - length b)%nat with (length a) by lia.
  apply take_app_length.
Qed.

Lemma last_prev_cons (prev : option ascii) (c : ascii) (run : str) :
  last_prev prev (c :: run) = last_prev (Some c) run.
Proof.
  unfold last_prev. destruct run as [|c' run]; [reflexivity|].
  change (last (c :: c' :: run)) with (last (c' :: run)).
  revert c'. induction run as [|c'' run IH]; intros c'; [reflexivity|].
  change (last (c' :: c'' :: run)) with (last (c'' :: run)). apply IH.
Qed.

(** A greedy repetition takes its longest run when what follows succeeds
    there. *)
Lemma rep_first {R : Type} (fl : flags) (a : atom) (need : bool)
    (prev : option ascii) (s : str) (k : option ascii -> str -> option R) (x : R) :
  (need = true -> (span (atom_matches fl a) s).1 <> []) ->
  k (last_prev prev (span (atom_matches fl a) s).1) (span (atom_matches fl a) s).2
  = Some x ->
  rep fl a need prev s k = Some x.
Proof.
  revert need prev. induction s as [|c s IH]; intros need prev Hneed Hk.
  - cbn in *. destruct need; [now exfalso; apply Hneed | exact Hk].
  - cbn [rep span] in *. destruct (atom_matches fl a c).
    + destruct (span (atom_matches fl a) s) as [run rest] eqn:Hs. cbn [fst snd] in *.
      rewrite last_prev_cons in Hk.
      rewrite (IH false (Some c)); [reflexivity|discriminate|exact Hk].
    + cbn [fst snd] in *. destruct need; [now exfalso; apply Hneed | exact Hk].
Qed.

(** A greedy repetition keeps its longest run when what follows fails
    before every character of the repeated class. *)
Lemma rep_commit {R : Type} (fl : flags) (a : atom) (need : bool)
    (prev : option ascii) (s : str) (k : option ascii -> str -> option R) :
  (forall p c s', atom_matches fl a c = true -> k p (c :: s') = None) ->
  rep fl a need prev s k
  = match (span (atom_matches fl a) s).1 with
    | [] => if need then None else k prev s
    | run => k (last_prev prev run) (span (atom_matches fl a) s).2
    end.
Proof.
  intros Hk. revert need prev. induction s as [|c s IH]; intros need prev.
  - reflexivity.
  - cbn [rep span]. destruct (atom_matches fl a c) eqn:Hc; [|reflexivity].
    rewrite (IH false (Some c)).
    destruct (span (atom_matches fl a) s) as [run rest] eqn:Hs. cbn [fst snd].
    rewrite last_prev_cons.
    destruct run as [|c' run].
    + pose proof (span_eq (atom_matches fl a) s) as He. rewrite Hs in He. cbn in He.
      subst rest. unfold last_prev. cbn.
      destruct (k (Some c) s) as [x|] eqn:Hks; [reflexivity|].
      destruct need; [reflexivity|]. now apply Hk.
    + destruct (k (last_prev (Some c) (c' :: run)) rest) as [x|]; [reflexivity|].
      destruct need; [reflexivity|]. now apply Hk.
Qed.

Lemma rmatch_lit {R : Type} (fl : flags) (l : str) (r : regex) (g : groups)
    (prev : option ascii) (s : str) (k : groups -> option ascii -> str -> option R) :
  rmatch fl (lit l r) g prev s k
  = match strip_lit fl l prev s with
    | Some (prev', s') => rmatch fl r g prev' s' k
    | None => None
    end.
Proof.
  revert prev s. induction l as [|x l IH]; intros prev s; [reflexivity|].
  cbn [lit rmatch strip_lit]. destruct s as [|c s]; [reflexivity|].
  destruct (atom_matches fl (AChar x) c); [apply IH | reflexivity].
Qed.

Lemma isspace_not_word (c : ascii) : isspace c = true -> isword c = false.
Proof.
  destruct c as [b0 b1 b2 b3 b4 b5 b6 b7];
    destruct b0, b1, b2, b3, b4, b5, b6, b7; vm_compute; congruence.
Qed.

Lemma isword_not_space (c : ascii) : isword c = true -> isspace c = false.
Proof.
  intros Hw. destruct (isspace c) eqn:Hs; [|reflexivity].
  rewrite (isspace_not_word c Hs) in Hw. discriminate.
Qed.

Lemma nl_isspace (c : ascii) : Ascii.eqb c nl = true -> isspace c = true.
Proof. intros H. apply Ascii.eqb_eq in H as ->. reflexivity. Qed.

Lemma not_space_not_nl (c : ascii) : isspace c = false -> Ascii.eqb c nl = false.
Proof.
  intros Hs. destruct (Ascii.eqb c nl) eqn:He; [|reflexivity].
  rewrite (nl_isspace c He) in Hs. discriminate.
Qed.

(** The end of the pattern after the word, the same for both groupings. *)
Lemma after_word (with_ws : bool) (g : groups) (prev : option ascii) (s3 : str) :
  match s3 with [] => True | c :: _ => isword c = false end ->
  rmatch COMMAND_FLAGS
    (Seq (Opt (if with_ws then Group 2 (Seq (Plus ASpace) (Star ADot))
               else Seq (Plus ASpace) (Group 2 (Star ADot))))
       Eol)
    g prev s3 (fun g' _ _ => Some g')
  = match s3 with
    | [] => Some g
    | _ =>
        match (span isspace s3).1 with
        | [] => None
        | ws2 =>
            Some ((2%nat,
                   if with_ws
                   then ws2 ++ (span (fun c => negb (Ascii.eqb c nl)) (span isspace s3).2).1
                   else (span (fun c => negb (Ascii.eqb c nl)) (span isspace s3).2).1)
                    :: g)
        end
    end.
Proof.
  intros Hs3. destruct s3 as [|c s3]; [now destruct with_ws|].
  cbn [rmatch].
  set (dot := fun c0 : ascii => negb (Ascii.eqb c0 nl)).
  set (S3 := c :: s3) in *.
  set (ws2 := (span isspace S3).1). set (s4 := (span isspace S3).2).
  set (rest := (span dot s4).1). set (s5 := (span dot s4).2).
  assert (Heol : at_eol COMMAND_FLAGS s5 = true).
  { pose proof (span_rest dot s4) as Hr. fold s5 in Hr.
    destruct s5 as [|c5 s5']; [reflexivity|]. cbn [at_eol]. unfold dot in Hr.
    apply negb_false_iff in Hr. rewrite Hr. reflexivity. }
  destruct ws2 as [|w0 ws2'] eqn:Hws2.
  - (* no whitespace after the word: the group fails, and so does [$] *)
    assert (Hc : isspace c = false).
    { subst ws2 S3. cbn [span] in Hws2. destruct (isspace c); [|reflexivity].
      destruct (span isspace s3). discriminate. }
    assert (Hfail : forall (R' : Type) (k : option ascii -> str -> option R'),
              rep COMMAND_FLAGS ASpace true prev S3 k = None).
    { intros R' k. subst S3. cbn [rep atom_matches]. now rewrite Hc. }
    destruct with_ws; cbn [rmatch]; rewrite Hfail; subst S3; cbn [at_eol];
      now rewrite (not_space_not_nl c Hc).
  - assert (Hstar : forall f : str -> groups,
              rep (R := groups) COMMAND_FLAGS ADot false (last_prev prev ws2) s4
                (fun p' s' => if at_eol COMMAND_FLAGS s' then Some (f s') else None)
              = Some (f s5)).
    { intros f. apply rep_first; [discriminate|].
      change (atom_matches COMMAND_FLAGS ADot) with dot. fold s5. now rewrite Heol. }
    assert (Hne : (span (atom_matches COMMAND_FLAGS ASpace) S3).1 <> []).
    { change (atom_matches COMMAND_FLAGS ASpace) with isspace.
      fold ws2. rewrite Hws2. discriminate. }
    destruct with_ws; cbn [rmatch].
    + erewrite rep_first; [reflexivity | intros _; exact Hne | ].
      change (atom_matches COMMAND_FLAGS ASpace) with isspace. fold ws2 s4.
      rewrite (Hstar (fun s' => (2%nat, take (length S3 - length s') S3) :: g)).
      do 3 f_equal. rewrite <- Hws2.
      assert (HS3 : S3 = (ws2 ++ rest) ++ s5).
      { rewrite <- app_assoc. unfold rest, s5. rewrite <- (span_eq dot s4).
        unfold ws2, s4. apply span_eq. }
      rewrite HS3 at 1 2. rewrite length_app.
      replace (length (ws2 ++ rest) + length s5 - length s5)%nat
        with (length (ws2 ++ rest)) by lia.
      apply take_app_length.
    + erewrite rep_first; [reflexivity | intros _; exact Hne | ].
      change (atom_matches COMMAND_FLAGS ASpace) with isspace. fold ws2 s4.
      cbn [rmatch].
      rewrite (Hstar (fun s' => (2%nat, take (length s4 - length s') s4) :: g)).
      do 3 f_equal. unfold s5. apply (span_take dot s4).
Qed.


Lemma after_word_fails (with_ws : bool) (g : groups) (prev : option ascii)
    (c : ascii) (s : str) :
  isword c = true ->
  rmatch COMMAND_FLAGS
    (Seq (Opt (if with_ws then Group 2 (Seq (Plus ASpace) (Star ADot))
               else Seq (Plus ASpace) (Group 2 (Star ADot))))
       Eol)
    g prev (c :: s) (fun g' _ _ => Some g')
  = None.
Proof.
  intros Hw. pose proof (isword_not_space c Hw) as Hs.
  destruct with_ws; cbn [rmatch rep atom_matches at_eol]; rewrite Hs;
    now rewrite (not_space_not_nl c Hs).
Qed.

Lemma rmatch_Seq {R : Type} (fl : flags) (r1 r2 : regex) (g : groups)
    (prev : option ascii) (s : str) (k : groups -> option ascii -> str -> option R) :
  rmatch fl (Seq r1 r2) g prev s k
  = rmatch fl r1 g prev s (fun g' p' s' => rmatch fl r2 g' p' s' k).
Proof. reflexivity. Qed.

Lemma rmatch_Plus {R : Type} (fl : flags) (a : atom) (g : groups)
    (prev : option ascii) (s : str) (k : groups -> option ascii -> str -> option R) :
  rmatch fl (Plus a) g prev s k = rep fl a true prev s (k g).
Proof. reflexivity. Qed.

Lemma rmatch_Group {R : Type} (fl : flags) (n : nat) (r : regex) (g : groups)
    (prev : option ascii) (s : str) (k : groups -> option ascii -> str -> option R) :
  rmatch fl (Group n r) g prev s k
  = rmatch fl r g prev s
      (fun g' p' s' => k ((n, take (length s - length s')%nat s) :: g') p' s').
Proof. reflexivity. Qed.

(** The pattern after the prefix matches as [scan_tail] reads. *)
Lemma tail_match (with_ws : bool) (g : groups) (prev : option ascii) (s : str) :
  rmatch COMMAND_FLAGS (tail_pattern with_ws) g prev s (fun g' _ _ => Some g')
  = scan_tail with_ws g s.
Proof.
  unfold tail_pattern, scan_tail. rewrite rmatch_Seq, rmatch_Plus.
  rewrite rep_commit.
  2:{ intros p c s' Hc. cbn [atom_matches] in Hc.
      rewrite rmatch_Seq, rmatch_Group, rmatch_Plus. cbn [rep atom_matches].
      now rewrite (isspace_not_word c Hc). }
  change (atom_matches COMMAND_FLAGS ASpace) with isspace.
  destruct (span isspace s) as [ws s2]. cbn [fst snd].
  destruct ws as [|w0 ws]; [reflexivity|].
  rewrite rmatch_Seq, rmatch_Group, rmatch_Plus.
  rewrite rep_commit.
  2:{ intros p c s' Hc. cbn [atom_matches] in Hc. now apply after_word_fails. }
  change (atom_matches COMMAND_FLAGS AWord) with isword.
  pose proof (span_take isword s2) as Htake. pose proof (span_rest isword s2) as Hrest.
  destruct (span isword s2) as [word s3]. cbn [fst snd] in *.
  destruct word as [|c0 word]; [reflexivity|].
  rewrite Htake. rewrite (after_word with_ws _ _ s3 Hrest).
  destruct s3 as [|c3 s3]; [reflexivity|].
  destruct (span isspace (c3 :: s3)) as [ws2 s4]. cbn [fst snd].
  destruct ws2 as [|w2 ws2]; [reflexivity|].
  now destruct (span (fun c => negb (Ascii.eqb c nl)) s4) as [rest s5].
Qed.

Lemma lstrip_spaces (ws r : str) :
  Forall (fun c => isspace c = true) ws -> lstrip (ws ++ r) = lstrip r.
Proof.
  induction 1 as [|c ws Hc _ IH]; [reflexivity|]. cbn [app lstrip]. now rewrite Hc.
Qed.

(** The two groupings give the same action and the same arguments. *)
Lemma scan_tail_args (g : groups) (s : str) :
  match scan_tail false g s, scan_tail true g s with
  | Some m, Some m' => action_of m = action_of m' /\ args_of m = args_of m'
  | None, None => True
  | _, _ => False
  end.
Proof.
  unfold scan_tail.
  destruct (span isspace s) as [ws s2]. destruct ws as [|w0 ws]; [exact I|].
  destruct (span isword s2) as [word s3]. destruct word as [|c0 word]; [exact I|].
  destruct s3 as [|c3 s3]; [split; reflexivity|].
  pose proof (span_run isspace (c3 :: s3)) as Hws.
  destruct (span isspace (c3 :: s3)) as [ws2 s4]. cbn [fst] in Hws.
  destruct ws2 as [|w2 ws2]; [exact I|].
  destruct (span (fun c => negb (Ascii.eqb c nl)) s4) as [rest s5].
  split; [reflexivity|].
  unfold args_of. cbn [group Nat.eqb].
  change ((w2 :: ws2) ++ rest) with (w2 :: ws2 ++ rest).
  assert (Hstrip : strip (w2 :: ws2 ++ rest) = strip rest).
  { unfold strip. change (w2 :: ws2 ++ rest) with ((w2 :: ws2) ++ rest).
    now rewrite (lstrip_spaces _ _ Hws). }
  transitivity (strip rest); [now destruct rest | symmetry; exact Hstrip].
Qed.

Lemma pattern_match (with_ws : bool) (prev : option ascii) (s : str) :
  rmatch COMMAND_FLAGS (Seq Bol (lit (of_string "/cloud-code") (tail_pattern with_ws)))
    [] prev s (fun g _ _ => Some g)
  = if at_bol COMMAND_FLAGS prev
    then match strip_lit COMMAND_FLAGS (of_string "/cloud-code") prev s with
         | Some (_, s') => scan_tail with_ws [] s'
         | None => None
         end
    else None.
Proof.
  cbn [rmatch]. destruct (at_bol COMMAND_FLAGS prev); [|reflexivity].
  rewrite rmatch_lit.
  destruct (strip_lit COMMAND_FLAGS (of_string "/cloud-code") prev s) as [[p' s']|];
    [apply tail_match | reflexivity].
Qed.

(** The search finds, with either pattern, matches of the same action and
    arguments, or none. *)
Lemma pattern_match_grammar (prev : option ascii) (s : str) :
  match rmatch COMMAND_FLAGS COMMAND_PATTERN [] prev s (fun g _ _ => Some g),
        rmatch COMMAND_FLAGS SPEC_GRAMMAR [] prev s (fun g _ _ => Some g) with
  | Some m, Some m' => action_of m = action_of m' /\ args_of m = args_of m'
  | None, None => True
  | _, _ => False
  end.
Proof.
  change COMMAND_PATTERN
    with (Seq Bol (lit (of_string "/cloud-code") (tail_pattern false)));
  change SPEC_GRAMMAR
    with (Seq Bol (lit (of_string "/cloud-code") (tail_pattern true))).
  rewrite !pattern_match.
  destruct (at_bol COMMAND_FLAGS prev); [|exact I].
  destruct (strip_lit _ _ prev s) as [[p' s']|]; [|exact I].
  apply scan_tail_args.
Qed.

Lemma search_from_grammar (prev : option ascii) (s : str) :
  match search_from COMMAND_FLAGS COMMAND_PATTERN prev s,
        search_from COMMAND_FLAGS SPEC_GRAMMAR prev s with
  | Some m, Some m' => action_of m = action_of m' /\ args_of m = args_of m'
  | None, None => True
  | _, _ => False
  end.
Proof.
  revert prev. induction s as [|c s IH]; intros prev; cbn [search_from];
    pose proof (pattern_match_grammar prev) as H.
  - specialize (H []).
    destruct (rmatch COMMAND_FLAGS COMMAND_PATTERN [] prev [] _),
             (rmatch COMMAND_FLAGS SPEC_GRAMMAR [] prev [] _); exact H.
  - specialize (H (c :: s)).
    destruct (rmatch COMMAND_FLAGS COMMAND_PATTERN [] prev (c :: s) _),
             (rmatch COMMAND_FLAGS SPEC_GRAMMAR [] prev (c :: s) _);
      try contradiction; [exact H | apply IH].
Qed.

(** *** The parser never raises *)

Lemma lstrip_head (s : str) :
  match lstrip s with
  | [] => True
  | c :: _ => isspace c = false
  end.
Proof.
  induction s as [|c s IH]; [exact I|]. cbn [lstrip].
  destruct (isspace c) eqn:Hc; [exact IH | exact Hc].
Qed.

Lemma split_aux_nonempty (s cur : str) :
  Exists (fun c => isspace c = false) s -> split_aux s cur <> [].
Proof.
  intros H. revert cur. induction H as [c s Hc|c s _ IH]; intros cur; cbn [split_aux].
  - rewrite Hc. clear Hc. revert c cur. induction s as [|c' s IHs]; intros c cur.
    + cbn. discriminate.
    + cbn [split_aux]. destruct (isspace c'); [discriminate | apply IHs].
  - destruct (isspace c); [|apply IH]. destruct cur; [apply IH | discriminate].
Qed.

(** A stripped text is empty or has a character that is no whitespace. *)
Lemma strip_nonspace (s : str) :
  strip s = [] \/ Exists (fun c => isspace c = false) (strip s).
Proof.
  unfold strip, rstrip.
  pose proof (lstrip_head (rev (lstrip s))) as H.
  destruct (lstrip (rev (lstrip s))) as [|c r]; [now left|]. right.
  cbn [rev]. apply Exists_app. right. now constructor.
Qed.

Lemma command_of_total (action : string) (args : str) :
  args = [] \/ Exists (fun c => isspace c = false) args ->
  exists r, command_of action args = inr r.
Proof.
  intros Hargs. unfold command_of.
  assert (Hsplit : args <> [] -> split args <> []).
  { intros Hne. destruct Hargs as [->|He]; [contradiction|].
    now apply split_aux_nonempty. }
  destruct (String.eqb action "run").
  { destruct args as [|a args]; [eauto|].
    destruct (split (a :: args)) eqn:Hs; [exfalso; now apply Hsplit | eauto]. }
  destruct (String.eqb action "handoff").
  { destruct args as [|a args]; [eauto|].
    destruct (split (a :: args)) eqn:Hs; [exfalso; now apply Hsplit | eauto]. }
  destruct (String.eqb action "reject"); [destruct args; eauto|].
  destruct (String.eqb action "config"); [|eauto].
  destruct (split_maxsplit1 args) as [|key [|value l]]; eauto.
Qed.

Lemma args_of_stripped (m : groups) :
  args_of m = [] \/ Exists (fun c => isspace c = false) (args_of m).
Proof.
  unfold args_of. destruct (group m 2) as [[|c g2]|]; [now left | | now left].
  apply strip_nonspace.
Qed.

(** C8.  The parser is the search of the specification's grammar,
    case-insensitive and multiline, over the whole body: it returns for
    every body what [parse_by_grammar] returns, and it never raises.  The
    body "hello", "/cloud-code handoff backend", "thanks" on three lines
    parses to action handoff with target_agent backend; the body
    "/CLOUD-CODE run frontend" parses to action run with agent_type
    frontend; and a body none of whose lines starts with [/cloud-code], in
    any case, parses to [None]. *)
Theorem parse_cloud_code_command_grammar :
  (forall body : string,
     parse_cloud_code_command body = parse_by_grammar body
     /\ exists r, parse_cloud_code_command body = inr r)
  /\ parse_cloud_code_command
       ("hello" +:+ newline +:+ "/cloud-code handoff backend" +:+ newline +:+ "thanks")
     = inr (Some [("action", Some "handoff"); ("target_agent", Some "backend")])
  /\ parse_cloud_code_command "/CLOUD-CODE run frontend"
     = inr (Some [("action", Some "run"); ("agent_type", Some "frontend")])
  /\ forall body : string,
       Forall (fun line => startswith (lower line) (of_string "/cloud-code") = false)
         (split_nl (of_string body)) ->
       parse_cloud_code_command body = inr None.
Proof.
  split; [|split; [vm_compute; reflexivity|split; [vm_compute; reflexivity|]]].
  - intros body. unfold parse_cloud_code_command, parse_by_grammar, search. split.
    + pose proof (search_from_grammar None (of_string body)) as H.
      destruct (search_from COMMAND_FLAGS COMMAND_PATTERN None (of_string body)) as [m|],
               (search_from COMMAND_FLAGS SPEC_GRAMMAR None (of_string body)) as [m'|];
        try contradiction; [|reflexivity].
      destruct H as [-> ->]. reflexivity.
    + destruct (search_from COMMAND_FLAGS COMMAND_PATTERN None (of_string body)) as [m|];
        [|eauto].
      apply command_of_total, args_of_stripped.
  - intros body Hlines. unfold parse_cloud_code_command, search.
    rewrite search_from_no_command; [reflexivity|].
    now apply no_command_lines.
Qed.

Lemma parse_cloud_code_command_witness :
  Forall (fun line => startswith (lower line) (of_string "/cloud-code") = false)
    (split_nl (of_string ("please look at /cloud-code" +:+ newline +:+ "thanks")))
  /\ parse_cloud_code_command ("please look at /cloud-code" +:+ newline +:+ "thanks")
     = inr None.
Proof.
  assert (H : Forall (fun line => startswith (lower line) (of_string "/cloud-code") = false)
                (split_nl (of_string ("please look at /cloud-code" +:+ newline +:+ "thanks")))).
  { vm_compute. repeat constructor. }
  split; [exact H|].
  exact (proj2 (proj2 (proj2 parse_cloud_code_command_grammar)) _ H).
Defined.

End Parser.

(* ===================================================================== *)
(** * Further properties of the code *)
(* ===================================================================== *)

(** ** Facts about [strip] and the splits *)

Section Strings.
Import Py.

Lemma of_to_string (s : str) : of_string (to_string s) = s.
Proof. apply list_ascii_of_string_of_list_ascii. Qed.

Lemma to_of_string (s : string) : to_string (of_string s) = s.
Proof. apply string_of_list_ascii_of_string. Qed.

Lemma lstrip_all_space (s : str) :
  Forall (fun c => isspace c = true) s -> lstrip s = [].
Proof. induction 1 as [|c s Hc _ IH]; [reflexivity|]. cbn [lstrip]. now rewrite Hc. Qed.

Lemma lstrip_nonspace (s : str) :
  match s with [] => True | c :: _ => isspace c = false end -> lstrip s = s.
Proof. destruct s as [|c s]; [reflexivity|]. cbn [lstrip]. now intros ->. Qed.

Lemma lstrip_app (a b : str) :
  lstrip (a ++ b) = match lstrip a with [] => lstrip b | t => t ++ b end.
Proof.
  induction a as [|c a IH]; [reflexivity|]. cbn [app lstrip].
  destruct (isspace c); [exact IH | reflexivity].
Qed.

(** [lstrip] drops a prefix, [rstrip] a suffix. *)
Lemma lstrip_suffix (s : str) : exists pre, s = pre ++ lstrip s.
Proof.
  induction s as [|c s (pre & IH)]; [now exists []|]. cbn [lstrip].
  destruct (isspace c); [|now exists []]. exists (c :: pre). cbn. now f_equal.
Qed.

Lemma rstrip_prefix (s : str) : exists suf, s = rstrip s ++ suf.
Proof.
  unfold rstrip. destruct (lstrip_suffix (rev s)) as (pre & H).
  exists (rev pre). rewrite <- rev_app_distr, <- H. now rewrite rev_involutive.
Qed.

Lemma rstrip_head (c : ascii) (r : str) :
  rstrip (c :: r) = [] \/ exists r', rstrip (c :: r) = c :: r'.
Proof.
  destruct (rstrip_prefix (c :: r)) as (suf & H).
  destruct (rstrip (c :: r)) as [|c' r']; [now left|]. right.
  injection H as <- _. now exists r'.
Qed.

(** A word is a text that is not empty and has no whitespace. *)
Lemma rstrip_after_word (x w r : str) :
  w <> [] -> Forall (fun c => isspace c = false) w ->
  rstrip (x ++ w ++ r) = x ++ w ++ rstrip r.
Proof.
  intros Hne Hw. unfold rstrip. rewrite !rev_app_distr, <- app_assoc, lstrip_app.
  assert (Hrw : lstrip (rev w ++ rev x) = rev w ++ rev x).
  { apply lstrip_nonspace. destruct (rev w) as [|c t] eqn:Hr.
    - apply (f_equal (@rev ascii)) in Hr. rewrite rev_involutive in Hr. now subst w.
    - cbn. rewrite Forall_forall in Hw. apply Hw.
      apply list_elem_of_In, in_rev. rewrite Hr. now left. }
  destruct (lstrip (rev r)) as [|c t].
  - rewrite Hrw, rev_app_distr, !rev_involutive. cbn [rev]. now rewrite app_nil_r.
  - rewrite !rev_app_distr, !rev_involutive. now rewrite <- app_assoc.
Qed.

Lemma strip_word (w : str) : Forall (fun c => isspace c = false) w -> strip w = w.
Proof.
  intros Hw. unfold strip. rewrite lstrip_nonspace by (destruct Hw; auto).
  destruct w as [|c w]; [reflexivity|].
  pose proof (rstrip_after_word [] (c :: w) [] ltac:(discriminate) Hw) as H.
  cbn [app] in H. rewrite app_nil_r in H. rewrite H. cbn. now rewrite app_nil_r.
Qed.

Lemma strip_all_space (s : str) :
  Forall (fun c => isspace c = true) s -> strip s = [].
Proof. intros H. unfold strip. now rewrite lstrip_all_space. Qed.

(** The first line of a text. *)
Lemma split_nl_line (l : str) :
  Forall (fun c => c <> nl) l -> split_nl l = [l].
Proof.
  induction 1 as [|c l Hc _ IH]; [reflexivity|]. cbn [split_nl].
  destruct (Ascii.eqb_spec c nl); [contradiction|]. now rewrite IH.
Qed.

Lemma split_nl_first (l r : str) :
  Forall (fun c => c <> nl) l -> split_nl (l ++ nl :: r) = l :: split_nl r.
Proof.
  induction 1 as [|c l Hc _ IH]; cbn [app split_nl].
  - now rewrite Ascii.eqb_refl.
  - destruct (Ascii.eqb_spec c nl); [contradiction|]. now rewrite IH.
Qed.

Lemma nonspace_not_nl (w : str) :
  Forall (fun c => isspace c = false) w -> Forall (fun c => c <> nl) w.
Proof.
  intros H. eapply Forall_impl; [exact H|]. cbn. intros c Hc ->. discriminate Hc.
Qed.

End Strings.

(** ** The tasking document *)

Section TaskingDocument.

Lemma filter_has_id_others (i : string) (l : list TaskDefinition.t) :
  List.filter (has_id i) (List.filter (fun t => negb (has_id i t)) l) = [].
Proof.
  induction l as [|t l IH]; [reflexivity|]. cbn [List.filter].
  destruct (has_id i t) eqn:Ht; cbn [negb List.filter]; [exact IH|].
  now rewrite Ht.
Qed.

Lemma filter_idem {A : Type} (p : A -> bool) (l : list A) :
  List.filter p (List.filter p l) = List.filter p l.
Proof.
  induction l as [|x l IH]; [reflexivity|]. cbn [List.filter].
  destruct (p x) eqn:Hx; cbn [List.filter]; [rewrite Hx; now f_equal | exact IH].
Qed.

Lemma task_ids_filter_NoDup (p : TaskDefinition.t -> bool) (l : list TaskDefinition.t) :
  NoDup (task_ids l) -> NoDup (task_ids (List.filter p l)).
Proof.
  unfold task_ids. induction l as [|x l IH]; [trivial|]. cbn [List.map List.filter].
  intros H. apply NoDup_cons in H as [Hx Hl].
  destruct (p x); [|now apply IH]. cbn [List.map]. apply NoDup_cons. split; [|now apply IH].
  intros Hin. apply Hx. apply list_elem_of_In, in_map_iff in Hin as (y & Hy & Hiny).
  apply list_elem_of_In, in_map_iff. exists y. split; [exact Hy|].
  apply filter_In in Hiny. tauto.
Qed.

Lemma add_task_one (d : TaskingFile.t) (task : TaskDefinition.t) :
  List.filter (has_id (TaskDefinition.id task))
    (TaskingFile.tasks (TaskingFile.add_task d task)) = [task].
Proof.
  unfold TaskingFile.add_task, TaskingFile.set_tasks. cbn [TaskingFile.tasks].
  change (fun t => negb (String.eqb (TaskDefinition.id t) (TaskDefinition.id task)))
    with (fun t => negb (has_id (TaskDefinition.id task) t)).
  rewrite List.filter_app, filter_has_id_others. cbn [List.filter].
  unfold has_id. now rewrite String.eqb_refl.
Qed.

Lemma add_task_last (d : TaskingFile.t) (task : TaskDefinition.t) :
  last (TaskingFile.tasks (TaskingFile.add_task d task)) = Some task.
Proof. apply last_snoc. Qed.

(** X1.  [add_task] adds or replaces: afterwards the document holds
    exactly one task with the id of the task given, that task, and it is the
    last one; the tasks with other ids are those of before, in their order;
    ids that were distinct stay distinct; adding the same task again changes
    nothing. *)
Theorem add_task_replaces_or_appends (d : TaskingFile.t) (task : TaskDefinition.t) :
  List.filter (has_id (TaskDefinition.id task))
    (TaskingFile.tasks (TaskingFile.add_task d task)) = [task]
  /\ List.filter (fun t => negb (has_id (TaskDefinition.id task) t))
       (TaskingFile.tasks (TaskingFile.add_task d task))
     = List.filter (fun t => negb (has_id (TaskDefinition.id task) t)) (TaskingFile.tasks d)
  /\ last (TaskingFile.tasks (TaskingFile.add_task d task)) = Some task
  /\ (NoDup (task_ids (TaskingFile.tasks d)) ->
      NoDup (task_ids (TaskingFile.tasks (TaskingFile.add_task d task))))
  /\ TaskingFile.add_task (TaskingFile.add_task d task) task = TaskingFile.add_task d task.
Proof.
  split; [apply add_task_one|]. split; [|split; [apply add_task_last|]].
  all: unfold TaskingFile.add_task, TaskingFile.set_tasks; cbn [TaskingFile.tasks].
  all: change (fun t => negb (String.eqb (TaskDefinition.id t) (TaskDefinition.id task)))
         with (fun t => negb (has_id (TaskDefinition.id task) t)).
  all: assert (Hself : has_id (TaskDefinition.id task) task = true)
         by apply String.eqb_refl.
  - rewrite List.filter_app, filter_idem. cbn [List.filter]. rewrite Hself. cbn [negb].
    apply app_nil_r.
  - split.
    + intros Hnd. unfold task_ids. rewrite List.map_app. cbn [List.map].
      apply NoDup_app. split; [now apply (task_ids_filter_NoDup _ _ Hnd)|]. split.
      * intros i Hin Hi. apply list_elem_of_singleton in Hi as ->.
        apply list_elem_of_In, in_map_iff in Hin as (y & Hy & Hiny).
        apply filter_In in Hiny as [_ Hne]. unfold has_id in Hne.
        rewrite Hy, String.eqb_refl in Hne. discriminate Hne.
      * apply NoDup_singleton.
    + cbn [TaskingFile.version TaskingFile.updated_at TaskingFile.workspace]. f_equal.
      rewrite List.filter_app, filter_idem. cbn [List.filter]. rewrite Hself. cbn [negb].
      now rewrite app_nil_r.
Qed.

Lemma cancel_first_absent (task_id : string) (l : list TaskDefinition.t) :
  Forall (fun t => TaskDefinition.id t <> task_id) l ->
  TaskingFile.cancel_first task_id l = l.
Proof.
  induction 1 as [|t l Ht _ IH]; [reflexivity|]. cbn [TaskingFile.cancel_first].
  destruct (String.eqb_spec (TaskDefinition.id t) task_id); [contradiction|].
  now rewrite IH.
Qed.

Lemma cancel_first_at (task_id : string) (pre post : list TaskDefinition.t)
    (t : TaskDefinition.t) :
  Forall (fun x => TaskDefinition.id x <> task_id) pre ->
  TaskDefinition.id t = task_id ->
  TaskingFile.cancel_first task_id (pre ++ t :: post)
  = pre ++ TaskDefinition.set_status "cancelled" t :: post.
Proof.
  intros Hpre Ht. induction Hpre as [|x pre Hx _ IH]; cbn [app TaskingFile.cancel_first].
  - rewrite Ht, String.eqb_refl. reflexivity.
  - destruct (String.eqb_spec (TaskDefinition.id x) task_id); [contradiction|].
    now rewrite IH.
Qed.

Lemma cancel_first_ids (task_id : string) (l : list TaskDefinition.t) :
  task_ids (TaskingFile.cancel_first task_id l) = task_ids l.
Proof.
  unfold task_ids. induction l as [|t l IH]; [reflexivity|].
  cbn [TaskingFile.cancel_first].
  destruct (String.eqb (TaskDefinition.id t) task_id); cbn [List.map]; [reflexivity|].
  now rewrite IH.
Qed.

(** X2.  [TaskingFile.cancel_task] changes the first task of the given id
    and nothing else: that task gets the status cancelled, and the tasks
    before and after it, a later task of the same id among them, are kept;
    with no task of that id the document is returned as it was, and no
    exception is raised.  The ids and their order never change. *)
Theorem cancel_task_first_only (d : TaskingFile.t) (task_id : string) :
  (Forall (fun t => TaskDefinition.id t <> task_id) (TaskingFile.tasks d) ->
   TaskingFile.cancel_task d task_id = d)
  /\ (forall pre t post,
        TaskingFile.tasks d = pre ++ t :: post ->
        Forall (fun x => TaskDefinition.id x <> task_id) pre ->
        TaskDefinition.id t = task_id ->
        TaskingFile.tasks (TaskingFile.cancel_task d task_id)
        = pre ++ TaskDefinition.set_status "cancelled" t :: post)
  /\ task_ids (TaskingFile.tasks (TaskingFile.cancel_task d task_id))
     = task_ids (TaskingFile.tasks d)
  /\ TaskingFile.version (TaskingFile.cancel_task d task_id) = TaskingFile.version d
  /\ TaskingFile.workspace (TaskingFile.cancel_task d task_id) = TaskingFile.workspace d.
Proof.
  destruct d as [v u ws l].
  unfold TaskingFile.cancel_task, TaskingFile.set_tasks. cbn.
  split; [|split; [|split; [|split]]]; try reflexivity.
  - intros H. now rewrite cancel_first_absent.
  - intros pre t post -> Hpre Ht. now apply cancel_first_at.
  - apply cancel_first_ids.
Qed.

End TaskingDocument.

(** ** From the orchestrator to the agent *)

Section Dispatch.
Context {C : Codec} {L : CodecLaws C}.

(** [write_task] on a tasking file that loads: it does not raise, and the
    file then holds the document loaded with the workspace set and the task
    added, stamped by the save. *)
Lemma write_task_run (self : TaskInterface.t) (task : TaskDefinition.t)
    (w w0 : World) (d0 : TaskingFile.t) :
  TaskingFile.load (TaskInterface.tasking_path self) w = (inr d0, w0) ->
  exists w1,
    TaskInterface.write_task self task w = (inr tt, w1)
    /\ TaskingFile.load (TaskInterface.tasking_path self) w1
       = (inr (TaskingFile.set_updated_at (clock w0 (ticks w0))
                 (TaskingFile.add_task
                    (TaskingFile.set_workspace
                       (Some (TaskInterface.str_path (TaskInterface.workspace_path self)))
                       d0) task)), w1).
Proof.
  intros Hload. eexists. unfold TaskInterface.write_task.
  unfold bind at 1. rewrite Hload. unfold bind at 1.
  rewrite (TaskingFile_save_run _ _ _ _
             (with_suffix_tasking (TaskInterface.cloud_code_dir self))).
  unfold ret. split; [reflexivity|].
  apply TaskingFile_load_dump, after_save_target.
Qed.

Lemma get_pending_tasks_run (self : TaskInterface.t) (w w1 : World) (d : TaskingFile.t) :
  TaskingFile.load (TaskInterface.tasking_path self) w = (inr d, w1) ->
  TaskInterface.get_pending_tasks self w
  = (inr (List.filter (fun t => String.eqb (TaskDefinition.status t) "assigned")
            (TaskingFile.tasks d)), w1).
Proof.
  intros Hload. unfold TaskInterface.get_pending_tasks, TaskInterface.read_tasks, bind.
  now rewrite Hload.
Qed.

(** X3.  A task written by the orchestrator reaches the agent: on a
    tasking file that loads, after [write_task(task)] the list that
    [get_pending_tasks] returns holds [task] if and only if its status is
    assigned, and holds no other task of its id. *)
Theorem written_task_is_pending (self : TaskInterface.t) (task : TaskDefinition.t)
    (w w0 : World) (d0 : TaskingFile.t) :
  TaskingFile.load (TaskInterface.tasking_path self) w = (inr d0, w0) ->
  exists w1 pending,
    TaskInterface.write_task self task w = (inr tt, w1)
    /\ TaskInterface.get_pending_tasks self w1 = (inr pending, w1)
    /\ (In task pending <-> TaskDefinition.status task = "assigned")
    /\ forall t, In t pending -> TaskDefinition.id t = TaskDefinition.id task -> t = task.
Proof.
  intros Hload. destruct (write_task_run self task _ _ _ Hload) as (w1 & Hrun & Hload1).
  exists w1. eexists. split; [exact Hrun|].
  split; [exact (get_pending_tasks_run _ _ _ _ Hload1)|].
  cbn [TaskingFile.set_updated_at TaskingFile.tasks].
  set (d := TaskingFile.set_workspace _ d0).
  pose proof (add_task_one d task) as Hone.
  pose proof (add_task_last d task) as Hlast.
  split.
  - rewrite filter_In, String.eqb_eq. split; [tauto|]. intros Hs. split; [|exact Hs].
    apply last_Some in Hlast as (l' & ->). apply in_or_app. right. now left.
  - intros t Hin Hid. apply filter_In in Hin as [Hin _].
    assert (Ht : In t (List.filter (has_id (TaskDefinition.id task))
                         (TaskingFile.tasks (TaskingFile.add_task d task)))).
    { apply filter_In. split; [exact Hin|]. unfold has_id. rewrite Hid.
      apply String.eqb_refl. }
    rewrite Hone in Ht. destruct Ht as [<-|[]]. reflexivity.
Qed.

(** X4.  A task that was written and then cancelled is not pending: on a
    tasking file that loads, after [write_task(task)] and
    [cancel_task(task.id)] the list of [get_pending_tasks] holds no task
    with that id. *)
Theorem cancelled_task_is_not_pending (self : TaskInterface.t) (task : TaskDefinition.t)
    (w w0 : World) (d0 : TaskingFile.t) :
  TaskingFile.load (TaskInterface.tasking_path self) w = (inr d0, w0) ->
  exists w1 w2 pending,
    TaskInterface.write_task self task w = (inr tt, w1)
    /\ TaskInterface.cancel_task self (TaskDefinition.id task) w1 = (inr tt, w2)
    /\ TaskInterface.get_pending_tasks self w2 = (inr pending, w2)
    /\ Forall (fun t => TaskDefinition.id t <> TaskDefinition.id task) pending.
Proof.
  intros Hload. destruct (write_task_run self task _ _ _ Hload) as (w1 & Hrun & Hload1).
  destruct (cancel_task_run self (TaskDefinition.id task) _ _ _ Hload1)
    as (w2 & Hrun2 & Hload2 & _).
  exists w1, w2. eexists. split; [exact Hrun|]. split; [exact Hrun2|].
  split; [exact (get_pending_tasks_run _ _ _ _ Hload2)|].
  cbn [TaskingFile.set_updated_at TaskingFile.tasks TaskingFile.cancel_task
       TaskingFile.set_tasks].
  set (d := TaskingFile.set_workspace _ d0).
  unfold TaskingFile.add_task, TaskingFile.set_tasks. cbn [TaskingFile.tasks].
  set (kept := List.filter _ (TaskingFile.tasks d)).
  assert (Hkept : Forall (fun x => TaskDefinition.id x <> TaskDefinition.id task) kept).
  { apply Forall_forall. intros x Hx. apply list_elem_of_In, filter_In in Hx as [_ Hx].
    intros He. rewrite He, String.eqb_refl in Hx. discriminate Hx. }
  rewrite (cancel_first_at _ kept [] task Hkept eq_refl).
  rewrite List.filter_app. cbn [List.filter TaskDefinition.set_status TaskDefinition.status].
  cbn. rewrite app_nil_r.
  apply Forall_forall. intros x Hx. apply list_elem_of_In, filter_In in Hx as [Hx _].
  rewrite Forall_forall in Hkept. apply Hkept. now apply list_elem_of_In.
Qed.

End Dispatch.

Lemma written_task_is_pending_witness :
  TaskingFile.load (TaskInterface.tasking_path ws_example) empty_world
  = (inr (TaskingFile.mk 1 0 None []), world1)
  /\ exists (w1 : World (C := data_codec)) pending,
    TaskInterface.write_task ws_example task_a empty_world = (inr tt, w1)
    /\ TaskInterface.get_pending_tasks ws_example w1 = (inr pending, w1)
    /\ (In task_a pending <-> TaskDefinition.status task_a = "assigned")
    /\ forall t, In t pending -> TaskDefinition.id t = TaskDefinition.id task_a -> t = task_a.
Proof.
  split; [reflexivity|].
  exact (written_task_is_pending (L := data_codec_laws) ws_example task_a
           empty_world world1 (TaskingFile.mk 1 0 None []) eq_refl).
Defined.

Lemma cancelled_task_is_not_pending_witness :
  TaskingFile.load (TaskInterface.tasking_path ws_example) empty_world
  = (inr (TaskingFile.mk 1 0 None []), world1)
  /\ exists (w1 w2 : World (C := data_codec)) pending,
    TaskInterface.write_task ws_example task_a empty_world = (inr tt, w1)
    /\ TaskInterface.cancel_task ws_example (TaskDefinition.id task_a) w1 = (inr tt, w2)
    /\ TaskInterface.get_pending_tasks ws_example w2 = (inr pending, w2)
    /\ Forall (fun t => TaskDefinition.id t <> TaskDefinition.id task_a) pending.
Proof.
  split; [reflexivity|].
  exact (cancelled_task_is_not_pending (L := data_codec_laws) ws_example task_a
           empty_world world1 (TaskingFile.mk 1 0 None []) eq_refl).
Defined.

(** ** Reading the documents *)

Section ReadsOnly.
Context {C : Codec}.

Lemma reads_only_ret {A : Type} (a : A) : reads_only (ret a).
Proof. intros w. auto. Qed.

Lemma reads_only_raise {A : Type} (e : exn) : reads_only (raise (A := A) e).
Proof. intros w. auto. Qed.

Lemma reads_only_bind {A B : Type} (m : M A) (f : A -> M B) :
  reads_only m -> (forall a, reads_only (f a)) -> reads_only (bind m f).
Proof.
  intros Hm Hf w. unfold bind. specialize (Hm w).
  destruct (m w) as [[e|a] w']; cbn [snd] in *; [exact Hm|].
  destruct (Hf a w') as (H1 & H2 & H3). destruct Hm as (H4 & H5 & H6).
  repeat split; congruence.
Qed.

Lemma reads_only_lift {A : Type} (e : exn) (o : option A) : reads_only (lift e o).
Proof. destruct o; [apply reads_only_ret | apply reads_only_raise]. Qed.

Lemma reads_only_utcnow : reads_only utcnow.
Proof. intros w. auto. Qed.

Lemma reads_only_path_exists (p : Path.t) : reads_only (path_exists p).
Proof. intros w. auto. Qed.

Lemma reads_only_read_text (p : Path.t) : reads_only (read_text p).
Proof. intros w. unfold read_text. destruct (files w !! p); auto. Qed.

Lemma reads_only_mapM_io {A B : Type} (f : A -> M B) (l : list A) :
  (forall x, reads_only (f x)) -> reads_only (mapM_io f l).
Proof.
  intros Hf. induction l as [|x l IH]; cbn [mapM_io]; [apply reads_only_ret|].
  apply reads_only_bind; [apply Hf|]. intros y.
  apply reads_only_bind; [exact IH|]. intros ys. apply reads_only_ret.
Qed.

Lemma reads_only_field {A : Type} (d : list (string * json)) (k : string)
    (f : json -> M A) (dflt : M A) :
  (forall j, reads_only (f j)) -> reads_only dflt -> reads_only (Pydantic.field d k f dflt).
Proof. intros Hf Hd. unfold Pydantic.field. destruct (Pydantic.get d k); auto. Qed.

Lemma reads_only_required {A : Type} (d : list (string * json)) (k : string)
    (f : json -> M A) :
  (forall j, reads_only (f j)) -> reads_only (Pydantic.required d k f).
Proof.
  intros Hf. unfold Pydantic.required.
  destruct (Pydantic.get d k); [auto | apply reads_only_raise].
Qed.

Lemma reads_only_str (j : json) : reads_only (Pydantic.str_ j).
Proof. destruct j; first [apply reads_only_ret | apply reads_only_raise]. Qed.

Lemma reads_only_int (j : json) : reads_only (Pydantic.int_ j).
Proof. destruct j; first [apply reads_only_ret | apply reads_only_raise]. Qed.

Lemma reads_only_datetime (j : json) : reads_only (Pydantic.datetime_ j).
Proof. destruct j; first [apply reads_only_lift | apply reads_only_raise]. Qed.

Lemma reads_only_dict_any (j : json) : reads_only (Pydantic.dict_any j).
Proof. destruct j; first [apply reads_only_ret | apply reads_only_raise]. Qed.

Lemma reads_only_optional {A : Type} (f : json -> M A) (j : json) :
  (forall j, reads_only (f j)) -> reads_only (Pydantic.optional f j).
Proof.
  intros Hf. unfold Pydantic.optional.
  destruct j; try apply reads_only_ret;
    (apply reads_only_bind; [apply Hf | intros a; apply reads_only_ret]).
Qed.

Lemma reads_only_list {A : Type} (f : json -> M A) (j : json) :
  (forall j, reads_only (f j)) -> reads_only (Pydantic.list_ f j).
Proof.
  intros Hf. unfold Pydantic.list_.
  destruct j; try apply reads_only_raise. now apply reads_only_mapM_io.
Qed.

(** The validation of a model is a sequence of validations of fields. *)
Ltac reads_only_steps :=
  repeat first
    [ apply reads_only_ret
    | apply reads_only_raise
    | apply reads_only_utcnow
    | apply reads_only_str
    | apply reads_only_int
    | apply reads_only_datetime
    | apply reads_only_dict_any
    | apply reads_only_lift
    | apply reads_only_path_exists
    | apply reads_only_read_text
    | (apply reads_only_bind; [|intros ?])
    | (apply reads_only_field; [intros ?|])
    | (apply reads_only_required; intros ?)
    | (apply reads_only_optional; intros ?)
    | (apply reads_only_list; intros ?)
    | assumption ].

Lemma reads_only_TaskContext (j : json) : reads_only (TaskContext.validate j).
Proof. unfold TaskContext.validate. reads_only_steps. Qed.

Lemma reads_only_TaskDefinition (j : json) : reads_only (TaskDefinition.validate j).
Proof.
  unfold TaskDefinition.validate. pose proof reads_only_TaskContext.
  reads_only_steps; auto.
Qed.

Lemma reads_only_ProgressEntry (j : json) : reads_only (ProgressEntry.validate j).
Proof. unfold ProgressEntry.validate. reads_only_steps. Qed.

Lemma reads_only_FileChange (j : json) : reads_only (FileChange.validate j).
Proof. unfold FileChange.validate. reads_only_steps. Qed.

Lemma reads_only_CommitRecord (j : json) : reads_only (CommitRecord.validate j).
Proof. unfold CommitRecord.validate. reads_only_steps. Qed.

Lemma reads_only_AcceptanceCriterionStatus (j : json) :
  reads_only (AcceptanceCriterionStatus.validate j).
Proof. unfold AcceptanceCriterionStatus.validate. reads_only_steps. Qed.

Lemma reads_only_CredentialRequestRecord (j : json) :
  reads_only (CredentialRequestRecord.validate j).
Proof. unfold CredentialRequestRecord.validate. reads_only_steps. Qed.

Lemma reads_only_TaskReport (j : json) : reads_only (TaskReport.validate j).
Proof.
  unfold TaskReport.validate.
  pose proof reads_only_ProgressEntry. pose proof reads_only_FileChange.
  pose proof reads_only_CommitRecord. pose proof reads_only_AcceptanceCriterionStatus.
  pose proof reads_only_CredentialRequestRecord.
  reads_only_steps; auto.
Qed.

Lemma reads_only_kwargs (data : json) : reads_only (kwargs data).
Proof. destruct data; first [apply reads_only_ret | apply reads_only_raise]. Qed.

Lemma reads_only_TaskingFile_load (path : Path.t) : reads_only (TaskingFile.load path).
Proof.
  unfold TaskingFile.load. pose proof reads_only_TaskDefinition.
  apply reads_only_bind; [apply reads_only_path_exists|]. intros ex.
  destruct (negb ex); unfold TaskingFile.of_kwargs; reads_only_steps; auto;
    try apply reads_only_kwargs; reads_only_steps; auto.
Qed.

Lemma reads_only_reports (j : json) : reads_only (ReportingFile.reports_ j).
Proof.
  unfold ReportingFile.reports_. destruct j; try apply reads_only_raise.
  apply reads_only_bind; [|intros ?; apply reads_only_ret].
  apply reads_only_mapM_io. intros kv.
  apply reads_only_bind; [apply reads_only_TaskReport | intros ?; apply reads_only_ret].
Qed.

Lemma reads_only_ReportingFile_load (path : Path.t) : reads_only (ReportingFile.load path).
Proof.
  unfold ReportingFile.load. pose proof reads_only_reports.
  apply reads_only_bind; [apply reads_only_path_exists|]. intros ex.
  destruct (negb ex); unfold ReportingFile.of_kwargs; reads_only_steps; auto;
    try apply reads_only_kwargs; reads_only_steps; auto.
Qed.

(** X5.  Reading never writes.  [read_tasks], [get_pending_tasks],
    [read_report] and [get_task_status] make no file-system call and change
    no file, whatever the files hold and whether the call returns or raises:
    a missing file is read as a default document and is not created. *)
Theorem reading_never_writes (self : TaskInterface.t) (task_id : string) :
  reads_only (TaskInterface.read_tasks self)
  /\ reads_only (TaskInterface.get_pending_tasks self)
  /\ reads_only (TaskInterface.read_report self)
  /\ reads_only (TaskInterface.get_task_status self task_id).
Proof.
  unfold TaskInterface.read_tasks, TaskInterface.get_pending_tasks,
    TaskInterface.read_report, TaskInterface.get_task_status,
    TaskInterface.read_tasks, TaskInterface.read_report.
  repeat split;
    first [ apply reads_only_TaskingFile_load
          | apply reads_only_ReportingFile_load
          | apply reads_only_bind;
            [ first [apply reads_only_TaskingFile_load | apply reads_only_ReportingFile_load]
            | intros ?; apply reads_only_ret ] ].
Qed.

End ReadsOnly.

(** ** Files that hold no document *)

Section LoadEdges.
Context {C : Codec}.

(** X6.  What a file that exists loads as.  If its YAML is empty, or any
    other value that Python takes as false ([None], [False], [0], the empty
    string, list or mapping), both documents load as if the file were
    missing: every field at its default, [updated_at] the clock's reading.
    If its YAML is another value that is no mapping, the load raises
    [TypeError]; if it cannot be parsed, the exception of the parser. *)
Theorem load_of_a_file_without_mapping (path : Path.t) (c : content) (w : World) :
  files w !! path = Some c ->
  (forall data,
     yaml_safe_load c = Some data -> or_empty_dict data = JDict [] ->
     ReportingFile.load path w
     = (inr (ReportingFile.mk 1 "unknown" "unknown" (clock w (ticks w)) "idle" ∅),
        advance 1 w)
     /\ TaskingFile.load path w
        = (inr (TaskingFile.mk 1 (clock w (ticks w)) None []), advance 1 w))
  /\ (forall data,
        yaml_safe_load c = Some data -> (forall d, or_empty_dict data <> JDict d) ->
        ReportingFile.load path w = (inl TypeError, w)
        /\ TaskingFile.load path w = (inl TypeError, w))
  /\ (yaml_safe_load c = None ->
        ReportingFile.load path w = (inl YAMLError, w)
        /\ TaskingFile.load path w = (inl YAMLError, w)).
Proof.
  intros Hf.
  assert (Hex : path_exists path w = (inr true, w)).
  { unfold path_exists. rewrite Hf. now rewrite bool_decide_eq_true_2 by eauto. }
  assert (Hrd : read_text path w = (inr c, w)) by (unfold read_text; now rewrite Hf).
  split; [|split].
  - intros data Hload Hempty.
    unfold ReportingFile.load, TaskingFile.load.
    rewrite !(bind_inr _ _ _ _ _ Hex). cbn [negb].
    rewrite !(bind_inr _ _ _ _ _ Hrd). rewrite Hload. cbn [lift].
    unfold bind at 1 3. unfold ret at 1 2. rewrite Hempty. split; reflexivity.
  - intros data Hload Hne.
    unfold ReportingFile.load, TaskingFile.load.
    rewrite !(bind_inr _ _ _ _ _ Hex). cbn [negb].
    rewrite !(bind_inr _ _ _ _ _ Hrd). rewrite Hload. cbn [lift].
    unfold bind at 1 3. unfold ret at 1 2.
    destruct (or_empty_dict data) as [| | | | |d] eqn:Hd; try (split; reflexivity).
    exfalso. now apply (Hne d).
  - intros Hload.
    unfold ReportingFile.load, TaskingFile.load.
    rewrite !(bind_inr _ _ _ _ _ Hex). cbn [negb].
    rewrite !(bind_inr _ _ _ _ _ Hrd). rewrite Hload. split; reflexivity.
Qed.

(** X7.  A save leaves no temp file behind and touches no other file: after
    a save of either document of a workspace, the target holds the new
    content, the temp file does not exist, whether or not it existed before,
    and every other path holds what it held. *)
Theorem save_leaves_no_temp_file
    (self : TaskInterface.t) (r : ReportingFile.t) (t : TaskingFile.t) (w : World) :
  (exists d' w',
     ReportingFile.save r (TaskInterface.reporting_path self) w = (inr d', w')
     /\ files w' !! TaskInterface.reporting_path self
        = Some (yaml_dump (ReportingFile.model_dump d'))
     /\ files w' !! Path.joinpath (TaskInterface.cloud_code_dir self) "reporting.tmp" = None
     /\ forall p, p <> TaskInterface.reporting_path self ->
          p <> Path.joinpath (TaskInterface.cloud_code_dir self) "reporting.tmp" ->
          files w' !! p = files w !! p)
  /\ (exists d' w',
     TaskingFile.save t (TaskInterface.tasking_path self) w = (inr d', w')
     /\ files w' !! TaskInterface.tasking_path self
        = Some (yaml_dump (TaskingFile.model_dump d'))
     /\ files w' !! Path.joinpath (TaskInterface.cloud_code_dir self) "tasking.tmp" = None
     /\ forall p, p <> TaskInterface.tasking_path self ->
          p <> Path.joinpath (TaskInterface.cloud_code_dir self) "tasking.tmp" ->
          files w' !! p = files w !! p).
Proof.
  split; eexists _, _.
  - split; [apply ReportingFile_save_run, with_suffix_reporting|].
    split; [apply after_save_target|]. split; [|intros p; apply after_save_other].
    unfold after_save, save_ops. cbn [files foldl apply_op].
    rewrite lookup_insert_eq, lookup_insert_ne, lookup_delete_eq; [reflexivity|].
    intros H. apply joinpath_inj in H. discriminate H.
  - split; [apply TaskingFile_save_run, with_suffix_tasking|].
    split; [apply after_save_target|]. split; [|intros p; apply after_save_other].
    unfold after_save, save_ops. cbn [files foldl apply_op].
    rewrite lookup_insert_eq, lookup_insert_ne, lookup_delete_eq; [reflexivity|].
    intros H. apply joinpath_inj in H. discriminate H.
Qed.

End LoadEdges.

Lemma load_of_a_file_without_mapping_witness :
  (files world_empty_report !! TaskInterface.reporting_path ws_example = Some JNull
   /\ ReportingFile.load (TaskInterface.reporting_path ws_example) world_empty_report
      = (inr (ReportingFile.mk 1 "unknown" "unknown" 0 "idle" ∅),
         advance 1 world_empty_report))
  /\ (files world_list_report !! TaskInterface.reporting_path ws_example
      = Some (JList [JInt 1])
      /\ ReportingFile.load (TaskInterface.reporting_path ws_example) world_list_report
         = (inl TypeError, world_list_report)).
Proof.
  split; (split; [reflexivity|]).
  - exact (proj1 (proj1 (load_of_a_file_without_mapping (C := data_codec)
                           (TaskInterface.reporting_path ws_example) JNull
                           world_empty_report eq_refl)
                    JNull eq_refl eq_refl)).
  - refine (proj1 (proj1 (proj2 (load_of_a_file_without_mapping (C := data_codec)
                                   (TaskInterface.reporting_path ws_example)
                                   (JList [JInt 1]) world_list_report eq_refl))
                     (JList [JInt 1]) eq_refl _)).
    intros d. discriminate.
Defined.

(** ** The reporting document *)

Section ReportingDocument.
Context {C : Codec}.

(** Unfold one operation's body down to the report it stores. *)
Ltac with_task_report :=
  let d1 := fresh "d1" in
  let Hg := fresh "Hg" in
  let Hput := fresh "Hput" in
  let Hoth := fresh "Hoth" in
  let Htop := fresh "Htop" in
  match goal with
  | |- context [ReportingFile.get_task_report ?x ?task_id] =>
      destruct (get_task_report_spec x task_id) as (d1 & Hg & Hput & Hoth & Htop);
      rewrite Hg
  end;
  unfold bind, utcnow, ProgressEntry.make, CredentialRequestRecord.make, ret.

Lemma report_of_set_status (s : string) (d : ReportingFile.t) (t : string) :
  report_of (ReportingFile.set_status s d) t = report_of d t.
Proof. reflexivity. Qed.

(** An operation appends to the progress log of the task it is called for,
    one entry at most, and leaves the logs of the other tasks as they were. *)
Lemma op_body_progress (op : report_op) (d d' : ReportingFile.t) (w w' : World) (t : string) :
  op_body op d w = (inr d', w') ->
  exists added,
    TaskReport.progress (report_of d' t) = TaskReport.progress (report_of d t) ++ added
    /\ (length added <= 1)%nat
    /\ (t <> op_task op -> added = []).
Proof.
  destruct op; cbn [op_body op_task];
    unfold ReportingFile.update_task_status, ReportingFile.add_credential_request;
    with_task_report; rewrite ?report_of_set_status.
  - destruct (String.eqb status "received" && _); destruct message as [[|a m]|]; cbn;
      intros [= <- <-]; rewrite Hput; destruct (String.eqb_spec t task_id) as [->|Hne];
      cbn; first [ exists []; rewrite app_nil_r; now auto
                 | eexists [_]; split; [reflexivity|]; split; [auto|congruence] ].
  - intros [= <- <-]; rewrite Hput; destruct (String.eqb_spec t task_id) as [->|Hne];
      cbn; first [ exists []; rewrite app_nil_r; now auto
                 | eexists [_]; split; [reflexivity|]; split; [auto|congruence] ].
  - intros [= <- <-]; rewrite Hput; destruct (String.eqb_spec t task_id) as [->|Hne];
      cbn; first [ exists []; rewrite app_nil_r; now auto
                 | eexists [_]; split; [reflexivity|]; split; [auto|congruence] ].
  - intros [= <- <-]; rewrite Hput; destruct (String.eqb_spec t task_id) as [->|Hne];
      cbn; first [ exists []; rewrite app_nil_r; now auto
                 | eexists [_]; split; [reflexivity|]; split; [auto|congruence] ].
  - intros [= <- <-]; rewrite Hput; destruct (String.eqb_spec t task_id) as [->|Hne];
      cbn; exists []; rewrite app_nil_r; now auto.
Qed.

(** What [request_credential] does to the document it loaded. *)
Lemma request_credential_body (uuid_hex task_id cred_type scope reason : string)
    (d d' : ReportingFile.t) (w w' : World) :
  op_body (RequestCredential uuid_hex task_id cred_type scope reason) d w = (inr d', w') ->
  TaskReport.credential_requests (report_of d' task_id)
  = TaskReport.credential_requests (report_of d task_id)
    ++ [CredentialRequestRecord.mk ("cred-" +:+ String.substring 0 8 uuid_hex)
          cred_type scope reason "pending" (clock w (ticks w))]
  /\ TaskReport.progress (report_of d' task_id) = TaskReport.progress (report_of d task_id)
  /\ ReportingFile.status d' = ReportingFile.status d.
Proof.
  cbn [op_body]. unfold ReportingFile.add_credential_request. with_task_report.
  intros [= <- <-]. rewrite Htop, Hput, String.eqb_refl. cbn. auto.
Qed.

(** What the three operations that end a task do to the document. *)
Lemma set_task_completed_body (task_id summary : string) (changes : list string)
    (files : list FileChange.t) (commits : list CommitRecord.t)
    (d d' : ReportingFile.t) (w w' : World) :
  op_body (SetTaskCompleted task_id summary changes files commits) d w = (inr d', w') ->
  ReportingFile.status d' = "idle"
  /\ TaskReport.summary (report_of d' task_id) = Some summary
  /\ TaskReport.changes_summary (report_of d' task_id) = changes
  /\ TaskReport.files_modified (report_of d' task_id) = files
  /\ TaskReport.commits (report_of d' task_id) = commits
  /\ TaskReport.progress (report_of d' task_id)
     = TaskReport.progress (report_of d task_id)
       ++ [ProgressEntry.mk (clock w (ticks w)) "completed" "Task completed successfully" []].
Proof.
  cbn [op_body]. with_task_report. rewrite ?report_of_set_status.
  intros [= <- <-]. rewrite Htop, Hput, String.eqb_refl. cbn. auto 6.
Qed.

Lemma set_task_failed_body (task_id error : string)
    (d d' : ReportingFile.t) (w w' : World) :
  op_body (SetTaskFailed task_id error) d w = (inr d', w') ->
  ReportingFile.status d' = "idle"
  /\ TaskReport.error (report_of d' task_id) = Some error
  /\ TaskReport.progress (report_of d' task_id)
     = TaskReport.progress (report_of d task_id)
       ++ [ProgressEntry.mk (clock w (ticks w)) "failed" ("Task failed: " +:+ error) []].
Proof.
  cbn [op_body]. with_task_report. rewrite ?report_of_set_status.
  intros [= <- <-]. rewrite Htop, Hput, String.eqb_refl. cbn. auto.
Qed.

Lemma set_task_blocked_body (task_id reason : string)
    (d d' : ReportingFile.t) (w w' : World) :
  op_body (SetTaskBlocked task_id reason) d w = (inr d', w') ->
  ReportingFile.status d' = "idle"
  /\ TaskReport.blocked_reason (report_of d' task_id) = Some reason
  /\ TaskReport.progress (report_of d' task_id)
     = TaskReport.progress (report_of d task_id)
       ++ [ProgressEntry.mk (clock w (ticks w)) "blocked" ("Task blocked: " +:+ reason) []].
Proof.
  cbn [op_body]. with_task_report. rewrite ?report_of_set_status.
  intros [= <- <-]. rewrite Htop, Hput, String.eqb_refl. cbn. auto.
Qed.

Context {L : CodecLaws C}.

Lemma run_ops_app (self : TaskInterface.t) (ops1 ops2 : list report_op) (w : World) :
  run_ops self (ops1 ++ ops2) w
  = match run_ops self ops1 w with
    | (inr _, w1) => run_ops self ops2 w1
    | (inl e, w1) => (inl e, w1)
    end.
Proof.
  revert w. induction ops1 as [|op ops1 IH]; intros w; [reflexivity|].
  cbn [app run_ops]. unfold bind.
  destruct (run_op self op w) as [[e|[]] w1]; [reflexivity | apply IH].
Qed.

(** A sequence of operations on a reporting file that loads: none raises,
    the file loads afterwards, each task has the status that the last
    operation on it wrote, and a task that no operation is called for has
    the report it had. *)
Lemma run_ops_run (self : TaskInterface.t) (ops : list report_op)
    (w w0 : World) (d0 : ReportingFile.t) :
  ReportingFile.load (TaskInterface.reporting_path self) w = (inr d0, w0) ->
  exists w1 w1' d1,
    run_ops self ops w = (inr tt, w1)
    /\ ReportingFile.load (TaskInterface.reporting_path self) w1 = (inr d1, w1')
    /\ (forall t, status_of d1 t = status_after t ops (status_of d0 t))
    /\ (forall t, Forall (fun op => t <> op_task op) ops ->
          ReportingFile.tasks d1 !! t = ReportingFile.tasks d0 !! t)
    /\ (forall t, exists added,
          TaskReport.progress (report_of d1 t)
          = TaskReport.progress (report_of d0 t) ++ added
          /\ (length added
              <= length (List.filter (fun op => String.eqb t (op_task op)) ops))%nat).
Proof.
  revert w w0 d0. induction ops as [|op ops IH]; intros w w0 d0 Hload.
  - exists w, w0, d0. split; [reflexivity|]. split; [exact Hload|].
    split; [reflexivity|]. split; [reflexivity|].
    intros t. exists []. now rewrite app_nil_r.
  - destruct (run_op_run self op _ _ _ Hload) as (d' & k & w1 & Hbody & Hrun & Hload1).
    destruct (IH _ _ _ Hload1) as (w2 & w2' & d2 & Hrun2 & Hload2 & Hst & Hoth & Hpr).
    exists w2, w2', d2. split; [|split; [exact Hload2|split; [|split]]].
    + cbn [run_ops]. unfold bind. rewrite Hrun. exact Hrun2.
    + intros t. rewrite Hst. cbn [status_after fold_left]. f_equal.
      change (status_of d' t
              = if String.eqb t (op_task op) then default (status_of d0 t) (op_status op)
                else status_of d0 t).
      exact (op_body_status _ _ _ _ _ t Hbody).
    + intros t Ht. apply Forall_cons in Ht as [Hne Ht]. rewrite (Hoth t Ht).
      cbn. exact (op_body_other _ _ _ _ _ t Hbody Hne).
    + intros t. destruct (Hpr t) as (added2 & Hp2 & Hlen2).
      destruct (op_body_progress _ _ _ _ _ t Hbody) as (added1 & Hp1 & Hlen1 & Hnil).
      exists (added1 ++ added2). split.
      * rewrite Hp2. change (report_of (ReportingFile.set_updated_at _ d') t)
          with (report_of d' t). rewrite Hp1. now rewrite app_assoc.
      * rewrite length_app. cbn [List.filter].
        destruct (String.eqb_spec t (op_task op)) as [He|Hne].
        -- cbn [length]. lia.
        -- rewrite (Hnil Hne). cbn [length]. lia.
Qed.

(** X8.  [initialize_agent] starts the reporting file afresh: whatever the
    file held, and even if it could not be loaded, after the call
    [read_report] returns a document with the agent's type and id, the
    status idle and no task report, so [get_task_status] returns [None] for
    every task.  The file is not read. *)
Theorem initialize_agent_resets
    (self : TaskInterface.t) (agent_type agent_id : string) (w : World) :
  exists w1,
    TaskInterface.initialize_agent self agent_type agent_id w = (inr tt, w1)
    /\ TaskInterface.read_report self w1
       = (inr (ReportingFile.mk 1 agent_type agent_id (clock w (S (ticks w))) "idle" ∅), w1)
    /\ forall task_id, TaskInterface.get_task_status self task_id w1 = (inr None, w1).
Proof.
  set (wa := mkWorld (files w) (syscalls w) (S (ticks w)) (clock w)).
  set (w1 := after_save wa
               (save_ops (TaskInterface.reporting_path self)
                  (Path.joinpath (TaskInterface.cloud_code_dir self) "reporting.tmp")
                  (yaml_dump
                     (ReportingFile.model_dump
                        (ReportingFile.set_updated_at (clock wa (ticks wa))
                           (ReportingFile.mk 1 agent_type agent_id
                              (clock w (ticks w)) "idle" ∅)))))).
  exists w1.
  assert (Hload : TaskInterface.read_report self w1
                  = (inr (ReportingFile.mk 1 agent_type agent_id
                            (clock w (S (ticks w))) "idle" ∅), w1)).
  { apply ReportingFile_load_dump, after_save_target. }
  split; [|split; [exact Hload|]].
  - unfold TaskInterface.initialize_agent.
    unfold bind at 1. unfold utcnow at 1. unfold bind at 1. fold wa.
    rewrite (ReportingFile_save_run _ _ _ _
               (with_suffix_reporting (TaskInterface.cloud_code_dir self))).
    reflexivity.
  - intros task_id. unfold TaskInterface.get_task_status, bind. rewrite Hload.
    reflexivity.
Qed.

(** X9.  [request_credential] on a reporting file that loads returns the
    id ["cred-"] followed by the first eight characters of the UUID's hex,
    and appends to the requests of the task one request with that id, the
    type, scope and reason given and the status pending.  The task's status
    and progress log, and the status of the agent, stay as they were: a task
    without a report gets one with the status waiting. *)
Theorem request_credential_appends
    (self : TaskInterface.t) (uuid_hex task_id cred_type scope reason : string)
    (w w0 : World) (d0 : ReportingFile.t) :
  ReportingFile.load (TaskInterface.reporting_path self) w = (inr d0, w0) ->
  exists w1 d1,
    TaskInterface.request_credential self uuid_hex task_id cred_type scope reason w
    = (inr ("cred-" +:+ String.substring 0 8 uuid_hex), w1)
    /\ ReportingFile.load (TaskInterface.reporting_path self) w1 = (inr d1, w1)
    /\ TaskReport.credential_requests (report_of d1 task_id)
       = TaskReport.credential_requests (report_of d0 task_id)
         ++ [CredentialRequestRecord.mk ("cred-" +:+ String.substring 0 8 uuid_hex)
               cred_type scope reason "pending" (clock w0 (ticks w0))]
    /\ status_of d1 task_id = status_of d0 task_id
    /\ TaskReport.progress (report_of d1 task_id) = TaskReport.progress (report_of d0 task_id)
    /\ ReportingFile.status d1 = ReportingFile.status d0.
Proof.
  intros Hload.
  destruct (run_op_run self (RequestCredential uuid_hex task_id cred_type scope reason)
              _ _ _ Hload) as (d' & k & w1 & Hbody & Hrun & Hload1).
  exists w1. eexists. split; [|split; [exact Hload1|]].
  - cbn [run_op] in Hrun. unfold bind in Hrun.
    destruct (TaskInterface.request_credential self uuid_hex task_id cred_type scope
                reason w) as [[e|rid] w2] eqn:Hreq; [discriminate Hrun|].
    injection Hrun as ->. f_equal. f_equal.
    revert Hreq. unfold TaskInterface.request_credential, bind.
    destruct (ReportingFile.load _ w) as [[e|d] w3]; [discriminate|].
    destruct (ReportingFile.add_credential_request _ _ _ _ _ _ w3) as [[e|d2] w4];
      [discriminate|].
    destruct (ReportingFile.save d2 _ w4) as [[e|d3] w5]; [discriminate|].
    now intros [= <- _].
  - destruct (request_credential_body _ _ _ _ _ _ _ _ _ Hbody) as (Hcr & Hpr & Htop).
    split; [exact Hcr|]. split; [|split; [exact Hpr | exact Htop]].
    change (status_of d' task_id = status_of d0 task_id).
    rewrite (op_body_status _ _ _ _ _ task_id Hbody). cbn. now rewrite String.eqb_refl.
Qed.

(** X10.  The progress log only grows.  Over every sequence of the agent's
    reporting operations, on a reporting file that loads, the progress log
    of every task afterwards is its log of before followed by new entries,
    at most one for each operation called for the task: no entry is removed,
    changed or reordered. *)
Theorem progress_log_only_grows
    (self : TaskInterface.t) (ops : list report_op) (t : string)
    (w w0 : World) (d0 : ReportingFile.t) :
  ReportingFile.load (TaskInterface.reporting_path self) w = (inr d0, w0) ->
  exists w1 w1' d1 added,
    run_ops self ops w = (inr tt, w1)
    /\ ReportingFile.load (TaskInterface.reporting_path self) w1 = (inr d1, w1')
    /\ TaskReport.progress (report_of d1 t) = TaskReport.progress (report_of d0 t) ++ added
    /\ (length added
        <= length (List.filter (fun op => String.eqb t (op_task op)) ops))%nat.
Proof.
  intros Hload.
  destruct (run_ops_run self ops _ _ _ Hload) as (w1 & w1' & d1 & Hrun & Hload1 & _ & _ & Hpr).
  destruct (Hpr t) as (added & Hp & Hlen).
  exists w1, w1', d1, added. auto.
Qed.

End ReportingDocument.

Lemma initialize_agent_resets_witness :
  exists w1 : World (C := data_codec),
    TaskInterface.initialize_agent ws_example "backend" "backend-1" world_list_report
    = (inr tt, w1)
    /\ TaskInterface.read_report ws_example w1
       = (inr (ReportingFile.mk 1 "backend" "backend-1" 1 "idle" ∅), w1)
    /\ forall task_id, TaskInterface.get_task_status ws_example task_id w1 = (inr None, w1).
Proof.
  exact (initialize_agent_resets (L := data_codec_laws) ws_example "backend" "backend-1"
           world_list_report).
Defined.

Lemma request_credential_appends_witness :
  ReportingFile.load (TaskInterface.reporting_path ws_example) empty_world
  = (inr report0, world1)
  /\ exists (w1 : World (C := data_codec)) d1,
    TaskInterface.request_credential ws_example "0123456789abcdef" "t1" "npm_token"
      "read" "install" empty_world
    = (inr "cred-01234567", w1)
    /\ ReportingFile.load (TaskInterface.reporting_path ws_example) w1 = (inr d1, w1)
    /\ TaskReport.credential_requests (report_of d1 "t1")
       = TaskReport.credential_requests (report_of report0 "t1")
         ++ [CredentialRequestRecord.mk "cred-01234567" "npm_token" "read" "install"
               "pending" 1]
    /\ status_of d1 "t1" = status_of report0 "t1"
    /\ TaskReport.progress (report_of d1 "t1") = TaskReport.progress (report_of report0 "t1")
    /\ ReportingFile.status d1 = ReportingFile.status report0.
Proof.
  split; [reflexivity|].
  exact (request_credential_appends (L := data_codec_laws) ws_example
           "0123456789abcdef" "t1" "npm_token" "read" "install"
           empty_world world1 report0 eq_refl).
Defined.

Lemma progress_log_only_grows_witness :
  ReportingFile.load (TaskInterface.reporting_path ws_example) empty_world
  = (inr report0, world1)
  /\ exists (w1 w1' : World (C := data_codec)) d1 added,
    run_ops ws_example
      [UpdateStatus "t1" "received" (Some "Task acknowledged") None;
       SetTaskFailed "t1" "boom"] empty_world = (inr tt, w1)
    /\ ReportingFile.load (TaskInterface.reporting_path ws_example) w1 = (inr d1, w1')
    /\ TaskReport.progress (report_of d1 "t1")
       = TaskReport.progress (report_of report0 "t1") ++ added
    /\ (length added <= 2)%nat.
Proof.
  split; [reflexivity|].
  exact (progress_log_only_grows (L := data_codec_laws) ws_example
           [UpdateStatus "t1" "received" (Some "Task acknowledged") None;
            SetTaskFailed "t1" "boom"] "t1" empty_world world1 report0 eq_refl).
Defined.

(** ** The execution of a task *)

Section Summary.
Import Py AgentLoop.

Lemma to_string_nonempty (c : ascii) (s : str) : to_string (c :: s) <> "".
Proof. discriminate. Qed.

Lemma to_string_length (s : str) : String.length (to_string s) = length s.
Proof.
  unfold to_string. induction s as [|c s IH]; [reflexivity|].
  cbn [string_of_list_ascii String.length length]. now rewrite IH.
Qed.

Lemma first200_spec (line : str) :
  line <> [] ->
  to_string (first200 line) <> ""
  /\ (String.length (to_string (first200 line)) <= 200)%nat.
Proof.
  intros Hne. split.
  - destruct line as [|c line]; [contradiction|]. apply to_string_nonempty.
  - rewrite to_string_length. unfold first200. rewrite length_take. lia.
Qed.

(** The line that [_extract_summary] takes, when there is one. *)
Lemma extract_summary_line (output : string) :
  _extract_summary output = "Task completed"
  \/ exists line,
       In line (split_nl (of_string output))
       /\ strip line <> []
       /\ _extract_summary output = to_string (first200 (strip line)).
Proof.
  unfold _extract_summary.
  match goal with
  | |- context [List.filter ?f (List.map strip ?l)] =>
      set (lines := List.filter f (List.map strip l))
  end.
  assert (Hlines : forall l, In l lines ->
            exists line, In line (split_nl (of_string output)) /\ strip line <> []
                         /\ l = strip line).
  { intros l Hl. apply filter_In in Hl as [Hl Hne].
    apply in_map_iff in Hl as (line & <- & Hin). exists line.
    split; [exact Hin|]. split; [|reflexivity]. now destruct (strip line). }
  destruct lines as [|l0 lines'] eqn:Heq; [now left|]. right. rewrite <- Heq in *.
  match goal with
  | |- context [List.find ?f (rev lines)] =>
      destruct (List.find f (rev lines)) as [line|] eqn:Hfind
  end.
  - apply find_some in Hfind as [Hin _]. apply in_rev in Hin.
    destruct (Hlines _ Hin) as (line0 & H1 & H2 & ->). now exists line0.
  - assert (Hin : In (List.last lines []) lines).
    { rewrite Heq. clear. revert l0. induction lines' as [|x l IH]; intros l0.
      - now left.
      - right. apply IH. }
    destruct (Hlines _ Hin) as (line0 & H1 & H2 & Hl). exists line0. now rewrite Hl.
Qed.

(** X11.  [_extract_summary] never returns an empty string and never more
    than 200 characters: the result is ["Task completed"] or the first 200
    characters of a stripped line of the output that is not blank.  So in
    [_handle_success] the alternative of [summary or ...] is never taken:
    the summary recorded is the extracted one, whatever the task's title.
    An output without a line that is not blank gives ["Task completed"]. *)
Theorem extract_summary_never_empty (output : string) :
  _extract_summary output <> ""
  /\ (String.length (_extract_summary output) <= 200)%nat
  /\ (_extract_summary output = "Task completed"
      \/ exists line,
           In line (split_nl (of_string output))
           /\ _extract_summary output = to_string (first200 (strip line)))
  /\ (forall title,
        (if String.eqb (_extract_summary output) "" then "Completed: " +:+ title
         else _extract_summary output) = _extract_summary output)
  /\ (Forall (fun line => strip line = []) (split_nl (of_string output)) ->
      _extract_summary output = "Task completed").
Proof.
  assert (Hne : _extract_summary output <> ""
                /\ (String.length (_extract_summary output) <= 200)%nat).
  { destruct (extract_summary_line output) as [->|(line & _ & Hl & ->)].
    - split; [discriminate | cbn; lia].
    - now apply first200_spec. }
  destruct Hne as [Hne Hlen]. split; [exact Hne|]. split; [exact Hlen|].
  split; [|split].
  - destruct (extract_summary_line output) as [H|(line & H1 & _ & H2)];
      [now left | right; now exists line].
  - intros title. destruct (String.eqb_spec (_extract_summary output) "");
      [contradiction | reflexivity].
  - intros Hblank. unfold _extract_summary. cbv zeta.
    match goal with
    | |- context [List.filter ?f (List.map strip ?l)] =>
        assert (Hnil : List.filter f (List.map strip l) = [])
    end.
    { induction Hblank as [|line ls Hline _ IH]; [reflexivity|].
      cbn [List.map List.filter]. rewrite Hline. exact IH. }
    now rewrite Hnil.
Qed.

Lemma extract_summary_or (output title : string) :
  (if String.eqb (_extract_summary output) "" then "Completed: " +:+ title
   else _extract_summary output) = _extract_summary output.
Proof.
  destruct (String.eqb_spec (_extract_summary output) "") as [He|]; [|reflexivity].
  exfalso. destruct (extract_summary_line output) as [H|(line & _ & Hl & H)].
  - rewrite H in He. discriminate He.
  - rewrite H in He. now apply (first200_spec _ Hl).
Qed.

End Summary.

Section Execution.
Context {C : Codec} {L : CodecLaws C}.
Import AgentLoop.

(** The execution of a task on a reporting file that loads, up to its last
    operation: the three updates leave the other tasks as they were, and the
    last operation runs on the document they left. *)
Lemma execute_task_steps (self : AgentLoop.t) (task : TaskDefinition.t)
    (cli : exn + CLIResult.t) (files_changed : list FileChange.t)
    (commits : list CommitRecord.t) (w w0 : World) (d0 : ReportingFile.t) :
  ReportingFile.load (TaskInterface.reporting_path (task_interface self)) w = (inr d0, w0) ->
  exists w3 d3 d4 k w4,
    (forall t, t <> TaskDefinition.id task ->
       ReportingFile.tasks d3 !! t = ReportingFile.tasks d0 !! t)
    /\ op_body (final_op self task cli files_changed commits) d3 w3
       = (inr d4, advance k w3)
    /\ _execute_task self task cli files_changed commits w = (inr tt, w4)
    /\ ReportingFile.load (TaskInterface.reporting_path (task_interface self)) w4
       = (inr (ReportingFile.set_updated_at (clock w3 (k + ticks w3)%nat) d4), w4).
Proof.
  intros Hload. rewrite (execute_task_run_ops _ _ _ _ _ _ _ _ Hload).
  set (ti := task_interface self) in *.
  set (updates :=
         [ UpdateStatus (TaskDefinition.id task) "received" (Some "Task acknowledged") None;
           UpdateStatus (TaskDefinition.id task) "planning"
             (Some "Analyzing task requirements") None;
           UpdateStatus (TaskDefinition.id task) "in_progress"
             (Some "Starting implementation") None ]).
  change (execute_ops self task cli files_changed commits)
    with (updates ++ [final_op self task cli files_changed commits]).
  destruct (run_ops_run ti updates _ _ _ Hload)
    as (w3 & w3' & d3 & Hrun3 & Hload3 & _ & Hoth & _).
  destruct (run_op_run ti (final_op self task cli files_changed commits) _ _ _ Hload3)
    as (d4 & k & w4 & Hbody & Hrun4 & Hload4).
  exists w3', d3, d4, k, w4. split; [|split; [exact Hbody|split; [|exact Hload4]]].
  - intros t Hne. apply Hoth. repeat constructor; exact Hne.
  - rewrite run_ops_app, Hrun3. cbn [run_ops]. unfold bind. now rewrite Hrun4.
Qed.

(** The execution of a task on a reporting file that loads returns, the
    file loads afterwards, and the reports of the other tasks are as they
    were. *)
Lemma execute_task_others (self : AgentLoop.t) (task : TaskDefinition.t)
    (cli : exn + CLIResult.t) (files_changed : list FileChange.t)
    (commits : list CommitRecord.t) (w w0 : World) (d0 : ReportingFile.t) :
  ReportingFile.load (TaskInterface.reporting_path (task_interface self)) w = (inr d0, w0) ->
  exists w1 d1,
    _execute_task self task cli files_changed commits w = (inr tt, w1)
    /\ ReportingFile.load (TaskInterface.reporting_path (task_interface self)) w1
       = (inr d1, w1)
    /\ forall t, t <> TaskDefinition.id task ->
         ReportingFile.tasks d1 !! t = ReportingFile.tasks d0 !! t.
Proof.
  intros Hload.
  destruct (execute_task_steps self task cli files_changed commits _ _ _ Hload)
    as (w3 & d3 & d4 & k & w4 & Hoth & Hbody & Hrun & Hload4).
  exists w4. eexists. split; [exact Hrun|]. split; [exact Hload4|].
  intros t Hne. rewrite <- (Hoth t Hne).
  apply (op_body_other _ _ _ _ _ t Hbody).
  now rewrite (proj1 (final_op_task self task cli files_changed commits)).
Qed.

(** X12.  What [_execute_task] leaves.  On a reporting file that loads it
    never raises, and afterwards the task's report has the status completed
    if the CLI succeeded, blocked if it failed and its output asks for a
    handoff, failed otherwise, and so if the runner raised; the agent's
    status is idle, and the reports of the other tasks are untouched.  The
    report holds the result: on success the summary extracted from the
    output, the changed files and the commits; on a handoff the reason
    [recommend_handoff:] with the suggested CLI; on a failure the error, or
    ["Unknown error"] when the CLI gave none. *)
Theorem execute_task_outcome (self : AgentLoop.t) (task : TaskDefinition.t)
    (cli : exn + CLIResult.t) (files_changed : list FileChange.t)
    (commits : list CommitRecord.t) (w w0 : World) (d0 : ReportingFile.t) :
  ReportingFile.load (TaskInterface.reporting_path (task_interface self)) w = (inr d0, w0) ->
  exists w1 d1,
    _execute_task self task cli files_changed commits w = (inr tt, w1)
    /\ ReportingFile.load (TaskInterface.reporting_path (task_interface self)) w1
       = (inr d1, w1)
    /\ status_of d1 (TaskDefinition.id task) = final_status cli
    /\ ReportingFile.status d1 = "idle"
    /\ (forall t, t <> TaskDefinition.id task ->
          ReportingFile.tasks d1 !! t = ReportingFile.tasks d0 !! t)
    /\ match cli with
       | inl e =>
           TaskReport.error (report_of d1 (TaskDefinition.id task)) = Some (str_exn e)
       | inr result =>
           if CLIResult.success result then
             TaskReport.summary (report_of d1 (TaskDefinition.id task))
             = Some (_extract_summary (CLIResult.output result))
             /\ TaskReport.changes_summary (report_of d1 (TaskDefinition.id task))
                = ["Implemented " +:+ TaskDefinition.title task]
             /\ TaskReport.files_modified (report_of d1 (TaskDefinition.id task))
                = files_changed
             /\ TaskReport.commits (report_of d1 (TaskDefinition.id task)) = commits
           else if CLIResult.needs_handoff result then
             TaskReport.blocked_reason (report_of d1 (TaskDefinition.id task))
             = Some ("recommend_handoff:" +:+ _suggest_alternative_cli self)
           else
             TaskReport.error (report_of d1 (TaskDefinition.id task))
             = Some (match CLIResult.error result with
                     | None | Some EmptyString => "Unknown error"
                     | Some e => e
                     end)
       end.
Proof.
  intros Hload.
  destruct (execute_task_steps self task cli files_changed commits _ _ _ Hload)
    as (w3 & d3 & d4 & k & w4 & Hoth & Hbody & Hrun & Hload4).
  exists w4. eexists. split; [exact Hrun|]. split; [exact Hload4|].
  set (id := TaskDefinition.id task) in *.
  assert (Hothers : forall t, t <> id ->
            ReportingFile.tasks d4 !! t = ReportingFile.tasks d0 !! t).
  { intros t Hne. rewrite <- (Hoth t Hne).
    apply (op_body_other _ _ _ _ _ t Hbody).
    now rewrite (proj1 (final_op_task self task cli files_changed commits)). }
  pose proof (op_body_status _ _ _ _ _ id Hbody) as Hst.
  rewrite (proj1 (final_op_task self task cli files_changed commits)) in Hst.
  fold id in Hst. rewrite String.eqb_refl in Hst.
  change (status_of (ReportingFile.set_updated_at _ d4) id) with (status_of d4 id).
  change (ReportingFile.status (ReportingFile.set_updated_at _ d4))
    with (ReportingFile.status d4).
  change (report_of (ReportingFile.set_updated_at _ d4) id) with (report_of d4 id).
  revert Hbody Hst. unfold final_op, final_status. fold id.
  destruct cli as [e|result].
  - intros Hbody Hst. destruct (set_task_failed_body _ _ _ _ _ _ Hbody) as (Htop & He & _).
    auto.
  - destruct (CLIResult.success result); [|destruct (CLIResult.needs_handoff result)];
      intros Hbody Hst.
    + rewrite extract_summary_or in Hbody.
      destruct (set_task_completed_body _ _ _ _ _ _ _ _ _ Hbody)
        as (Htop & H1 & H2 & H3 & H4 & _).
      auto 8.
    + destruct (set_task_blocked_body _ _ _ _ _ _ Hbody) as (Htop & He & _). auto.
    + destruct (set_task_failed_body _ _ _ _ _ _ Hbody) as (Htop & He & _). auto.
Qed.

(** After the execution of a task its report is completed, failed or
    blocked. *)
Lemma execute_task_done (self : AgentLoop.t) (task : TaskDefinition.t)
    (cli : exn + CLIResult.t) (files_changed : list FileChange.t)
    (commits : list CommitRecord.t) (w w0 : World) (d0 : ReportingFile.t) :
  ReportingFile.load (TaskInterface.reporting_path (task_interface self)) w = (inr d0, w0) ->
  exists w1 d1,
    _execute_task self task cli files_changed commits w = (inr tt, w1)
    /\ ReportingFile.load (TaskInterface.reporting_path (task_interface self)) w1
       = (inr d1, w1)
    /\ is_done (status_of d1 (TaskDefinition.id task)) = true.
Proof.
  intros Hload.
  destruct (execute_task_steps self task cli files_changed commits _ _ _ Hload)
    as (w3 & d3 & d4 & k & w4 & _ & Hbody & Hrun & Hload4).
  exists w4. eexists. split; [exact Hrun|]. split; [exact Hload4|].
  change (is_done (status_of d4 (TaskDefinition.id task)) = true).
  rewrite (op_body_status _ _ _ _ _ _ Hbody).
  destruct (final_op_task self task cli files_changed commits) as (-> & s & -> & Hs).
  now rewrite String.eqb_refl.
Qed.

(** X13.  A task is executed once.  After [_execute_task] on a reporting
    file that loads, the selector does not return the task again, nor any
    task of its id, whatever list of tasks it is given, although the task
    keeps the status assigned in the tasking file. *)
Theorem executed_task_is_not_selected_again (self : AgentLoop.t) (task : TaskDefinition.t)
    (cli : exn + CLIResult.t) (files_changed : list FileChange.t)
    (commits : list CommitRecord.t) (w w0 : World) (d0 : ReportingFile.t) :
  ReportingFile.load (TaskInterface.reporting_path (task_interface self)) w = (inr d0, w0) ->
  exists w1 d1,
    _execute_task self task cli files_changed commits w = (inr tt, w1)
    /\ TaskInterface.read_report (task_interface self) w1 = (inr d1, w1)
    /\ forall tasks t,
         _select_next_task tasks d1 = inr (Some t) ->
         TaskDefinition.id t <> TaskDefinition.id task.
Proof.
  intros Hload.
  destruct (execute_task_done self task cli files_changed commits _ _ _ Hload)
    as (w1 & d1 & Hrun & Hload1 & Hdone).
  exists w1, d1. split; [exact Hrun|]. split; [exact Hload1|].
  intros tasks t Hsel Hid. apply selected_task_not_done in Hsel.
  rewrite Hid in Hsel. congruence.
Qed.

(** X14.  An agent whose coding CLI is not one of the supported ones, or
    is not installed, fails every task it executes: the runner raises
    [ValueError] for the unknown name, or returns a result without success,
    and the task's report gets the status failed and, as its error, the
    message that names the CLI. *)
Theorem unusable_cli_fails_the_task (self : AgentLoop.t) (task : TaskDefinition.t)
    (available : bool) (timeout : Z) (o : BaseCLI.outcome)
    (files_changed : list FileChange.t) (commits : list CommitRecord.t)
    (w w0 : World) (d0 : ReportingFile.t) :
  ReportingFile.load (TaskInterface.reporting_path (task_interface self)) w = (inr d0, w0) ->
  CLIRunner.lookup_cli CLIRunner.SUPPORTED_CLIS (coding_cli self) = None
  \/ available = false ->
  exists w1 d1,
    _execute_task self task (CLIRunner.run (coding_cli self) available timeout o)
      files_changed commits w = (inr tt, w1)
    /\ ReportingFile.load (TaskInterface.reporting_path (task_interface self)) w1
       = (inr d1, w1)
    /\ status_of d1 (TaskDefinition.id task) = "failed"
    /\ TaskReport.error (report_of d1 (TaskDefinition.id task))
       = Some (match CLIRunner.lookup_cli CLIRunner.SUPPORTED_CLIS (coding_cli self) with
               | None =>
                   "Unknown CLI: " +:+ coding_cli self
                   +:+ ". Supported: claude-code, aider, codex, gemini, continue, cursor"
               | Some _ => coding_cli self +:+ " CLI is not installed or not in PATH"
               end).
Proof.
  intros Hload Hcli.
  destruct (execute_task_steps self task
              (CLIRunner.run (coding_cli self) available timeout o)
              files_changed commits _ _ _ Hload)
    as (w3 & d3 & d4 & k & w4 & _ & Hbody & Hrun & Hload4).
  exists w4. eexists. split; [exact Hrun|]. split; [exact Hload4|].
  change (status_of (ReportingFile.set_updated_at _ d4) (TaskDefinition.id task))
    with (status_of d4 (TaskDefinition.id task)).
  change (report_of (ReportingFile.set_updated_at _ d4) (TaskDefinition.id task))
    with (report_of d4 (TaskDefinition.id task)).
  pose proof (op_body_status _ _ _ _ _ (TaskDefinition.id task) Hbody) as Hst.
  revert Hbody Hst. unfold final_op, CLIRunner.run.
  destruct (CLIRunner.lookup_cli CLIRunner.SUPPORTED_CLIS (coding_cli self))
    as [[name binary]|].
  - destruct Hcli as [Hcli| ->]; [discriminate Hcli|]. cbn [negb CLIResult.make
      CLIResult.success CLIResult.needs_handoff CLIResult.error op_task op_status].
    rewrite String.eqb_refl. intros Hbody Hst. split; [exact Hst|].
    destruct (set_task_failed_body _ _ _ _ _ _ Hbody) as (_ & He & _).
    rewrite He. f_equal. now destruct (coding_cli self).
  - cbn [op_task op_status str_exn]. rewrite String.eqb_refl. intros Hbody Hst.
    split; [exact Hst|].
    destruct (set_task_failed_body _ _ _ _ _ _ Hbody) as (_ & He & _). exact He.
Qed.

End Execution.

(** An agent of the examples, and one whose CLI is not a supported one. *)
Lemma execute_task_outcome_witness :
  ReportingFile.load
    (TaskInterface.reporting_path
       (AgentLoop.task_interface (AgentLoop.mk ["ws"] "backend" "backend-1" "aider")))
    empty_world
  = (inr report0, world1)
  /\ exists (w1 : World (C := data_codec)) d1,
    AgentLoop._execute_task (AgentLoop.mk ["ws"] "backend" "backend-1" "aider") task_a
      (inr (CLIResult.mk false "I am stuck" None [] true 0)) [] [] empty_world
    = (inr tt, w1)
    /\ ReportingFile.load (TaskInterface.reporting_path ws_example) w1 = (inr d1, w1)
    /\ status_of d1 "a" = "blocked"
    /\ ReportingFile.status d1 = "idle"
    /\ (forall t, t <> "a" -> ReportingFile.tasks d1 !! t = ReportingFile.tasks report0 !! t)
    /\ TaskReport.blocked_reason (report_of d1 "a") = Some "recommend_handoff:claude-code".
Proof.
  split; [reflexivity|].
  exact (execute_task_outcome (L := data_codec_laws)
           (AgentLoop.mk ["ws"] "backend" "backend-1" "aider") task_a
           (inr (CLIResult.mk false "I am stuck" None [] true 0)) [] []
           empty_world world1 report0 eq_refl).
Defined.

Lemma executed_task_is_not_selected_again_witness :
  ReportingFile.load
    (TaskInterface.reporting_path
       (AgentLoop.task_interface (AgentLoop.mk ["ws"] "backend" "backend-1" "aider")))
    empty_world
  = (inr report0, world1)
  /\ exists (w1 : World (C := data_codec)) d1,
    AgentLoop._execute_task (AgentLoop.mk ["ws"] "backend" "backend-1" "aider") task_a
      (inr (CLIResult.mk true "done" None [] false 0)) [] [] empty_world
    = (inr tt, w1)
    /\ TaskInterface.read_report ws_example w1 = (inr d1, w1)
    /\ forall tasks t,
         AgentLoop._select_next_task tasks d1 = inr (Some t) ->
         TaskDefinition.id t <> TaskDefinition.id task_a.
Proof.
  split; [reflexivity|].
  exact (executed_task_is_not_selected_again (L := data_codec_laws)
           (AgentLoop.mk ["ws"] "backend" "backend-1" "aider") task_a
           (inr (CLIResult.mk true "done" None [] false 0)) [] []
           empty_world world1 report0 eq_refl).
Defined.

Lemma unusable_cli_fails_the_task_witness :
  ReportingFile.load
    (TaskInterface.reporting_path
       (AgentLoop.task_interface (AgentLoop.mk ["ws"] "backend" "backend-1" "copilot")))
    empty_world
  = (inr report0, world1)
  /\ (CLIRunner.lookup_cli CLIRunner.SUPPORTED_CLIS "copilot" = None \/ true = false)
  /\ exists (w1 : World (C := data_codec)) d1,
    AgentLoop._execute_task (AgentLoop.mk ["ws"] "backend" "backend-1" "copilot") task_a
      (CLIRunner.run "copilot" true 3600 BaseCLI.NotFound) [] [] empty_world
    = (inr tt, w1)
    /\ ReportingFile.load (TaskInterface.reporting_path ws_example) w1 = (inr d1, w1)
    /\ status_of d1 "a" = "failed"
    /\ TaskReport.error (report_of d1 "a")
       = Some "Unknown CLI: copilot. Supported: claude-code, aider, codex, gemini, continue, cursor".
Proof.
  split; [reflexivity|]. split; [now left|].
  exact (unusable_cli_fails_the_task (L := data_codec_laws)
           (AgentLoop.mk ["ws"] "backend" "backend-1" "copilot") task_a
           true 3600 BaseCLI.NotFound [] [] empty_world world1 report0 eq_refl
           (or_introl eq_refl)).
Defined.

(** ** The loop of the agent *)

Section RunLoop.
Context {C : Codec} {L : CodecLaws C}.
Import AgentLoop.

(** A pass up to the selection, on a workspace whose two files hold
    documents. *)
Lemma run_pass_selects (self : AgentLoop.t) (cli : exn + CLIResult.t)
    (files_changed : list FileChange.t) (commits : list CommitRecord.t)
    (w : World) (dt : TaskingFile.t) (dr : ReportingFile.t) :
  files w !! TaskInterface.tasking_path (task_interface self)
  = Some (yaml_dump (TaskingFile.model_dump dt)) ->
  files w !! TaskInterface.reporting_path (task_interface self)
  = Some (yaml_dump (ReportingFile.model_dump dr)) ->
  run_pass self cli files_changed commits w
  = match _select_next_task (pending_of dt) dr with
    | inr (Some task) =>
        try_except (_execute_task self task cli files_changed commits)
          (fun _ => ret tt) w
    | _ => (inr tt, w)
    end.
Proof.
  intros Ht Hr. unfold run_pass, try_except, TaskInterface.read_tasks,
    TaskInterface.read_report.
  unfold bind at 1. rewrite (TaskingFile_load_dump _ _ _ Ht).
  unfold bind at 1. rewrite (ReportingFile_load_dump _ _ _ Hr).
  unfold bind at 1. fold (pending_of dt).
  destruct (_select_next_task (pending_of dt) dr) as [e|[task|]]; reflexivity.
Qed.

(** X15.  A pass that selects no task writes nothing.  On a workspace
    whose two files hold documents, if the selector returns no task or
    raises, the pass returns without an exception and leaves the world as it
    was: no file-system call, no file changed, the clock not read. *)
Theorem idle_pass_writes_nothing (self : AgentLoop.t) (cli : exn + CLIResult.t)
    (files_changed : list FileChange.t) (commits : list CommitRecord.t)
    (w : World) (dt : TaskingFile.t) (dr : ReportingFile.t) :
  files w !! TaskInterface.tasking_path (task_interface self)
  = Some (yaml_dump (TaskingFile.model_dump dt)) ->
  files w !! TaskInterface.reporting_path (task_interface self)
  = Some (yaml_dump (ReportingFile.model_dump dr)) ->
  (forall task, _select_next_task (pending_of dt) dr <> inr (Some task)) ->
  run_pass self cli files_changed commits w = (inr tt, w).
Proof.
  intros Ht Hr Hsel. rewrite (run_pass_selects _ _ _ _ _ _ _ Ht Hr).
  destruct (_select_next_task (pending_of dt) dr) as [e|[task|]]; try reflexivity.
  now destruct (Hsel task).
Qed.

(** With no report at all, the selection raises as soon as a task has a
    dependency. *)
Lemma eligible_tasks_no_reports (tasks : list TaskDefinition.t) :
  Exists (fun t => TaskDefinition.depends_on t <> []) tasks ->
  eligible_tasks tasks ∅ = inl AttributeError.
Proof.
  induction 1 as [t tasks Ht|t tasks _ IH]; cbn [eligible_tasks];
    rewrite lookup_empty.
  - destruct (TaskDefinition.depends_on t) as [|dep deps]; [contradiction|].
    cbn [deps_met]. now rewrite lookup_empty.
  - destruct (TaskDefinition.depends_on t) as [|dep deps].
    + now rewrite IH.
    + cbn [deps_met]. now rewrite lookup_empty.
Qed.

Lemma run_passes_idle (self : AgentLoop.t) (outcomes : list pass_outcome) (w : World) :
  (forall cli files_changed commits,
     run_pass self cli files_changed commits w = (inr tt, w)) ->
  run_passes self outcomes w = (inr tt, w).
Proof.
  intros Hpass. induction outcomes as [|[[cli fc] cm] outcomes IH]; [reflexivity|].
  cbn [run_passes]. unfold bind. now rewrite Hpass.
Qed.

(** X16.  One dependency stalls the agent.  If the tasking file of a
    workspace holds a document in which some assigned task has a dependency,
    then [run], whatever the number of passes of its loop and whatever the
    CLI would do, executes no task: it initializes the reporting file, whose
    document has no report, every pass raises in the selection, which the
    loop catches, and at the end the only file-system calls made are the
    three of the initialization and the reporting file holds no report. *)
Theorem dependency_stalls_the_agent (self : AgentLoop.t) (outcomes : list pass_outcome)
    (w : World) (dt : TaskingFile.t) (t : TaskDefinition.t) :
  files w !! TaskInterface.tasking_path (task_interface self)
  = Some (yaml_dump (TaskingFile.model_dump dt)) ->
  In t (TaskingFile.tasks dt) ->
  TaskDefinition.status t = "assigned" ->
  TaskDefinition.depends_on t <> [] ->
  exists w1 ts c,
    run self outcomes w = (inr tt, w1)
    /\ TaskInterface.read_report (task_interface self) w1
       = (inr (ReportingFile.mk 1 (agent_type self) (agent_id self) ts "idle" ∅), w1)
    /\ syscalls w1
       = syscalls w
         ++ save_ops (TaskInterface.reporting_path (task_interface self))
              (Path.joinpath (TaskInterface.cloud_code_dir (task_interface self))
                 "reporting.tmp") c.
Proof.
  intros Ht Hin Hst Hdeps. set (ti := task_interface self) in *.
  set (d0 := ReportingFile.mk 1 (agent_type self) (agent_id self)
               (clock w (S (ticks w))) "idle" ∅).
  set (c := yaml_dump (ReportingFile.model_dump d0)).
  set (w1 := after_save (mkWorld (files w) (syscalls w) (S (ticks w)) (clock w))
               (save_ops (TaskInterface.reporting_path ti)
                  (Path.joinpath (TaskInterface.cloud_code_dir ti) "reporting.tmp") c)).
  assert (Hinit : TaskInterface.initialize_agent ti (agent_type self) (agent_id self) w
                  = (inr tt, w1)).
  { unfold TaskInterface.initialize_agent.
    unfold bind at 1. unfold utcnow at 1. unfold bind at 1.
    rewrite (ReportingFile_save_run _ _ _ _
               (with_suffix_reporting (TaskInterface.cloud_code_dir ti))).
    reflexivity. }
  assert (Hr1 : files w1 !! TaskInterface.reporting_path ti
                = Some (yaml_dump (ReportingFile.model_dump d0)))
    by apply after_save_target.
  assert (Ht1 : files w1 !! TaskInterface.tasking_path ti
                = Some (yaml_dump (TaskingFile.model_dump dt))).
  { unfold w1. rewrite after_save_other; [exact Ht| |].
    - intros H. apply joinpath_inj in H. discriminate H.
    - intros H. apply joinpath_inj in H. discriminate H. }
  assert (Hraise : _select_next_task (pending_of dt) d0 = inl AttributeError).
  { unfold _select_next_task. cbn [ReportingFile.tasks d0].
    rewrite eligible_tasks_no_reports; [reflexivity|].
    apply Exists_exists. exists t. split; [|exact Hdeps].
    apply list_elem_of_In. unfold pending_of. apply filter_In.
    split; [exact Hin|]. now apply String.eqb_eq. }
  exists w1, (clock w (S (ticks w))), c. split; [|split].
  - unfold run. fold ti. unfold bind. rewrite Hinit.
    apply run_passes_idle. intros cli fc cm.
    rewrite (run_pass_selects _ _ _ _ _ _ _ Ht1 Hr1), Hraise. reflexivity.
  - apply ReportingFile_load_dump, Hr1.
  - reflexivity.
Qed.

(** X17.  A task that is not assigned is not executed.  On a workspace
    whose two files hold documents, a pass of the loop returns without an
    exception and leaves the report of every task id as it was, if the
    tasking document has no task of that id with the status assigned: so for
    a task that was cancelled. *)
Theorem unassigned_task_is_not_executed (self : AgentLoop.t) (cli : exn + CLIResult.t)
    (files_changed : list FileChange.t) (commits : list CommitRecord.t)
    (w : World) (dt : TaskingFile.t) (dr : ReportingFile.t) (i : string) :
  files w !! TaskInterface.tasking_path (task_interface self)
  = Some (yaml_dump (TaskingFile.model_dump dt)) ->
  files w !! TaskInterface.reporting_path (task_interface self)
  = Some (yaml_dump (ReportingFile.model_dump dr)) ->
  Forall (fun t => TaskDefinition.id t = i -> TaskDefinition.status t <> "assigned")
    (TaskingFile.tasks dt) ->
  exists w1 d1,
    run_pass self cli files_changed commits w = (inr tt, w1)
    /\ TaskInterface.read_report (task_interface self) w1 = (inr d1, w1)
    /\ ReportingFile.tasks d1 !! i = ReportingFile.tasks dr !! i.
Proof.
  intros Ht Hr Hi. rewrite (run_pass_selects _ _ _ _ _ _ _ Ht Hr).
  pose proof (ReportingFile_load_dump _ _ _ Hr) as Hload.
  destruct (_select_next_task (pending_of dt) dr) as [e|[task|]] eqn:Hsel;
    [now exists w, dr| |now exists w, dr].
  destruct (execute_task_others self task cli files_changed commits _ _ _ Hload)
    as (w1 & d1 & Hrun & Hload1 & Hoth).
  exists w1, d1. split; [|split; [exact Hload1|]].
  - unfold try_except. now rewrite Hrun.
  - apply Hoth. intros ->.
    apply select_next_task_sound in Hsel as (Hin & _).
    unfold pending_of in Hin.
    apply filter_In in Hin as [Hin Hst]. apply String.eqb_eq in Hst.
    rewrite Forall_forall in Hi. apply (Hi task); [now apply list_elem_of_In| |exact Hst].
    reflexivity.
Qed.

End RunLoop.

Lemma idle_pass_writes_nothing_witness :
  files (world_with_tasks []) !! TaskInterface.tasking_path ws_example
  = Some (yaml_dump (Codec := data_codec)
           (TaskingFile.model_dump (C := data_codec) (tasking_of [])))
  /\ AgentLoop.run_pass agent_example (inl FileNotFoundError) [] [] (world_with_tasks [])
     = (inr tt, world_with_tasks []).
Proof.
  split; [reflexivity|].
  apply (idle_pass_writes_nothing (L := data_codec_laws) agent_example
           (inl FileNotFoundError) [] [] (world_with_tasks []) (tasking_of []) report0);
    [reflexivity | reflexivity | intros task; discriminate].
Defined.

Lemma dependency_stalls_the_agent_witness :
  files (world_with_tasks [task_a; task_b]) !! TaskInterface.tasking_path ws_example
  = Some (yaml_dump (Codec := data_codec)
           (TaskingFile.model_dump (C := data_codec) (tasking_of [task_a; task_b])))
  /\ exists (w1 : World (C := data_codec)) ts c,
    AgentLoop.run agent_example
      [(inr (CLIResult.mk true "done" None [] false 0), [], []);
       (inr (CLIResult.mk true "done" None [] false 0), [], [])]
      (world_with_tasks [task_a; task_b]) = (inr tt, w1)
    /\ TaskInterface.read_report ws_example w1
       = (inr (ReportingFile.mk 1 "backend" "backend-1" ts "idle" ∅), w1)
    /\ syscalls w1
       = syscalls (world_with_tasks [task_a; task_b])
         ++ save_ops (TaskInterface.reporting_path ws_example)
              (Path.joinpath (TaskInterface.cloud_code_dir ws_example) "reporting.tmp") c.
Proof.
  split; [reflexivity|].
  apply (dependency_stalls_the_agent (L := data_codec_laws) agent_example _
           (world_with_tasks [task_a; task_b]) (tasking_of [task_a; task_b]) task_b);
    [reflexivity | cbn; auto | reflexivity | discriminate].
Defined.

Lemma unassigned_task_is_not_executed_witness :
  files (world_with_tasks [task_a_cancelled]) !! TaskInterface.tasking_path ws_example
  = Some (yaml_dump (Codec := data_codec)
           (TaskingFile.model_dump (C := data_codec) (tasking_of [task_a_cancelled])))
  /\ exists (w1 : World (C := data_codec)) d1,
    AgentLoop.run_pass agent_example (inr (CLIResult.mk true "done" None [] false 0))
      [] [] (world_with_tasks [task_a_cancelled]) = (inr tt, w1)
    /\ TaskInterface.read_report ws_example w1 = (inr d1, w1)
    /\ ReportingFile.tasks d1 !! "a" = ReportingFile.tasks report0 !! "a".
Proof.
  split; [reflexivity|].
  apply (unassigned_task_is_not_executed (L := data_codec_laws) agent_example
           (inr (CLIResult.mk true "done" None [] false 0)) [] []
           (world_with_tasks [task_a_cancelled]) (tasking_of [task_a_cancelled]) report0 "a");
    [reflexivity | reflexivity | ].
  repeat constructor. intros _. discriminate.
Defined.

(** ** What git reports *)

Section Git.
Import Py AgentLoop.

Lemma change_type_of_cases (status : str) :
  In (change_type_of status) ["created"; "modified"; "deleted"].
Proof.
  unfold change_type_of.
  destruct (contains (of_string "A") status || contains (of_string "?") status);
    [cbn; auto|].
  destruct (contains (of_string "D") status); cbn; auto.
Qed.

(** X18.  The file changes that [_get_changed_files] returns are
    well-formed: each has one of the change types created, modified and
    deleted, and zero lines added and removed, the line counts being never
    filled in.  An exception of git, and an output that is empty or blank,
    give the empty list. *)
Theorem changed_files_are_well_formed (git_status : exn + string) :
  Forall (fun fc => In (FileChange.change_type fc) ["created"; "modified"; "deleted"]
                    /\ FileChange.lines_added fc = 0
                    /\ FileChange.lines_removed fc = 0)
    (_get_changed_files git_status)
  /\ (forall e, _get_changed_files (inl e) = [])
  /\ (forall stdout,
        Forall (fun c => isspace c = true) (of_string stdout) ->
        _get_changed_files (inr stdout) = []).
Proof.
  split; [|split].
  - destruct git_status as [e|stdout]; [constructor|]. cbn [_get_changed_files].
    induction (split_nl (strip (of_string stdout))) as [|line lines IH]; [constructor|].
    cbn [omap list_omap]. destruct line as [|c line]; [exact IH|].
    constructor; [|exact IH]. cbn. split; [apply change_type_of_cases | auto].
  - reflexivity.
  - intros stdout Hblank. cbn [_get_changed_files].
    now rewrite (strip_all_space _ Hblank).
Qed.

(** The first change, for an output that is stripped to a text of the
    first line [line]. *)
Lemma changed_files_head (s line more : str) :
  line <> [] ->
  Forall (fun a => a <> nl) line ->
  strip s = line ++ rstrip (nl :: more) ->
  head (_get_changed_files (inr (to_string s)))
  = Some (FileChange.mk (to_string (strip (drop 3 line)))
            (change_type_of (strip (take 2 line))) 0 0).
Proof.
  intros Hne Hline Hstrip. cbn [_get_changed_files]. rewrite of_to_string, Hstrip.
  destruct (rstrip_head nl more) as [->|(r' & ->)].
  - rewrite app_nil_r, (split_nl_line _ Hline).
    destruct line; [contradiction | reflexivity].
  - rewrite (split_nl_first _ _ Hline).
    destruct line; [contradiction | reflexivity].
Qed.

(** X19.  The path of a file that is modified but not staged loses its
    first character when its line is the first of git's output.  The line
    of such a file starts with a space, [" M path"]; the function strips the
    whole output before it splits it into lines, so the first line loses that
    space, and the path is then read from the fourth character on.  For
    every path without whitespace: if the output starts with the line
    [" M path"], the first change recorded has the path without its first
    character; if it starts with ["M  path"], the line of a staged file, the
    path is whole. *)
Theorem unstaged_first_path_is_truncated (p more : str) :
  p <> [] ->
  Forall (fun c => isspace c = false) p ->
  head (_get_changed_files (inr (to_string (of_string " M " ++ p ++ nl :: more))))
  = Some (FileChange.mk (to_string (drop 1 p)) "modified" 0 0)
  /\ head (_get_changed_files (inr (to_string (of_string "M  " ++ p ++ nl :: more))))
     = Some (FileChange.mk (to_string p) "modified" 0 0).
Proof.
  intros Hne Hp.
  assert (Hnl : Forall (fun a => a <> nl) p) by now apply nonspace_not_nl.
  assert (Hm : forall x r, rstrip (x ++ p ++ r) = x ++ p ++ rstrip r)
    by (intros x r; now apply rstrip_after_word).
  split.
  - rewrite (changed_files_head _ (of_string "M " ++ p) more).
    + destruct p as [|c p]; [contradiction|].
      cbn [of_string list_ascii_of_string app take drop]. rewrite !drop_0.
      rewrite (strip_word p) by now inversion Hp. reflexivity.
    + discriminate.
    + apply Forall_app. split; [repeat constructor; discriminate | exact Hnl].
    + unfold strip. cbn [of_string list_ascii_of_string app lstrip].
      change (isspace " ") with true. change (isspace "M") with false. cbv iota.
      exact (Hm (of_string "M ") (nl :: more)).
  - rewrite (changed_files_head _ (of_string "M  " ++ p) more).
    + cbn [of_string list_ascii_of_string app take drop]. rewrite ?drop_0.
      rewrite (strip_word p Hp). reflexivity.
    + discriminate.
    + apply Forall_app. split; [repeat constructor; discriminate | exact Hnl].
    + unfold strip. cbn [of_string list_ascii_of_string app lstrip].
      change (isspace "M") with false. cbv iota.
      exact (Hm (of_string "M  ") (nl :: more)).
Qed.

End Git.

Lemma unstaged_first_path_is_truncated_witness :
  Forall (fun c => Py.isspace c = false) (Py.of_string "src/app.py")
  /\ head (AgentLoop._get_changed_files
             (inr (Py.to_string (Py.of_string " M " ++ Py.of_string "src/app.py"
                                 ++ Py.nl :: Py.of_string "?? notes.txt"))))
     = Some (FileChange.mk "rc/app.py" "modified" 0 0).
Proof.
  assert (H : Forall (fun c => Py.isspace c = false) (Py.of_string "src/app.py"))
    by (repeat constructor).
  split; [exact H|].
  exact (proj1 (unstaged_first_path_is_truncated (Py.of_string "src/app.py")
                  (Py.of_string "?? notes.txt") ltac:(discriminate) H)).
Defined.

(** ** Tasks from GitHub events *)

Section TaskCreation.
Context {C : Codec}.
Import Py task_creator events.

(** X20.  [create_task_from_issue] never returns a task.  The priority it
    passes to [TaskDefinition] is [priority.value], the integer of the
    [TaskPriority] enum, and the field [priority] is a string: the
    validation fails.  For every issue, whatever its number, title, body and
    labels, the call raises the validation error, and nothing else happens.
    So [handle_issue_opened] returns for an issue without the label
    cloud-code or auto-code, which it skips, and raises for every other. *)
Theorem create_task_from_issue_always_raises
    (uuid_hex : string) (issue_number : Z)
    (title body repo_owner repo_name agent_type : string) (labels : list string)
    (issue : issue) (w : World) :
  create_task_from_issue uuid_hex issue_number title body repo_owner repo_name
    agent_type labels w
  = (inl ValidationError, w)
  /\ handle_issue_opened uuid_hex issue repo_owner repo_name w
     = if mem "cloud-code" (events.labels issue) || mem "auto-code" (events.labels issue)
       then (inl ValidationError, w)
       else (inr [("status", JStr "skipped"); ("reason", JStr "no cloud-code label")], w).
Proof.
  split; [reflexivity|]. unfold handle_issue_opened.
  destruct (mem "cloud-code" (events.labels issue)),
           (mem "auto-code" (events.labels issue)); reflexivity.
Qed.

(** The dict of a command starts with its action. *)
Lemma command_of_action (action : string) (args : str) (command : comment_parser.command) :
  comment_parser.command_of action args = inr (Some command) ->
  exists rest, command = ("action", Some action) :: rest.
Proof.
  unfold comment_parser.command_of.
  destruct (String.eqb action "run").
  { destruct args as [|a args]; [intros [= <-]; eauto|].
    destruct (split (a :: args)); [discriminate | intros [= <-]; eauto]. }
  destruct (String.eqb action "handoff").
  { destruct args as [|a args]; [intros [= <-]; eauto|].
    destruct (split (a :: args)); [discriminate | intros [= <-]; eauto]. }
  destruct (String.eqb action "reject").
  { destruct args; intros [= <-]; eauto. }
  destruct (String.eqb action "config"); [|intros [= <-]; eauto].
  destruct (split_maxsplit1 args) as [|key [|value l]]; intros [= <-]; eauto.
Qed.

Lemma parsed_command_action (comment_body : string) (command : comment_parser.command) :
  comment_parser.parse_cloud_code_command comment_body = inr (Some command) ->
  exists action rest, command = ("action", Some action) :: rest.
Proof.
  unfold comment_parser.parse_cloud_code_command.
  destruct (Re.search _ _ _) as [m|]; [|discriminate].
  intros H. apply command_of_action in H as (rest & ->). eauto.
Qed.

(** X21.  What a comment does.  For every comment in which the parser
    finds a command: if the action is run, [handle_issue_comment] raises the
    validation error of the task's creation, so that no comment starts a
    task; if the action is cancel, status, handoff or retry, it returns the
    answer of that command and changes nothing; for every other action,
    among them approve, reject and config, which the parser reads, it
    answers [unknown_command].  A comment without a command is ignored. *)
Theorem handle_issue_comment_dispatch
    (uuid_hex comment_body : string) (issue : issue) (repo_owner repo_name : string)
    (w : World) :
  match comment_parser.parse_cloud_code_command comment_body with
  | inl e => handle_issue_comment uuid_hex comment_body issue repo_owner repo_name w
             = (inl e, w)
  | inr None =>
      handle_issue_comment uuid_hex comment_body issue repo_owner repo_name w
      = (inr [("status", JStr "ignored"); ("reason", JStr "no command found")], w)
  | inr (Some command) =>
      exists action,
        command_get command "action" = Some action
        /\ handle_issue_comment uuid_hex comment_body issue repo_owner repo_name w
           = if String.eqb action "run" then (inl ValidationError, w)
             else if String.eqb action "cancel" then
               (inr [("status", JStr "cancelled");
                     ("issue_number", JInt (number issue))], w)
             else if String.eqb action "status" then
               (inr [("status", JStr "status_requested");
                     ("issue_number", JInt (number issue))], w)
             else if String.eqb action "handoff" then
               (inr [("status", JStr "handoff_requested");
                     ("issue_number", JInt (number issue));
                     ("target_agent",
                        dump_optional_str (command_get command "target_agent"))], w)
             else if String.eqb action "retry" then
               (inr [("status", JStr "retry_requested");
                     ("issue_number", JInt (number issue))], w)
             else (inr [("status", JStr "unknown_command"); ("command", JStr action)], w)
  end.
Proof.
  unfold handle_issue_comment.
  destruct (comment_parser.parse_cloud_code_command comment_body) as [e|[command|]] eqn:Hp;
    [reflexivity| |reflexivity].
  destruct (parsed_command_action _ _ Hp) as (action & rest & ->).
  exists action. split; [reflexivity|].
  cbn [command_item String.eqb Ascii.eqb Bool.eqb].
  assert (Hdec : forall s, bool_decide (Some action = Some s) = String.eqb action s).
  { intros s. destruct (String.eqb_spec action s) as [->|Hne].
    - now apply bool_decide_eq_true_2.
    - apply bool_decide_eq_false_2. congruence. }
  rewrite !Hdec.
  destruct (String.eqb action "run"); [reflexivity|].
  destruct (String.eqb action "cancel"); [reflexivity|].
  destruct (String.eqb action "status"); [reflexivity|].
  destruct (String.eqb action "handoff"); [reflexivity|].
  destruct (String.eqb action "retry"); reflexivity.
Qed.

End TaskCreation.

Section Labels.
Import Py task_creator events.

Lemma find_first_least {A : Type} (key : A -> Z) (p : A -> bool) (l : list A) (x y : A) :
  StronglySorted (fun a b => key a <= key b) l ->
  List.find p l = Some x -> In y l -> p y = true -> key x <= key y.
Proof.
  induction 1 as [|a l Hs IH Ha]; [discriminate|]. cbn [List.find].
  destruct (p a) eqn:Hpa.
  - intros [= <-] [<-|Hin] _; [lia|]. rewrite Forall_forall in Ha.
    apply Ha. now apply list_elem_of_In.
  - intros Hf [<-|Hin] Hy; [congruence|]. now apply IH.
Qed.

Lemma PRIORITY_LABELS_sorted :
  StronglySorted (fun a b => TaskPriority.value (snd a) <= TaskPriority.value (snd b))
    PRIORITY_LABELS.
Proof. repeat constructor; cbn; lia. Qed.

(** X22.  The priority of an issue is the highest that one of its labels
    names.  Whatever the case of the labels: if a label is one of critical,
    urgent, high, high-priority, medium, low and low-priority, the priority
    returned is at least as high as the one that label stands for (a lower
    value is a higher priority); with no such label it is MEDIUM; and it is
    never BACKGROUND. *)
Theorem priority_is_the_highest_labelled (labels : list string) :
  (forall label priority,
     In (label, priority) PRIORITY_LABELS ->
     mem label (List.map lower_string labels) = true ->
     TaskPriority.value (_get_priority_from_labels labels) <= TaskPriority.value priority)
  /\ (Forall (fun entry => mem (fst entry) (List.map lower_string labels) = false)
        PRIORITY_LABELS ->
      _get_priority_from_labels labels = TaskPriority.MEDIUM)
  /\ _get_priority_from_labels labels <> TaskPriority.BACKGROUND.
Proof.
  unfold _get_priority_from_labels.
  set (p := fun entry : string * TaskPriority.t =>
              mem (fst entry) (List.map lower_string labels)).
  split; [|split].
  - intros label priority Hin Hmem.
    destruct (List.find p PRIORITY_LABELS) as [[l0 p0]|] eqn:Hf.
    + exact (find_first_least (fun e => TaskPriority.value (snd e)) p _ _ (label, priority)
               PRIORITY_LABELS_sorted Hf Hin Hmem).
    + exfalso. apply (find_none _ _ Hf) in Hin. unfold p in Hin. cbn in Hin. congruence.
  - intros Hnone. destruct (List.find p PRIORITY_LABELS) as [[l0 p0]|] eqn:Hf; [|reflexivity].
    apply find_some in Hf as [Hin Hp]. rewrite Forall_forall in Hnone.
    apply list_elem_of_In, Hnone in Hin. unfold p in Hp. cbn in *. congruence.
  - destruct (List.find p PRIORITY_LABELS) as [[l0 p0]|] eqn:Hf; [|discriminate].
    apply find_some in Hf as [Hin _]. cbn in Hin.
    repeat (destruct Hin as [[= <- <-]|Hin]; [discriminate|]). destruct Hin.
Qed.

Lemma first_agent_type_cases (test : string -> bool) (agent_type : string) :
  first_agent_type test = Some agent_type ->
  In agent_type ["frontend"; "backend"; "devops"; "testing"; "database"; "reviewer"].
Proof.
  unfold first_agent_type. destruct (List.find _ AGENT_LABELS) as [[a kws]|] eqn:Hf;
    [|discriminate].
  intros [= <-]. apply find_some in Hf as [Hin _]. cbn in Hin |- *.
  repeat (destruct Hin as [[= <- <-]|Hin]; [auto 10|]). destruct Hin.
Qed.

(** With the keyword database the test passes for the entry of the backend
    agent, the second one: the result is the frontend or the backend
    agent. *)
Lemma first_agent_type_database (test : string -> bool) :
  test "database" = true ->
  first_agent_type test = Some "frontend" \/ first_agent_type test = Some "backend".
Proof.
  intros Hdb. unfold first_agent_type, AGENT_LABELS. cbn [List.find snd].
  destruct (existsb test ["frontend"; "ui"; "react"; "vue"; "angular"; "css"; "html"]);
    [now left|].
  right.
  assert (H : existsb test ["backend"; "api"; "server"; "database"; "python"; "node"; "go"]
              = true).
  { apply existsb_exists. exists "database". split; [cbn; auto|exact Hdb]. }
  now rewrite H.
Qed.

(** X23.  [infer_agent_type] returns one of the six agent types, and the
    labels decide before the text: when a keyword is among the labels, the
    title and the body are not looked at.  An issue with the label database
    never goes to the database agent, since that keyword stands in the list
    of the backend agent too, which comes first; nor does an unlabelled issue
    whose text says database.  A keyword only has to occur in the text: the
    title ["Fix build script"] goes to the frontend agent, for the [ui] in
    [build]. *)
Theorem infer_agent_type_cases (labels : list string) (title body : string) :
  In (infer_agent_type labels title body)
    ["frontend"; "backend"; "devops"; "testing"; "database"; "reviewer"]
  /\ (forall agent_type title' body',
        first_agent_type (fun kw => mem kw (List.map lower_string labels))
        = Some agent_type ->
        infer_agent_type labels title' body' = agent_type)
  /\ (mem "database" (List.map lower_string labels) = true ->
      infer_agent_type labels title body <> "database")
  /\ (first_agent_type (fun kw => mem kw (List.map lower_string labels)) = None ->
      contains (of_string "database") (lower (of_string (title +:+ " " +:+ body))) = true ->
      infer_agent_type labels title body <> "database")
  /\ infer_agent_type [] "Fix build script" "" = "frontend".
Proof.
  unfold infer_agent_type.
  split; [|split; [|split; [|split]]].
  - destruct (first_agent_type (fun kw => mem kw _)) as [a|] eqn:H1;
      [exact (first_agent_type_cases _ _ H1)|].
    destruct (first_agent_type (fun kw => contains _ _)) as [a|] eqn:H2;
      [exact (first_agent_type_cases _ _ H2) | cbn; auto].
  - intros agent_type title' body' ->. reflexivity.
  - intros Hdb.
    destruct (first_agent_type_database
                (fun kw => mem kw (List.map lower_string labels)) Hdb) as [->| ->];
      discriminate.
  - intros -> Hdb.
    destruct (first_agent_type_database
                (fun kw => contains (of_string kw)
                             (lower (of_string (title +:+ " " +:+ body)))) Hdb)
      as [->| ->]; discriminate.
  - vm_compute. reflexivity.
Qed.

End Labels.

(** ** The context of an issue *)

Section IssueContext.
Import Py comment_parser.

(** Joining the lines of a text gives the text back. *)
Lemma join_split_nl (s : str) : join [nl] (split_nl s) = s.
Proof.
  induction s as [|c s IH]; [reflexivity|]. cbn [split_nl].
  pose proof (split_nl_nonempty s) as Hne.
  destruct (Ascii.eqb_spec c nl) as [->|Hc].
  - destruct (split_nl s) as [|l ls]; [contradiction|].
    change (join [nl] ([] :: l :: ls)) with ([] ++ [nl] ++ join [nl] (l :: ls)).
    now rewrite IH.
  - destruct (split_nl s) as [|l ls]; [contradiction|].
    destruct ls as [|l' ls].
    + cbn [join] in *. now subst.
    + change (join [nl] ((c :: l) :: l' :: ls))
        with (c :: (l ++ [nl] ++ join [nl] (l' :: ls))).
      change (join [nl] (l :: l' :: ls)) with (l ++ [nl] ++ join [nl] (l' :: ls)) in IH.
      now rewrite IH.
Qed.

Lemma split_nl_app (a b : str) : split_nl (a ++ nl :: b) = split_nl a ++ split_nl b.
Proof.
  induction a as [|c a IH]; cbn [app split_nl].
  - now rewrite Ascii.eqb_refl.
  - destruct (Ascii.eqb c nl); [now rewrite IH|]. rewrite IH.
    pose proof (split_nl_nonempty a) as Hne.
    destruct (split_nl a) as [|l ls]; [contradiction | reflexivity].
Qed.

(** The loop, and the save after it. *)
Lemma scan_lines_state (lines : list str) (ctx : context_data) (sec : string)
    (content : list str) :
  scan_lines lines ctx sec content
  = let '(ctx', sec', content') := scan_state lines ctx sec content in
    _save_section ctx' sec' content'.
Proof.
  revert ctx sec content. induction lines as [|line lines IH]; intros ctx sec content;
    [reflexivity|].
  cbn [scan_lines scan_state]. destruct (startswith line (of_string "## ")); apply IH.
Qed.

Lemma scan_state_app (l1 l2 : list str) (ctx : context_data) (sec : string)
    (content : list str) :
  scan_state (l1 ++ l2) ctx sec content
  = let '(ctx', sec', content') := scan_state l1 ctx sec content in
    scan_state l2 ctx' sec' content'.
Proof.
  revert ctx sec content. induction l1 as [|line l1 IH]; intros ctx sec content.
  - cbn [app scan_state]. reflexivity.
  - cbn [app scan_state]. destruct (startswith line (of_string "## ")); apply IH.
Qed.

Lemma scan_state_plain (lines : list str) (ctx : context_data) (sec : string)
    (content : list str) :
  Forall no_header lines ->
  scan_state lines ctx sec content = (ctx, sec, content ++ lines).
Proof.
  intros H. revert content. induction H as [|line lines Hl _ IH]; intros content.
  - cbn. now rewrite app_nil_r.
  - cbn [scan_state]. rewrite Hl, IH, <- app_assoc. reflexivity.
Qed.

(** X24.  An issue body without a header.  If no line of the body starts
    with ["## "], the description extracted is the body, stripped, and the
    acceptance criteria, the related files and the context notes are
    empty. *)
Theorem body_without_header_is_the_description (issue_body : string) :
  Forall no_header (split_nl (of_string issue_body)) ->
  extract_task_context issue_body
  = mk_context (to_string (strip (of_string issue_body))) [] [] "".
Proof.
  intros H. unfold extract_task_context.
  rewrite scan_lines_state, (scan_state_plain _ _ _ _ H). cbn [app].
  unfold _save_section. cbn [String.eqb Ascii.eqb Bool.eqb].
  now rewrite join_split_nl.
Qed.

(** X25.  A later section replaces the description.  The description is
    saved each time a section that is none of the three others ends, and
    the latest save wins: a header that names no known section, at the end
    of a body, leaves an empty description, whatever the body said before
    it; the criteria, files and notes are those of the body without that
    line. *)
Theorem trailing_header_erases_the_description (body header : str) :
  Forall (fun c => c <> nl) header ->
  section_of_header (lower (strip header)) = "description" ->
  extract_task_context (to_string (body ++ nl :: of_string "## " ++ header))
  = set_description "" (extract_task_context (to_string body)).
Proof.
  intros Hh Hsec. unfold extract_task_context.
  rewrite !of_to_string, split_nl_app, !scan_lines_state, scan_state_app.
  destruct (scan_state (split_nl body) _ _ _) as [[ctx sec] content].
  assert (Hline : split_nl (of_string "## " ++ header) = [of_string "## " ++ header]).
  { apply split_nl_line. apply Forall_app. split; [repeat constructor; discriminate|exact Hh]. }
  rewrite Hline. cbn [scan_state of_string list_ascii_of_string app startswith
                      Ascii.eqb Bool.eqb andb drop].
  rewrite drop_0, Hsec. reflexivity.
Qed.

Lemma digit_not_below (c d : ascii) :
  ReSub.isdigit d = true -> (code c < 48)%N -> Ascii.eqb c d = false.
Proof.
  unfold ReSub.isdigit. intros Hd Hc. apply andb_true_iff in Hd as [Hd _].
  apply N.leb_le in Hd. destruct (Ascii.eqb_spec c d) as [->|]; [lia|reflexivity].
Qed.

Lemma digit_not_space (d : ascii) : ReSub.isdigit d = true -> isspace d = false.
Proof.
  unfold ReSub.isdigit, isspace. intros Hd. apply andb_true_iff in Hd as [H1 H2].
  apply N.leb_le in H1. apply N.leb_le in H2.
  apply orb_false_iff. split; apply andb_false_iff.
  - right. apply N.leb_gt. lia.
  - right. apply N.leb_gt. lia.
Qed.

(** X26.  The criteria numbered 10 and beyond are dropped.  A line is a
    criterion if, stripped, it starts with a dash, a star or one of ["1."]
    to ["9."]: a line that starts with two digits is none, whatever follows,
    so of a numbered list the items from the tenth on are left out, as is an
    item numbered 0.  The item ["9. Works"] is the criterion ["Works"]; the
    item ["10. Works"] is no criterion. *)
Theorem criteria_numbered_from_ten_are_dropped (d1 d2 : ascii) (rest : str) :
  ReSub.isdigit d1 = true ->
  ReSub.isdigit d2 = true ->
  criterion_of (d1 :: d2 :: rest) = None
  /\ criterion_of (of_string "9. Works") = Some "Works"
  /\ criterion_of (of_string "10. Works") = None
  /\ criterion_of (of_string "0. Works") = None.
Proof.
  intros H1 H2. split; [|repeat split; vm_compute; reflexivity].
  unfold criterion_of.
  assert (Hstrip : strip (d1 :: d2 :: rest) = d1 :: d2 :: rstrip rest).
  { unfold strip. rewrite lstrip_nonspace by (cbn; now apply digit_not_space).
    apply (rstrip_after_word [] [d1; d2] rest); [discriminate|].
    repeat constructor; now apply digit_not_space. }
  rewrite Hstrip.
  assert (Hdot : Ascii.eqb "." d2 = false) by (apply digit_not_below; [exact H2|cbn; lia]).
  assert (Hdash : Ascii.eqb "-" d1 = false) by (apply digit_not_below; [exact H1|cbn; lia]).
  assert (Hstar : Ascii.eqb "*" d1 = false) by (apply digit_not_below; [exact H1|cbn; lia]).
  cbn [CRITERION_PREFIXES List.map of_string list_ascii_of_string startswith_any existsb
       startswith].
  rewrite Hdot, Hdash, Hstar. cbn [andb orb]. rewrite !andb_false_r. reflexivity.
Qed.

(** The pattern matches at a digit or at the start of the line. *)
Lemma bullet_no_match_plain (c : ascii) (s : str) (pos : nat) :
  ReSub.isdigit c = false -> pos <> 0%nat ->
  ReSub.rmatch BULLET_PATTERN pos (c :: s) (fun pos' s' => Some (pos', s')) = None.
Proof.
  intros Hc Hpos. unfold BULLET_PATTERN. cbn [ReSub.rmatch ReSub.rep ReSub.in_cset].
  apply Nat.eqb_neq in Hpos. now rewrite Hpos, Hc.
Qed.

Lemma bullet_no_match_end (pos : nat) :
  pos <> 0%nat ->
  ReSub.rmatch BULLET_PATTERN pos [] (fun pos' s' => Some (pos', s')) = None.
Proof.
  intros Hpos. unfold BULLET_PATTERN. cbn [ReSub.rmatch ReSub.rep].
  apply Nat.eqb_neq in Hpos. now rewrite Hpos.
Qed.

Lemma sub_from_step (fuel : nat) (r : ReSub.regex) (pos : nat) (s : str) :
  ReSub.sub_from (S fuel) r pos s
  = match ReSub.rmatch r pos s (fun pos' s' => Some (pos', s')) with
    | Some (pos', s') =>
        if (pos <? pos')%nat then ReSub.sub_from fuel r pos' s'
        else match s with
             | [] => []
             | c :: s'' => c :: ReSub.sub_from fuel r (S pos) s''
             end
    | None =>
        match s with
        | [] => []
        | c :: s'' => c :: ReSub.sub_from fuel r (S pos) s''
        end
    end.
Proof. reflexivity. Qed.

(** A text without digits, after the start of the line, is kept as it is. *)
Lemma sub_from_plain (s : str) :
  Forall plain_char s ->
  forall fuel pos, pos <> 0%nat -> ReSub.sub_from fuel BULLET_PATTERN pos s = s.
Proof.
  induction 1 as [|c s [Hc _] _ IH]; intros fuel pos Hpos.
  - destruct fuel; [reflexivity|]. cbn [ReSub.sub_from].
    now rewrite bullet_no_match_end.
  - destruct fuel; [reflexivity|]. cbn [ReSub.sub_from].
    rewrite (bullet_no_match_plain _ _ _ Hc Hpos). f_equal. now apply IH.
Qed.

Lemma sub_from_plain_prefix (a t : str) :
  Forall plain_char a ->
  forall fuel pos, pos <> 0%nat ->
  ReSub.sub_from (length a + fuel) BULLET_PATTERN pos (a ++ t)
  = a ++ ReSub.sub_from fuel BULLET_PATTERN (length a + pos) t.
Proof.
  induction 1 as [|c a [Hc _] _ IH]; intros fuel pos Hpos; [reflexivity|].
  cbn [length app Nat.add ReSub.sub_from].
  rewrite (bullet_no_match_plain _ _ _ Hc Hpos). f_equal.
  rewrite IH by lia. f_equal. f_equal. lia.
Qed.

(** The match at a digit that a dot follows: the digit, the dot, and no
    whitespace, since a character that is none follows. *)
Lemma bullet_match_digit (d : ascii) (b : str) (pos : nat) :
  ReSub.isdigit d = true -> pos <> 0%nat ->
  Forall plain_char b ->
  ReSub.rmatch BULLET_PATTERN pos (d :: "."%char :: b) (fun pos' s' => Some (pos', s'))
  = Some (S (S pos), b).
Proof.
  intros Hd Hpos Hb. unfold BULLET_PATTERN.
  cbn [ReSub.rmatch ReSub.rep ReSub.in_cset of_string list_ascii_of_string existsb].
  apply Nat.eqb_neq in Hpos. rewrite Hpos, Hd.
  change (ReSub.isdigit ".") with false. cbv iota.
  cbn [Ascii.eqb Bool.eqb orb andb].
  destruct Hb as [|c b [_ Hc] _]; [reflexivity|]. cbn [ReSub.rep ReSub.in_cset].
  now rewrite Hc.
Qed.

(** X27.  A number with a dot is deleted wherever it stands in a
    criterion.  The pattern that removes the bullet has an alternative,
    digits and a dot, that is not tied to the start of the line, and every
    match is deleted.  For every criterion "- a" followed by a digit, a dot
    and "b", where neither a nor b has a digit or whitespace, the criterion
    recorded is "ab": so ["- Support v2.0 API"] is recorded as
    ["Support v0 API"]. *)
Theorem criterion_loses_numbers_with_a_dot (a b : str) (d : ascii) :
  a <> [] ->
  Forall plain_char a ->
  Forall plain_char b ->
  ReSub.isdigit d = true ->
  criterion_of (of_string "- " ++ a ++ d :: "."%char :: b) = Some (to_string (a ++ b))
  /\ criterion_of (of_string "- Support v2.0 API") = Some "Support v0 API".
Proof.
  intros Hne Ha Hb Hd. split; [|vm_compute; reflexivity].
  set (w := a ++ d :: "."%char :: b).
  assert (Hw : Forall (fun c => isspace c = false) w).
  { unfold w. apply Forall_app. split.
    - eapply Forall_impl; [exact Ha|]. now intros c [_ Hc].
    - constructor; [now apply digit_not_space|]. constructor; [reflexivity|].
      eapply Forall_impl; [exact Hb|]. now intros c [_ Hc]. }
  assert (Hwne : w <> []) by (unfold w; now destruct a).
  assert (Hstrip : strip (of_string "- " ++ w) = of_string "- " ++ w).
  { unfold strip. rewrite lstrip_nonspace by reflexivity.
    pose proof (rstrip_after_word (of_string "- ") w [] Hwne Hw) as H.
    rewrite app_nil_r in H. rewrite H. cbn [rstrip rev lstrip]. now rewrite app_nil_r. }
  unfold criterion_of. rewrite Hstrip.
  assert (Hsub : ReSub.sub BULLET_PATTERN (of_string "- " ++ w) = a ++ b).
  { unfold ReSub.sub. cbn [of_string list_ascii_of_string app].
    assert (Hfirst : ReSub.rmatch BULLET_PATTERN 0 ("-"%char :: " "%char :: w)
                       (fun pos' s' => Some (pos', s')) = Some (2%nat, w)).
    { unfold BULLET_PATTERN.
      cbn [ReSub.rmatch ReSub.rep ReSub.in_cset of_string list_ascii_of_string existsb
           Nat.eqb Ascii.eqb Bool.eqb orb andb].
      change (isspace " ") with true. cbv iota.
      destruct w as [|c w']; [contradiction|]. cbn [ReSub.rep ReSub.in_cset].
      apply Forall_cons in Hw as [Hc _]. now rewrite Hc. }
    rewrite sub_from_step, Hfirst. cbn [Nat.ltb Nat.leb length].
    unfold w. rewrite length_app. cbn [length].
    replace (S (S (length a + S (S (length b)))))
      with (length a + S (S (S (S (length b)))))%nat by lia.
    rewrite (sub_from_plain_prefix a _ Ha) by lia. f_equal.
    rewrite sub_from_step, (bullet_match_digit d b _ Hd) by (try lia; exact Hb).
    assert (Hlt : (length a + 2 <? S (S (length a + 2)))%nat = true)
      by (apply Nat.ltb_lt; lia).
    rewrite Hlt. now apply sub_from_plain. }
  rewrite Hsub.
  cbn [CRITERION_PREFIXES List.map of_string list_ascii_of_string startswith_any existsb
       startswith app Ascii.eqb Bool.eqb andb orb].
  destruct a as [|c a']; [contradiction|]. reflexivity.
Qed.

(** X28.  The related files are the bulleted paths with a slash or a dot.
    In the condition [path and "/" in path or "." in path] the test of
    [path] changes nothing: a bulleted line is kept if and only if its path
    holds a slash or a dot.  So a file name without either, as [Makefile],
    is left out; and a line without a bullet is never kept. *)
Theorem related_file_needs_a_slash_or_a_dot (line : str) :
  related_file_of line
  = (if startswith_any (strip line) (List.map of_string ["-"; "*"]) then
       let path := strip (lstrip_chars (of_string "-* ") (strip line)) in
       if contains (of_string "/") path || contains (of_string ".") path
       then Some (to_string path) else None
     else None)
  /\ related_file_of (of_string "- Makefile") = None
  /\ related_file_of (of_string "- src/Makefile") = Some "src/Makefile"
  /\ related_file_of (of_string "src/main.py") = None.
Proof.
  split; [|repeat split; vm_compute; reflexivity].
  unfold related_file_of.
  destruct (startswith_any (strip line) _); [|reflexivity]. cbv zeta.
  destruct (strip (lstrip_chars (of_string "-* ") (strip line))) as [|c path];
    reflexivity.
Qed.

End IssueContext.

Lemma body_without_header_is_the_description_witness :
  Forall no_header (Py.split_nl (Py.of_string " Fix the login page "))
  /\ comment_parser.extract_task_context " Fix the login page "
     = comment_parser.mk_context "Fix the login page" [] [] "".
Proof.
  assert (H : Forall no_header (Py.split_nl (Py.of_string " Fix the login page ")))
    by (repeat constructor).
  split; [exact H|].
  exact (body_without_header_is_the_description " Fix the login page " H).
Defined.

Lemma trailing_header_erases_the_description_witness :
  Forall (fun c => c <> Py.nl) (Py.of_string "Notes")
  /\ comment_parser.section_of_header (Py.lower (Py.strip (Py.of_string "Notes")))
     = "description"
  /\ comment_parser.extract_task_context
       (Py.to_string (Py.of_string "Fix the login page" ++ Py.nl :: Py.of_string "## "
                      ++ Py.of_string "Notes"))
     = comment_parser.set_description ""
         (comment_parser.extract_task_context
            (Py.to_string (Py.of_string "Fix the login page"))).
Proof.
  assert (H : Forall (fun c => c <> Py.nl) (Py.of_string "Notes"))
    by (repeat constructor; discriminate).
  split; [exact H|]. split; [reflexivity|].
  exact (trailing_header_erases_the_description (Py.of_string "Fix the login page")
           (Py.of_string "Notes") H eq_refl).
Defined.

Lemma criteria_numbered_from_ten_are_dropped_witness :
  ReSub.isdigit "1" = true
  /\ ReSub.isdigit "2" = true
  /\ comment_parser.criterion_of ("1" :: "2" :: Py.of_string ". Twelfth")%char = None.
Proof.
  split; [reflexivity|]. split; [reflexivity|].
  exact (proj1 (criteria_numbered_from_ten_are_dropped "1" "2" (Py.of_string ". Twelfth")
                  eq_refl eq_refl)).
Defined.

Lemma criterion_loses_numbers_with_a_dot_witness :
  Forall plain_char (Py.of_string "v")
  /\ Forall plain_char (Py.of_string "beta")
  /\ comment_parser.criterion_of (Py.of_string "- v3.beta") = Some "vbeta".
Proof.
  assert (Ha : Forall plain_char (Py.of_string "v")) by (repeat constructor).
  assert (Hb : Forall plain_char (Py.of_string "beta")) by (repeat constructor).
  split; [exact Ha|]. split; [exact Hb|].
  exact (proj1 (criterion_loses_numbers_with_a_dot (Py.of_string "v") (Py.of_string "beta")
                  "3" ltac:(discriminate) Ha Hb eq_refl)).
Defined.

(** ** The arguments of a command *)

Section CommandArguments.
Import Py Re comment_parser.

Lemma span_word_prefix (p : ascii -> bool) (w r : str) :
  Forall (fun c => p c = true) w ->
  span p (w ++ r) = (w ++ (span p r).1, (span p r).2).
Proof.
  induction 1 as [|c w Hc _ IH]; cbn [app span].
  - now destruct (span p r).
  - rewrite Hc, IH. reflexivity.
Qed.

Lemma span_run_stop (p : ascii -> bool) (w r : str) :
  Forall (fun c => p c = true) w ->
  match r with [] => True | c :: _ => p c = false end ->
  span p (w ++ r) = (w, r).
Proof.
  intros Hw Hr. rewrite (span_word_prefix p w r Hw).
  destruct r as [|c r]; cbn [span fst snd]; [now rewrite app_nil_r|].
  rewrite Hr. cbn [fst snd]. now rewrite app_nil_r.
Qed.

(** The first of the runs that [split] returns. *)
Lemma split_aux_first_word (w r cur : str) :
  Forall (fun c => isspace c = false) w ->
  rev cur ++ w <> [] ->
  match r with [] => True | c :: _ => isspace c = true end ->
  exists l, split_aux (w ++ r) cur = (rev cur ++ w) :: l.
Proof.
  intros Hw. revert cur. induction Hw as [|c w Hc _ IH]; intros cur Hne Hr.
  - cbn [app]. rewrite app_nil_r in *. destruct r as [|c r]; cbn [split_aux].
    + destruct cur; [contradiction|]. eauto.
    + rewrite Hr. destruct cur; [contradiction|]. eauto.
  - cbn [app split_aux]. rewrite Hc.
    destruct (IH (c :: cur)) as (l & Hl); [cbn; now destruct (rev cur)|exact Hr|].
    exists l. rewrite Hl. cbn [rev]. now rewrite <- app_assoc.
Qed.

(** X29.  The arguments of a command may come from the next line.  The
    whitespace between the action and its arguments may hold line breaks,
    which the pattern does not exclude: when the line of the command ends
    after the action, the arguments are read from the next line that is not
    blank.  For every comment ["/cloud-code run"] whose next line starts
    with a word, that word is taken as the agent type: the comment
    ["/cloud-code run"], ["Thanks for the help"] asks for the agent
    [Thanks]. *)
Theorem run_takes_its_agent_from_the_next_line (word rest : str) :
  word <> [] ->
  Forall (fun c => isspace c = false) word ->
  match rest with [] => True | c :: _ => isspace c = true end ->
  parse_cloud_code_command
    (to_string (of_string "/cloud-code run" ++ nl :: word ++ rest))
  = inr (Some [("action", Some "run"); ("agent_type", Some (to_string word))]).
Proof.
  intros Hne Hw Hrest. unfold parse_cloud_code_command, search.
  rewrite of_to_string. cbn [of_string list_ascii_of_string app search_from].
  change COMMAND_PATTERN
    with (Seq Bol (lit (of_string "/cloud-code") (tail_pattern false))).
  rewrite pattern_match. cbn [at_bol].
  set (tail := nl :: word ++ rest).
  match goal with
  | |- context [strip_lit ?fl ?l ?p ?t] =>
      change (strip_lit fl l p t) with (Some (Some "e"%char, of_string " run" ++ tail))
  end.
  cbv iota beta.
  (* the scan of what follows the prefix *)
  assert (Hscan : scan_tail false [] (of_string " run" ++ tail)
                  = Some [(2%nat, word ++ (span (fun c => negb (Ascii.eqb c nl)) rest).1);
                          (1%nat, of_string "run")]).
  { assert (Hhd : match word ++ rest with [] => True | c :: _ => isspace c = false end).
    { destruct word as [|c0 word']; [contradiction|]. now inversion Hw. }
    assert (H1 : span isspace (of_string " run" ++ tail)
                 = (of_string " ", of_string "run" ++ tail)).
    { apply (span_run_stop isspace (of_string " ")); [now repeat constructor | reflexivity]. }
    assert (H2 : span isword (of_string "run" ++ tail) = (of_string "run", tail)).
    { apply span_run_stop; [now repeat constructor | reflexivity]. }
    assert (H3 : span isspace tail = ([nl], word ++ rest)).
    { apply (span_run_stop isspace [nl]); [now repeat constructor | exact Hhd]. }
    assert (H4 : span (fun c => negb (Ascii.eqb c nl)) (word ++ rest)
                 = (word ++ (span (fun c => negb (Ascii.eqb c nl)) rest).1,
                    (span (fun c => negb (Ascii.eqb c nl)) rest).2)).
    { apply span_word_prefix. eapply Forall_impl; [exact Hw|]. cbn. intros c Hc.
      apply negb_true_iff, Ascii.eqb_neq. intros ->. discriminate Hc. }
    unfold scan_tail. rewrite H1. cbn [of_string list_ascii_of_string].
    cbn [of_string list_ascii_of_string] in H2. rewrite H2.
    unfold tail at 1. rewrite H3, H4. reflexivity. }
  rewrite Hscan. clear Hscan.
  set (line_rest := (span (fun c => negb (Ascii.eqb c nl)) rest).1).
  assert (Hhead : match rstrip line_rest with [] => True | c :: _ => isspace c = true end).
  { unfold line_rest. destruct rest as [|c rest']; [exact I|]. cbn [span].
    destruct (negb (Ascii.eqb c nl)); [|exact I].
    destruct (span _ rest') as [a b]. cbn [fst].
    destruct (rstrip_head c a) as [->|(r' & ->)]; [exact I | exact Hrest]. }
  assert (Hargs : args_of [(2%nat, word ++ line_rest); (1%nat, of_string "run")]
                  = word ++ rstrip line_rest).
  { unfold args_of. cbn [group Nat.eqb].
    destruct word as [|c0 word'] eqn:Hword; [contradiction|]. cbn [app].
    unfold strip. rewrite lstrip_nonspace by (cbn; now inversion Hw).
    exact (rstrip_after_word [] (c0 :: word') line_rest ltac:(discriminate) Hw). }
  rewrite Hargs. unfold action_of. cbn [group Nat.eqb default].
  change (to_string (lower (of_string "run"))) with "run".
  unfold command_of. cbn [String.eqb Ascii.eqb Bool.eqb].
  destruct (split_aux_first_word word (rstrip line_rest) [] Hw) as (l & Hl);
    [cbn; exact Hne | exact Hhead |].
  unfold split. rewrite Hl. cbn [rev app].
  destruct word as [|c0 word']; [contradiction|]. reflexivity.
Qed.

End CommandArguments.

Lemma run_takes_its_agent_from_the_next_line_witness :
  Forall (fun c => Py.isspace c = false) (Py.of_string "Thanks")
  /\ comment_parser.parse_cloud_code_command
       (Py.to_string (Py.of_string "/cloud-code run" ++ Py.nl :: Py.of_string "Thanks"
                      ++ Py.of_string " for the help"))
     = inr (Some [("action", Some "run"); ("agent_type", Some "Thanks")]).
Proof.
  assert (H : Forall (fun c => Py.isspace c = false) (Py.of_string "Thanks"))
    by (repeat constructor).
  split; [exact H|].
  exact (run_takes_its_agent_from_the_next_line (Py.of_string "Thanks")
           (Py.of_string " for the help") ltac:(discriminate) H eq_refl).
Defined.
